(** * Itinerary app: suggestion ranking, place search fallback and
      itinerary generation

    A shallow embedding of the server side of the itinerary app:

    - [MemStorage], [PgStorage]: the itinerary store of [server/storage.ts];
    - [OpenAI]: [generateItinerary];
    - [Routes], [ItineraryRoutes]: the handlers of [server/routes.ts];
    - [GooglePlaces]: the class [GooglePlacesService] in its coordinate-aware
      form ([convertToTravelSuggestions (places, userLat?, userLng?)],
      haversine distance, 40 km/h travel time, at most six suggestions), on
      its regular inputs;
    - [GooglePlacesDemo]: the form of the same class kept in
      [server/services/google-places.ts], which [server/routes.ts] imports
      (a demo distance drawn from [Math.random], at most eight suggestions),
      on its regular inputs;
    - [Service], [ServiceDemo], [SuggestionsRoute]: the two forms of the
      class and the suggestions route on every input.

    The regular inputs are places whose tags are place types, and distances
    that are numbers.  On them a conversion always returns, and [GooglePlaces]
    and [GooglePlacesDemo] describe it by total functions.  On every input
    there are two more behaviours, and [Service] and [ServiceDemo] have them:
    a tag may name a property that the object literal [typeMap] inherits
    ([constructor], [toString], ...), and then [getPlaceType] returns no
    string and [generateDescription] throws; and the doubles can round the
    haversine term above 1, and then the distance is [NaN].
    [convertToTravelSuggestions_regular] relates the two descriptions.

    Conventions.  A JavaScript [number] is a real number, or [NaN] where
    [Number.t] is used: rounding of IEEE doubles is not modelled, except for
    the rounding error of the haversine term, which is an input of
    [Service.calculateDistance], and the infinities do not arise.  Integers
    that the code obtains with [Math.round] or [Math.floor] are in [Z].
    [x?: T] is [option T].  Calls of [console.log] and [console.error] are
    diagnostic output and are left out.  What a remote collaborator answers
    (the places endpoint, the chat completion endpoint) is an input of the
    function that awaits it. *)

From Stdlib Require Import Reals Lra Lia ZArith String Ascii List DecimalString.
From stdpp Require Import gmap strings list fin_maps.
Import ListNotations.

(** ** The JavaScript primitives the code relies on *)

Module JS.

Local Open Scope R_scope.

(** [Math.floor] and [Math.round] (halves go up). *)
Definition Math_floor (x : R) : Z := Zfloor x.
Definition Math_round (x : R) : Z := Zfloor (x + / 2).

(** [`${n}`] for an integral number. *)
Definition Number_toString (n : Z) : string :=
  NilZero.string_of_int (Z.to_int n).

(** [x.toFixed(1)]: the integer [n] with [n / 10] nearest to [x], the larger
    one on a tie, printed with one fractional digit. *)
Definition toFixed1_abs (x : R) : string :=
  let n := Zfloor (x * 10 + / 2) in
  Number_toString (n / 10) +:+ "." +:+ Number_toString (n mod 10).

Definition toFixed1 (x : R) : string :=
  if Rlt_dec x 0 then "-" +:+ toFixed1_abs (- x) else toFixed1_abs x.

(** Truthiness of a number and of a string. *)
Definition truthy_number (x : R) : bool :=
  if Req_dec_T x 0 then false else true.

Definition truthy_string (s : string) : bool :=
  match s with EmptyString => false | _ => true end.

(** [a || b] on an optional number and on an optional string. *)
Definition or_number (x : option R) (d : R) : R :=
  match x with
  | Some v => if truthy_number v then v else d
  | None => d
  end.

Definition or_string (x : option string) (d : string) : string :=
  match x with
  | Some v => if truthy_string v then v else d
  | None => d
  end.

(** [`${x}`] for an optional string. *)
Definition template_opt_string (x : option string) : string :=
  match x with Some v => v | None => "undefined" end.

(** [s.toLowerCase()] on the ASCII letters. *)
Definition lower_ascii (c : ascii) : ascii :=
  let n := nat_of_ascii c in
  if (65 <=? n)%nat && (n <=? 90)%nat then ascii_of_nat (n + 32) else c.

Fixpoint toLowerCase (s : string) : string :=
  match s with
  | EmptyString => EmptyString
  | String c r => String (lower_ascii c) (toLowerCase r)
  end.

(** [arr.includes(x)] on an array of strings. *)
Definition includes (arr : list string) (x : string) : bool :=
  existsb (String.eqb x) arr.

(** [arr.slice(0, n)]. *)
Definition slice0 {A : Type} (n : nat) (arr : list A) : list A := firstn n arr.

(** [Math.atan2] on the reals. *)
Definition Math_atan2 (y x : R) : R :=
  if Rlt_dec 0 x then atan (y / x)
  else if Rlt_dec x 0 then
    (if Rle_dec 0 y then atan (y / x) + PI else atan (y / x) - PI)
  else if Rlt_dec 0 y then PI / 2
  else if Rlt_dec y 0 then - (PI / 2)
  else 0.

End JS.

(** ** Places and suggestions, shared by both forms of the service *)

Module Photo.
Record t : Type := mk { photo_reference : string; height : R; width : R }.
End Photo.

Module LatLng.
Record t : Type := mk { lat : R; lng : R }.
End LatLng.

Module Geometry.
Record t : Type := mk { location : option LatLng.t }.
End Geometry.

(** [interface GooglePlace].  [geometry] is read through [?.], so it may be
    missing in what the endpoint sends. *)
Module GooglePlace.
Record t : Type := mk {
  place_id : string;
  name : string;
  geometry : option Geometry.t;
  types : list string;
  rating : option R;
  user_ratings_total : option R;
  vicinity : option string;
  photos : option (list Photo.t)
}.
End GooglePlace.

(** [interface TravelSuggestion]. *)
Module TravelSuggestion.
Record t : Type := mk {
  id : string;
  name : string;
  distance : string;
  travelTime : string;
  type : string;
  description : string;
  highlights : list string;
  bestFor : list string;
  rating : R;
  location : string;
  photos : option (list string)
}.
End TravelSuggestion.

(** The methods that are the same, word for word, in both forms of
    [GooglePlacesService].  [typeMap] and [getPlaceType] are given here for
    tags that are place types; [PlaceTypes] has them for every tag. *)
Module PlaceClassifier.

Local Open Scope R_scope.

Definition travelTypes : list string :=
  [ "tourist_attraction"; "museum"; "amusement_park"; "zoo"; "aquarium";
    "art_gallery"; "park"; "natural_feature"; "point_of_interest";
    "establishment" ].

(** [place.types.some((type) => travelTypes.includes(type))] *)
Definition isValidTravelDestination (place : GooglePlace.t) : bool :=
  existsb (fun type => JS.includes travelTypes type) (GooglePlace.types place).

(** The own properties of the object literal [typeMap]: a map from tag to
    label. *)
Definition typeMap : gmap string string :=
  list_to_map
    [ ("tourist_attraction", "Tourist Attraction");
      ("museum", "Museum");
      ("amusement_park", "Amusement Park");
      ("zoo", "Zoo");
      ("aquarium", "Aquarium");
      ("art_gallery", "Art Gallery");
      ("park", "Park");
      ("natural_feature", "Natural Feature");
      ("point_of_interest", "Point of Interest") ].

(** [for (const type of place.types) if (typeMap[type]) return typeMap[type]],
    where no tag names an inherited property, so that what is returned is a
    label. *)
Fixpoint getPlaceType_loop (types : list string) : string :=
  match types with
  | [] => "Attraction"
  | type :: rest =>
      match typeMap !! type with
      | Some label =>
          if JS.truthy_string label then label else getPlaceType_loop rest
      | None => getPlaceType_loop rest
      end
  end.

Definition getPlaceType (place : GooglePlace.t) : string :=
  getPlaceType_loop (GooglePlace.types place).

Definition generateHighlights (place : GooglePlace.t) : list string :=
  let types := GooglePlace.types place in
  let highlights := [] in
  let highlights :=
    match GooglePlace.rating place with
    | Some r =>
        if JS.truthy_number r && (if Rge_dec r 4.5 then true else false)
        then highlights ++ ["Highly rated destination"] else highlights
    | None => highlights
    end in
  let highlights :=
    match GooglePlace.user_ratings_total place with
    | Some n =>
        if JS.truthy_number n && (if Rgt_dec n 100 then true else false)
        then highlights ++ ["Popular with visitors"] else highlights
    | None => highlights
    end in
  let highlights :=
    match GooglePlace.photos place with
    | Some ps =>
        if (0 <? length ps)%nat
        then highlights ++ ["Photo-worthy location"] else highlights
    | None => highlights
    end in
  let highlights :=
    if JS.includes types "museum" then
      highlights ++ ["Educational experience"; "Cultural significance"]
    else if JS.includes types "park" then
      highlights ++ ["Outdoor activities"; "Nature experience"]
    else if JS.includes types "tourist_attraction" then
      highlights ++ ["Must-see destination"; "Local landmark"]
    else highlights in
  JS.slice0 3 highlights.

Definition determineBestFor (place : GooglePlace.t) : list string :=
  let types := GooglePlace.types place in
  let bestFor := [] in
  let bestFor :=
    if JS.includes types "museum" || JS.includes types "art_gallery"
    then bestFor ++ ["Culture enthusiasts"; "History buffs"] else bestFor in
  let bestFor :=
    if JS.includes types "park" || JS.includes types "natural_feature"
    then bestFor ++ ["Nature lovers"; "Outdoor activities"] else bestFor in
  let bestFor :=
    if JS.includes types "amusement_park" || JS.includes types "zoo"
    then bestFor ++ ["Families"; "Adventure seekers"] else bestFor in
  let bestFor :=
    if JS.includes types "tourist_attraction"
    then bestFor ++ ["First-time visitors"; "Sightseeing"] else bestFor in
  let bestFor :=
    if (length bestFor =? 0)%nat
    then bestFor ++ ["All travelers"; "Local exploration"] else bestFor in
  JS.slice0 2 bestFor.

(** [distanceKm < 1 ? `${Math.round(distanceKm * 1000)}m`
                    : `${distanceKm.toFixed(1)}km`] *)
Definition distanceStr (distanceKm : R) : string :=
  if Rlt_dec distanceKm 1
  then JS.Number_toString (JS.Math_round (distanceKm * 1000)) +:+ "m"
  else JS.toFixed1 distanceKm +:+ "km".

(** [getFallbackSuggestions()] *)
Definition getFallbackSuggestions : list TravelSuggestion.t :=
  [ TravelSuggestion.mk "fallback-1" "Local Discovery Walk" "2.5km" "30min"
      "Walking Tour"
      "Explore the charming streets and hidden gems of your neighborhood."
      ["Local culture"; "Hidden spots"; "Photo opportunities"]
      ["Explorers"; "Photography"] 4.2 "City Center" (Some []);
    TravelSuggestion.mk "fallback-2" "Historic Downtown" "5.1km" "45min"
      "Historic District"
      "Discover the rich history and architecture of the downtown area."
      ["Historic buildings"; "Local restaurants"; "Shopping"]
      ["History buffs"; "Architecture lovers"] 4.5 "Downtown" (Some []);
    TravelSuggestion.mk "fallback-3" "City Park & Gardens" "3.8km" "20min"
      "Park"
      "Relax and enjoy nature in the beautiful city park with gardens."
      ["Peaceful atmosphere"; "Beautiful gardens"; "Walking trails"]
      ["Nature lovers"; "Relaxation"] 4.3 "Park District" (Some []) ].

End PlaceClassifier.

(** ** The ambient state a method can read or change *)

(** [Math.random] returns the next draw of a stream; [process.env] holds
    [GOOGLE_MAPS_API]. *)
Record World : Type := mkWorld {
  random_draws : nat -> R;
  random_next : nat;
  env_GOOGLE_MAPS_API : option string
}.

Definition Math_random (w : World) : R * World :=
  (random_draws w (random_next w),
   {| random_draws := random_draws w;
      random_next := S (random_next w);
      env_GOOGLE_MAPS_API := env_GOOGLE_MAPS_API w |}).

(** ** The coordinate-aware service, on regular inputs *)

Module GooglePlaces.

Local Open Scope R_scope.
Import PlaceClassifier.

(** [class GooglePlacesService]: its two read-only fields.  [API_KEY] is
    [process.env.GOOGLE_PLACES_API_KEY] at construction. *)
Record GooglePlacesService : Type := mkService {
  API_BASE : string;
  API_KEY : option string
}.

(** [calculateDistance(lat1, lng1, lat2, lng2)]: haversine, in kilometres,
    as a formula over the reals. *)
Definition calculateDistance (lat1 lng1 lat2 lng2 : R) : R :=
  let R_earth := 6371 in
  let dLat := ((lat2 - lat1) * PI) / 180 in
  let dLng := ((lng2 - lng1) * PI) / 180 in
  let a :=
    sin (dLat / 2) * sin (dLat / 2) +
    cos ((lat1 * PI) / 180) * cos ((lat2 * PI) / 180) *
    sin (dLng / 2) * sin (dLng / 2) in
  let c := 2 * JS.Math_atan2 (sqrt a) (sqrt (1 - a)) in
  R_earth * c.

(** The first lines of [mapPlaceToSuggestion]:
    [let distanceKm = 5;
     if (userLat && userLng && place.geometry?.location) distanceKm = ...] *)
Definition distanceKm_of (place : GooglePlace.t) (userLat userLng : option R) : R :=
  match userLat, userLng with
  | Some ulat, Some ulng =>
      if JS.truthy_number ulat && JS.truthy_number ulng then
        match GooglePlace.geometry place with
        | Some g =>
            match Geometry.location g with
            | Some loc =>
                calculateDistance ulat ulng (LatLng.lat loc) (LatLng.lng loc)
            | None => 5
            end
        | None => 5
        end
      else 5
  | _, _ => 5
  end.

(** [Math.round((distanceKm / 40) * 60)] *)
Definition travelTimeMinutes_of (distanceKm : R) : Z :=
  JS.Math_round ((distanceKm / 40) * 60).

(** [travelTimeMinutes < 60 ? `${travelTimeMinutes}min`
      : `${Math.floor(travelTimeMinutes / 60)}h ${travelTimeMinutes % 60}min`] *)
Definition travelTimeStr (travelTimeMinutes : Z) : string :=
  if (travelTimeMinutes <? 60)%Z
  then JS.Number_toString travelTimeMinutes +:+ "min"
  else JS.Number_toString (JS.Math_floor (IZR travelTimeMinutes / 60)) +:+ "h "
       +:+ JS.Number_toString (Z.rem travelTimeMinutes 60) +:+ "min".

Definition photoUrl (this : GooglePlacesService) (photo : Photo.t) : string :=
  "https://maps.googleapis.com/maps/api/place/photo?maxwidth=400&photoreference="
  +:+ Photo.photo_reference photo +:+ "&key="
  +:+ JS.template_opt_string (API_KEY this).

(** [generateDescription(place)], where the display type is a label. *)
Definition generateDescription (place : GooglePlace.t) : string :=
  let type := getPlaceType place in
  "A popular " +:+ JS.toLowerCase type +:+ " in the area. "
  +:+ GooglePlace.name place
  +:+ " offers visitors an authentic local experience and is well-regarded by travelers.".

(** [mapPlaceToSuggestion(place, userLat, userLng)], where the display type
    is a label and the distance a number. *)
Definition mapPlaceToSuggestion (this : GooglePlacesService)
    (place : GooglePlace.t) (userLat userLng : option R) : TravelSuggestion.t :=
  let distanceKm := distanceKm_of place userLat userLng in
  let distanceStr := distanceStr distanceKm in
  let travelTimeMinutes := travelTimeMinutes_of distanceKm in
  let travelTimeStr := travelTimeStr travelTimeMinutes in
  let photos :=
    match GooglePlace.photos place with
    | Some ps => map (photoUrl this) (JS.slice0 3 ps)
    | None => []
    end in
  {| TravelSuggestion.id := GooglePlace.place_id place;
     TravelSuggestion.name := GooglePlace.name place;
     TravelSuggestion.distance := distanceStr;
     TravelSuggestion.travelTime := travelTimeStr;
     TravelSuggestion.type := getPlaceType place;
     TravelSuggestion.description := generateDescription place;
     TravelSuggestion.highlights := generateHighlights place;
     TravelSuggestion.bestFor := determineBestFor place;
     TravelSuggestion.rating := JS.or_number (GooglePlace.rating place) 4.0;
     TravelSuggestion.location :=
       JS.or_string (GooglePlace.vicinity place) "Location not specified";
     TravelSuggestion.photos := Some photos |}.

(** [places.filter(isValidTravelDestination)
          .map(place => mapPlaceToSuggestion(place, userLat, userLng))
          .slice(0, 6)] *)
Definition convertToTravelSuggestions (this : GooglePlacesService)
    (places : list GooglePlace.t) (userLat userLng : option R)
    : list TravelSuggestion.t :=
  JS.slice0 6
    (map (fun place => mapPlaceToSuggestion this place userLat userLng)
       (List.filter isValidTravelDestination places)).

(** A call of [convertToTravelSuggestions] in a world: the method reads its
    arguments and [this], and neither draws from [Math.random] nor reads or
    writes [process.env]. *)
Definition call_convertToTravelSuggestions (this : GooglePlacesService)
    (places : list GooglePlace.t) (userLat userLng : option R) (w : World)
    : list TravelSuggestion.t * World :=
  (convertToTravelSuggestions this places userLat userLng, w).

End GooglePlaces.

(** ** The service as kept in [server/services/google-places.ts], on
       regular inputs *)

Module GooglePlacesDemo.

Local Open Scope R_scope.
Import PlaceClassifier.

(** [`${x}`] for a number that need not be integral is the host's shortest
    decimal; it is taken as given. *)
Section WithNumberFormat.

Variable number_toString : R -> string.

(** [Math.round(travelTimeMinutes / 60)] in the hour branch, as written. *)
Definition travelTimeStr (travelTimeMinutes : Z) : string :=
  if (travelTimeMinutes <? 60)%Z
  then JS.Number_toString travelTimeMinutes +:+ "min"
  else JS.Number_toString (JS.Math_round (IZR travelTimeMinutes / 60)) +:+ "h "
       +:+ JS.Number_toString (Z.rem travelTimeMinutes 60) +:+ "min".

Definition photoUrl (w : World) (photo : Photo.t) : string :=
  "https://maps.googleapis.com/maps/api/place/photo?maxwidth=400&photoreference="
  +:+ Photo.photo_reference photo +:+ "&key="
  +:+ JS.template_opt_string (env_GOOGLE_MAPS_API w).

Definition generateDescription (place : GooglePlace.t) : string :=
  let type := getPlaceType place in
  let rating :=
    match GooglePlace.rating place with
    | Some r =>
        if JS.truthy_number r
        then " with " +:+ number_toString r +:+ " stars" else ""
    | None => ""
    end in
  "A popular " +:+ JS.toLowerCase type +:+ " in the area" +:+ rating +:+ ". "
  +:+ GooglePlace.name place
  +:+ " offers visitors an authentic local experience and is well-regarded by travelers.".

(** [const distanceKm = Math.random() * 20 + 1] and the rest of
    [mapPlaceToSuggestion(place)]. *)
Definition mapPlaceToSuggestion (place : GooglePlace.t) (w : World)
    : TravelSuggestion.t * World :=
  let '(draw, w) := Math_random w in
  let distanceKm := draw * 20 + 1 in
  let distanceStr := distanceStr distanceKm in
  let travelTimeMinutes := JS.Math_round (distanceKm * 12) in
  let travelTimeStr := travelTimeStr travelTimeMinutes in
  let photos :=
    match GooglePlace.photos place with
    | Some ps => map (photoUrl w) (JS.slice0 3 ps)
    | None => []
    end in
  ({| TravelSuggestion.id := GooglePlace.place_id place;
      TravelSuggestion.name := GooglePlace.name place;
      TravelSuggestion.distance := distanceStr;
      TravelSuggestion.travelTime := travelTimeStr;
      TravelSuggestion.type := getPlaceType place;
      TravelSuggestion.description := generateDescription place;
      TravelSuggestion.highlights := generateHighlights place;
      TravelSuggestion.bestFor := determineBestFor place;
      TravelSuggestion.rating := JS.or_number (GooglePlace.rating place) 4.0;
      TravelSuggestion.location :=
        JS.or_string (GooglePlace.vicinity place) "Location not specified";
      TravelSuggestion.photos := Some photos |}, w).

(** [Array.prototype.map] with a callback that threads the world. *)
Fixpoint map_in_world {A B : Type} (f : A -> World -> B * World)
    (l : list A) (w : World) : list B * World :=
  match l with
  | [] => ([], w)
  | x :: rest =>
      let '(y, w) := f x w in
      let '(ys, w) := map_in_world f rest w in
      (y :: ys, w)
  end.

(** [places.filter(isValidTravelDestination).slice(0, 8)
          .map(place => mapPlaceToSuggestion(place))] *)
Definition convertToTravelSuggestions (places : list GooglePlace.t) (w : World)
    : list TravelSuggestion.t * World :=
  map_in_world mapPlaceToSuggestion
    (JS.slice0 8 (List.filter isValidTravelDestination places)) w.

End WithNumberFormat.

End GooglePlacesDemo.

(** ** Errors and results *)

Inductive Error : Type := mkError (message : string).

Inductive Outcome (A : Type) : Type :=
| Return (a : A)
| Throw (e : Error).

Arguments Return {A} a.
Arguments Throw {A} e.

(** ** The places endpoint: [searchNearbyPlaces] *)

Module PlaceSearch.

(** [interface GooglePlacesResponse]; [results] is read through [|| []]. *)
Record GooglePlacesResponse : Type := mkResponse {
  results : option (list GooglePlace.t);
  status : string;
  error_message : option string
}.

(** What [await fetch(...)] and [await response.json()] give. *)
Inductive FetchResult : Type :=
| FetchRejected (e : Error)
| FetchResponse (ok : bool) (http_status : Z) (statusText : string)
    (json : Outcome GooglePlacesResponse).

(** [searchNearbyPlaces(lat, lng, radius)].  The arguments only shape the
    request; the answer of the endpoint is [fetched].  The [catch] block
    logs and rethrows. *)
Definition searchNearbyPlaces (API_KEY : option string) (lat lng : R)
    (radius : option Z) (fetched : FetchResult) : Outcome (list GooglePlace.t) :=
  if negb (JS.truthy_string (default "" API_KEY)) then
    Throw (mkError "Google Places API key not configured")
  else
    match fetched with
    | FetchRejected e => Throw e
    | FetchResponse false http_status statusText _ =>
        Throw (mkError ("Google Places API error: "
                        +:+ JS.Number_toString http_status +:+ " " +:+ statusText))
    | FetchResponse true _ _ (Throw e) => Throw e
    | FetchResponse true _ _ (Return data) =>
        if String.eqb (status data) "OK" then
          Return (default [] (results data))
        else
          Throw (mkError ("Google Places API error: " +:+ status data +:+ " - "
                          +:+ JS.or_string (error_message data) "Unknown error"))
    end.

End PlaceSearch.

(** ** Itineraries and their store *)

(** A JSON value, as [JSON.parse] returns it and as the [jsonb] column
    [generated_content] holds it; [JNull] is [null]. *)
#[local] Unset Elimination Schemes.
Inductive Json : Type :=
| JNull
| JBool (b : bool)
| JNumber (x : R)
| JString (s : string)
| JArray (items : list Json)
| JObject (members : list (string * Json)).
#[local] Set Elimination Schemes.

(** A [Date], in milliseconds. *)
Definition Date : Type := Z.

(** [type Itinerary = typeof itineraries.$inferSelect] *)
Module Itinerary.
Record t : Type := mk {
  id : Z;
  userId : Z;
  title : string;
  description : option string;
  location : string;
  startDate : string;
  endDate : string;
  tripType : string;
  transport : string;
  accommodation : string;
  dining : string;
  ageGroup : string;
  interests : string;
  generatedContent : Json;
  status : string;
  createdAt : Date;
  updatedAt : Date
}.
End Itinerary.

(** [InsertItinerary & { userId: number }] *)
Module InsertItinerary.
Record t : Type := mk {
  userId : Z;
  title : string;
  description : option (option string);
  location : string;
  startDate : string;
  endDate : string;
  tripType : string;
  transport : string;
  accommodation : string;
  dining : string;
  ageGroup : string;
  interests : string
}.
End InsertItinerary.

(** [Partial<UpdateItinerary>]: each key is present or not; [description] is
    nullable. *)
Module UpdateItinerary.
Record t : Type := mk {
  title : option string;
  description : option (option string);
  generatedContent : option Json;
  status : option string
}.
End UpdateItinerary.

(** [{ ...itinerary, ...updates, updatedAt: now }], which is also the row
    after [UPDATE ... SET { ...updates, updatedAt: now }]. *)
Definition spread_updates (itinerary : Itinerary.t) (updates : UpdateItinerary.t)
    (now : Date) : Itinerary.t :=
  {| Itinerary.id := Itinerary.id itinerary;
     Itinerary.userId := Itinerary.userId itinerary;
     Itinerary.title :=
       default (Itinerary.title itinerary) (UpdateItinerary.title updates);
     Itinerary.description :=
       default (Itinerary.description itinerary) (UpdateItinerary.description updates);
     Itinerary.location := Itinerary.location itinerary;
     Itinerary.startDate := Itinerary.startDate itinerary;
     Itinerary.endDate := Itinerary.endDate itinerary;
     Itinerary.tripType := Itinerary.tripType itinerary;
     Itinerary.transport := Itinerary.transport itinerary;
     Itinerary.accommodation := Itinerary.accommodation itinerary;
     Itinerary.dining := Itinerary.dining itinerary;
     Itinerary.ageGroup := Itinerary.ageGroup itinerary;
     Itinerary.interests := Itinerary.interests itinerary;
     Itinerary.generatedContent :=
       default (Itinerary.generatedContent itinerary)
         (UpdateItinerary.generatedContent updates);
     Itinerary.status :=
       default (Itinerary.status itinerary) (UpdateItinerary.status updates);
     Itinerary.createdAt := Itinerary.createdAt itinerary;
     Itinerary.updatedAt := now |}.

(** [class MemStorage]: the itinerary part. *)
Module MemStorage.

Record t : Type := mk {
  itineraries : gmap Z Itinerary.t;
  currentItineraryId : Z
}.

Definition empty : t := {| itineraries := ∅; currentItineraryId := 1 |}.

Definition getItinerary (this : t) (id : Z) : option Itinerary.t :=
  itineraries this !! id.

Definition createItinerary (this : t) (now : Date) (itinerary : InsertItinerary.t)
    : Itinerary.t * t :=
  let id := currentItineraryId this in
  let newItinerary :=
    {| Itinerary.id := id;
       Itinerary.userId := InsertItinerary.userId itinerary;
       Itinerary.title := InsertItinerary.title itinerary;
       Itinerary.description :=
         default None (InsertItinerary.description itinerary);
       Itinerary.location := InsertItinerary.location itinerary;
       Itinerary.startDate := InsertItinerary.startDate itinerary;
       Itinerary.endDate := InsertItinerary.endDate itinerary;
       Itinerary.tripType := InsertItinerary.tripType itinerary;
       Itinerary.transport := InsertItinerary.transport itinerary;
       Itinerary.accommodation := InsertItinerary.accommodation itinerary;
       Itinerary.dining := InsertItinerary.dining itinerary;
       Itinerary.ageGroup := InsertItinerary.ageGroup itinerary;
       Itinerary.interests := InsertItinerary.interests itinerary;
       Itinerary.generatedContent := JNull;
       Itinerary.status := "draft";
       Itinerary.createdAt := now;
       Itinerary.updatedAt := now |} in
  (newItinerary,
   {| itineraries := <[id := newItinerary]> (itineraries this);
      currentItineraryId := (id + 1)%Z |}).

Definition updateItinerary (this : t) (now : Date) (id : Z)
    (updates : UpdateItinerary.t) : option Itinerary.t * t :=
  match itineraries this !! id with
  | None => (None, this)
  | Some itinerary =>
      let updatedItinerary := spread_updates itinerary updates now in
      (Some updatedItinerary,
       {| itineraries := <[id := updatedItinerary]> (itineraries this);
          currentItineraryId := currentItineraryId this |})
  end.

End MemStorage.

(** [class PgStorage]: the table [itineraries], one row per primary key. *)
Module PgStorage.

Abbreviation t := (gmap Z Itinerary.t).

(** [select().from(itineraries).where(eq(itineraries.id, id))], first row. *)
Definition getItinerary (table : t) (id : Z) : option Itinerary.t :=
  table !! id.

(** [update(itineraries).set({ ...updates, updatedAt: new Date() })
      .where(eq(itineraries.id, id)).returning()], first row. *)
Definition updateItinerary (table : t) (now : Date) (id : Z)
    (updates : UpdateItinerary.t) : option Itinerary.t * t :=
  match table !! id with
  | None => (None, table)
  | Some row =>
      let updated := spread_updates row updates now in
      (Some updated, <[id := updated]> table)
  end.

End PgStorage.

(** ** The chat completion collaborator: [generateItinerary] *)

Module OpenAI.

Record ItineraryRequest : Type := mkRequest {
  location : string;
  startDate : string;
  endDate : string;
  tripType : string;
  transport : string;
  accommodation : string;
  dining : string;
  ageGroup : string;
  interests : string
}.

(** What [await openai.chat.completions.create(...)] gives: the call
    rejects (network error, status outside 2xx, bad credential), or it
    resolves with [choices], each holding [message.content], which may be
    [null]. *)
Inductive ChatResult : Type :=
| ChatRejected (e : Error)
| ChatCompletion (choices : list (option string)).

Definition failure : Error :=
  mkError "Failed to generate itinerary. Please try again.".

Section WithHost.

(** [JSON.parse]; [None] is a [SyntaxError]. *)
Variable JSON_parse : string -> option Json.

(** [generateItinerary(request)].  The prompt is built from [request] and
    sent; [chat] is what comes back.  Everything thrown inside [try],
    the [TypeError] of [response.choices[0].message] on an empty
    [choices] included, is replaced by [failure]. *)
Definition generateItinerary (request : ItineraryRequest) (chat : ChatResult)
    : Outcome Json :=
  match chat with
  | ChatRejected _ => Throw failure
  | ChatCompletion [] => Throw failure
  | ChatCompletion (content :: _) =>
      match JSON_parse (JS.or_string content "{}") with
      | Some result => Return result
      | None => Throw failure
      end
  end.

End WithHost.

End OpenAI.

(** ** The route handlers *)

Module Routes.

(** The body given to [res.json]. *)
Inductive Body : Type :=
| JsonMessage (message : string)
| JsonItinerary (itinerary : option Itinerary.t)
| JsonSuggestions (suggestions : list TravelSuggestion.t).

(** [res.status(code).json(body)]; [res.json(body)] answers 200. *)
Record Response : Type := mkResponse { statusCode : Z; body : Body }.

(** [POST /api/itineraries/:id/generate]: [user] is [req.user.id] when
    [req.isAuthenticated()]; [params_id] is [parseInt(req.params.id)], an
    integer. *)
Record GenerateRequest : Type := mkGenerateRequest {
  user : option Z;
  params_id : Z
}.

(** [GET /api/location-suggestions]: [req.query]. *)
Record SuggestionsQuery : Type := mkQuery {
  lat : option string;
  lng : option string;
  radius : option string
}.

(** The three methods of [googlePlacesService] that the handler calls;
    [convertToTravelSuggestions] is called with [places] alone. *)
Record PlacesService : Type := mkPlacesService {
  service_API_KEY : option string;
  service_convert :
    list GooglePlace.t -> World -> list TravelSuggestion.t * World;
  service_fallback : list TravelSuggestion.t
}.

Definition coordinateAwareService (this : GooglePlaces.GooglePlacesService)
    : PlacesService :=
  {| service_API_KEY := GooglePlaces.API_KEY this;
     service_convert := fun places =>
       GooglePlaces.call_convertToTravelSuggestions this places None None;
     service_fallback := PlaceClassifier.getFallbackSuggestions |}.

Definition demoService (number_toString : R -> string) (API_KEY : option string)
    : PlacesService :=
  {| service_API_KEY := API_KEY;
     service_convert := GooglePlacesDemo.convertToTravelSuggestions number_toString;
     service_fallback := PlaceClassifier.getFallbackSuggestions |}.

Section WithHost.

Variable JSON_parse : string -> option Json.
(** [parseFloat] and [parseInt]; [None] is [NaN]. *)
Variable parseFloat : string -> option R.
Variable parseInt : string -> option Z.

Definition requestOf (itinerary : Itinerary.t) : OpenAI.ItineraryRequest :=
  {| OpenAI.location := Itinerary.location itinerary;
     OpenAI.startDate := Itinerary.startDate itinerary;
     OpenAI.endDate := Itinerary.endDate itinerary;
     OpenAI.tripType := Itinerary.tripType itinerary;
     OpenAI.transport := Itinerary.transport itinerary;
     OpenAI.accommodation := Itinerary.accommodation itinerary;
     OpenAI.dining := Itinerary.dining itinerary;
     OpenAI.ageGroup := Itinerary.ageGroup itinerary;
     OpenAI.interests := Itinerary.interests itinerary |}.

(** The handler of [POST /api/itineraries/:id/generate] on the exported
    [storage], a [PgStorage].  [chat] is what the completion endpoint
    answers if it is called; [now] is [new Date()] at the update. *)
Definition generate (storage : PgStorage.t) (now : Date)
    (req : GenerateRequest) (chat : OpenAI.ChatResult)
    : Response * PgStorage.t :=
  match user req with
  | None => (mkResponse 401 (JsonMessage "Authentication required"), storage)
  | Some userId =>
      match PgStorage.getItinerary storage (params_id req) with
      | None => (mkResponse 404 (JsonMessage "Itinerary not found"), storage)
      | Some itinerary =>
          if negb (Itinerary.userId itinerary =? userId)%Z then
            (mkResponse 403 (JsonMessage "Access denied"), storage)
          else
            match OpenAI.generateItinerary JSON_parse (requestOf itinerary) chat with
            | Throw _ =>
                (mkResponse 500 (JsonMessage "Failed to generate itinerary"),
                 storage)
            | Return generatedContent =>
                let '(updatedItinerary, storage) :=
                  PgStorage.updateItinerary storage now (Itinerary.id itinerary)
                    {| UpdateItinerary.title := None;
                       UpdateItinerary.description := None;
                       UpdateItinerary.generatedContent := Some generatedContent;
                       UpdateItinerary.status := Some "generated" |} in
                (mkResponse 200 (JsonItinerary updatedItinerary), storage)
            end
      end
  end.

(** The handler of [GET /api/location-suggestions], with a conversion that
    returns.  [fetched] is what the places endpoint answers if it is
    called. *)
Definition locationSuggestions (service : PlacesService)
    (query : SuggestionsQuery) (fetched : PlaceSearch.FetchResult) (w : World)
    : Response * World :=
  if negb (JS.truthy_string (default "" (lat query)))
     || negb (JS.truthy_string (default "" (lng query))) then
    (mkResponse 400 (JsonMessage "Latitude and longitude are required"), w)
  else
    let latitude := parseFloat (default "" (lat query)) in
    let longitude := parseFloat (default "" (lng query)) in
    let searchRadius :=
      if JS.truthy_string (default "" (radius query))
      then parseInt (default "" (radius query)) else Some 25000%Z in
    match latitude, longitude with
    | Some latitude, Some longitude =>
        match PlaceSearch.searchNearbyPlaces (service_API_KEY service)
                latitude longitude searchRadius fetched with
        | Return places =>
            let '(suggestions, w) := service_convert service places w in
            (mkResponse 200 (JsonSuggestions suggestions), w)
        | Throw _ =>
            (mkResponse 200 (JsonSuggestions (service_fallback service)), w)
        end
    | _, _ => (mkResponse 400 (JsonMessage "Invalid coordinates"), w)
    end.

End WithHost.

End Routes.

(** ** The specification's wording, for comparison *)

Module Spec.

Import PlaceClassifier.

(** The nine tags of the specification's priority order. *)
Definition priority_order : list string :=
  [ "tourist_attraction"; "museum"; "amusement_park"; "zoo"; "aquarium";
    "art_gallery"; "park"; "natural_feature"; "point_of_interest" ].

(** The display type as the specification words it: the label of the first
    tag of [priority_order] that the place carries, whatever the order of
    the place's own tags. *)
Definition displayType_by_priority (place : GooglePlace.t) : string :=
  match List.find (fun tag => JS.includes (GooglePlace.types place) tag) priority_order with
  | Some tag => default "Attraction" (typeMap !! tag)
  | None => "Attraction"
  end.

(** The ways the place search can fail: no credential, a network error, a
    status outside 2xx, a body that is not JSON, a provider status other
    than OK. *)
Definition search_fails (API_KEY : option string)
    (fetched : PlaceSearch.FetchResult) : Prop :=
  JS.truthy_string (default "" API_KEY) = false
  \/ match fetched with
     | PlaceSearch.FetchRejected _ => True
     | PlaceSearch.FetchResponse false _ _ _ => True
     | PlaceSearch.FetchResponse true _ _ (Throw _) => True
     | PlaceSearch.FetchResponse true _ _ (Return data) =>
         PlaceSearch.status data <> "OK"
     end.

(** The travel time as the specification has it: [m = round(d / 40 * 60)],
    "{m}min" when [m < 60], "{floor(m/60)}h {m%60}min" otherwise. *)
Definition travelTime_at_40 (d : R) : string :=
  let m := JS.Math_round (d / 40 * 60)%R in
  if (m <? 60)%Z then JS.Number_toString m +:+ "min"
  else JS.Number_toString (m / 60) +:+ "h "
       +:+ JS.Number_toString (m mod 60) +:+ "min".

(** A call of a conversion in a world; what it means for it to be
    deterministic and free of side effects. *)
Definition Conversion : Type :=
  World -> Outcome (list TravelSuggestion.t) * World.

Definition deterministic (call : Conversion) : Prop :=
  forall w1 w2 : World, fst (call w1) = fst (call w2).

Definition side_effect_free (call : Conversion) : Prop :=
  forall w : World, snd (call w) = w.

(** Two suggestions that differ at most in distance and travel time. *)
Definition same_but_distance (s1 s2 : TravelSuggestion.t) : Prop :=
  TravelSuggestion.id s1 = TravelSuggestion.id s2
  /\ TravelSuggestion.name s1 = TravelSuggestion.name s2
  /\ TravelSuggestion.type s1 = TravelSuggestion.type s2
  /\ TravelSuggestion.description s1 = TravelSuggestion.description s2
  /\ TravelSuggestion.highlights s1 = TravelSuggestion.highlights s2
  /\ TravelSuggestion.bestFor s1 = TravelSuggestion.bestFor s2
  /\ TravelSuggestion.rating s1 = TravelSuggestion.rating s2
  /\ TravelSuggestion.location s1 = TravelSuggestion.location s2
  /\ TravelSuggestion.photos s1 = TravelSuggestion.photos s2.

(** The failures of a generation as the specification lists them: the
    completion call rejects (network error, status outside 2xx), or its
    answer is malformed: it has no choice, or the content of the first
    choice is missing or is no JSON text. *)
Definition generation_failure (JSON_parse : string -> option Json)
    (chat : OpenAI.ChatResult) : Prop :=
  match chat with
  | OpenAI.ChatRejected _ => True
  | OpenAI.ChatCompletion [] => True
  | OpenAI.ChatCompletion (None :: _) => True
  | OpenAI.ChatCompletion (Some text :: _) => JSON_parse text = None
  end.

(** An answer whose first content is [null] or the empty string. *)
Definition blank_content (chat : OpenAI.ChatResult) : Prop :=
  match chat with
  | OpenAI.ChatCompletion (None :: _) => True
  | OpenAI.ChatCompletion (Some text :: _) => text = ""
  | _ => False
  end.

End Spec.

(** ** Sample data *)

Module Samples.

Local Open Scope R_scope.

Definition service : GooglePlaces.GooglePlacesService :=
  {| GooglePlaces.API_BASE := "https://maps.googleapis.com/maps/api/place";
     GooglePlaces.API_KEY := Some "key" |}.

(** A place that has nothing but its tags. *)
Definition place_of_types (types : list string) : GooglePlace.t :=
  {| GooglePlace.place_id := "p"; GooglePlace.name := "Place";
     GooglePlace.geometry := None; GooglePlace.types := types;
     GooglePlace.rating := None; GooglePlace.user_ratings_total := None;
     GooglePlace.vicinity := None; GooglePlace.photos := None |}.

Definition louvre : GooglePlace.t :=
  {| GooglePlace.place_id := "louvre"; GooglePlace.name := "Louvre";
     GooglePlace.geometry :=
       Some (Geometry.mk (Some (LatLng.mk 48.8606 2.3376)));
     GooglePlace.types := ["museum"; "tourist_attraction"; "establishment"];
     GooglePlace.rating := Some 4.7;
     GooglePlace.user_ratings_total := Some 1000;
     GooglePlace.vicinity := Some "Rue de Rivoli, Paris";
     GooglePlace.photos := None |}.

Definition hotel : GooglePlace.t :=
  {| GooglePlace.place_id := "hotel"; GooglePlace.name := "Hotel";
     GooglePlace.geometry := Some (Geometry.mk (Some (LatLng.mk 48.86 2.34)));
     GooglePlace.types := ["lodging"];
     GooglePlace.rating := None; GooglePlace.user_ratings_total := None;
     GooglePlace.vicinity := None; GooglePlace.photos := None |}.

Definition world (draw : R) : World :=
  {| random_draws := fun _ => draw; random_next := 0;
     env_GOOGLE_MAPS_API := Some "key" |}.

Definition number_toString (x : R) : string := "4.7".

Definition JSON_parse (s : string) : option Json :=
  if String.eqb s "{}" then Some (JObject [])
  else if String.eqb s "{}{" then None
  else Some (JObject [("title", JString s)]).

Definition parseFloat (s : string) : option R :=
  if String.eqb s "48.8566" then Some 48.8566
  else if String.eqb s "2.3522" then Some 2.3522
  else None.

Definition parseInt (s : string) : option Z := None.

Definition query : Routes.SuggestionsQuery :=
  {| Routes.lat := Some "48.8566"; Routes.lng := Some "2.3522";
     Routes.radius := None |}.

Definition answer (results : list GooglePlace.t) : PlaceSearch.FetchResult :=
  PlaceSearch.FetchResponse true 200%Z "OK"
    (Return {| PlaceSearch.results := Some results;
               PlaceSearch.status := "OK";
               PlaceSearch.error_message := None |}).

Definition draft : Itinerary.t :=
  {| Itinerary.id := 1%Z; Itinerary.userId := 7%Z;
     Itinerary.title := "Rome"; Itinerary.description := None;
     Itinerary.location := "Rome";
     Itinerary.startDate := "2025-07-01"; Itinerary.endDate := "2025-07-04";
     Itinerary.tripType := "couples"; Itinerary.transport := "train";
     Itinerary.accommodation := "hotel"; Itinerary.dining := "local";
     Itinerary.ageGroup := "adults"; Itinerary.interests := "history";
     Itinerary.generatedContent := JNull; Itinerary.status := "draft";
     Itinerary.createdAt := 1000%Z; Itinerary.updatedAt := 1000%Z |}.

Definition table : gmap Z Itinerary.t := {[ 1%Z := draft ]}.

Definition request : Routes.GenerateRequest :=
  {| Routes.user := Some 7%Z; Routes.params_id := 1%Z |}.

End Samples.

(** ** The other methods of the store *)

Module PgRows.

(** [getItinerariesByUserId(userId)]:
    [select().from(itineraries).where(eq(itineraries.userId, userId))].  The
    query fixes no order; the rows come as the table lists them. *)
Definition getItinerariesByUserId (table : gmap Z Itinerary.t) (userId : Z)
    : list Itinerary.t :=
  List.filter (fun itinerary => (Itinerary.userId itinerary =? userId)%Z)
    (map snd (map_to_list table)).

(** [deleteItinerary(id)]:
    [delete(itineraries).where(eq(itineraries.id, id))], then
    [(result.rowCount ?? 0) > 0]. *)
Definition deleteItinerary (table : gmap Z Itinerary.t) (id : Z)
    : bool * gmap Z Itinerary.t :=
  (bool_decide (is_Some (table !! id)), delete id table).

End PgRows.

Module MemStorageRows.

(** [MemStorage.deleteItinerary(id)], as written: the statement runs on
    [db], the database table, and [this.itineraries] is not touched. *)
Definition deleteItinerary (this : MemStorage.t) (db : gmap Z Itinerary.t) (id : Z)
    : bool * MemStorage.t * gmap Z Itinerary.t :=
  (bool_decide (is_Some (db !! id)), this, delete id db).

End MemStorageRows.

(** ** The other itinerary routes *)

Module ItineraryRoutes.

(** What [schema.parse(req.body)] gives: the validated data, or a thrown
    [ZodError] with its [errors]. *)
Inductive ZodResult (A : Type) : Type :=
| ZodValid (data : A)
| ZodError (errors : Json).

Arguments ZodValid {A} data.
Arguments ZodError {A} errors.

Inductive Body : Type :=
| JsonMessage (message : string)
| JsonInvalidInput (errors : Json)
| JsonItinerary (itinerary : option Itinerary.t)
| JsonItineraries (itineraries : list Itinerary.t)
| NoBody.

Record Response : Type := mkResponse { statusCode : Z; body : Body }.

(** [GET /api/itineraries]; [user] is [req.user.id] when
    [req.isAuthenticated()]. *)
Definition listItineraries (storage : gmap Z Itinerary.t) (user : option Z)
    : Response :=
  match user with
  | None => mkResponse 401 (JsonMessage "Authentication required")
  | Some userId =>
      mkResponse 200 (JsonItineraries (PgRows.getItinerariesByUserId storage userId))
  end.

(** [GET /api/itineraries/:id]; [id] is [parseInt(req.params.id)], an
    integer. *)
Definition getItinerary (storage : gmap Z Itinerary.t) (user : option Z) (id : Z)
    : Response :=
  match user with
  | None => mkResponse 401 (JsonMessage "Authentication required")
  | Some userId =>
      match PgStorage.getItinerary storage id with
      | None => mkResponse 404 (JsonMessage "Itinerary not found")
      | Some itinerary =>
          if negb (Itinerary.userId itinerary =? userId)%Z then
            mkResponse 403 (JsonMessage "Access denied")
          else mkResponse 200 (JsonItinerary (Some itinerary))
      end
  end.

(** [PUT /api/itineraries/:id]; [validated] is what
    [updateItinerarySchema.partial().parse(req.body)] gives if it is
    reached. *)
Definition updateItinerary (storage : gmap Z Itinerary.t) (now : Date)
    (user : option Z) (id : Z) (validated : ZodResult UpdateItinerary.t)
    : Response * gmap Z Itinerary.t :=
  match user with
  | None => (mkResponse 401 (JsonMessage "Authentication required"), storage)
  | Some userId =>
      match PgStorage.getItinerary storage id with
      | None => (mkResponse 404 (JsonMessage "Itinerary not found"), storage)
      | Some itinerary =>
          if negb (Itinerary.userId itinerary =? userId)%Z then
            (mkResponse 403 (JsonMessage "Access denied"), storage)
          else
            match validated with
            | ZodError errors => (mkResponse 400 (JsonInvalidInput errors), storage)
            | ZodValid validatedData =>
                let '(updatedItinerary, storage) :=
                  PgStorage.updateItinerary storage now (Itinerary.id itinerary)
                    validatedData in
                (mkResponse 200 (JsonItinerary updatedItinerary), storage)
            end
      end
  end.

(** [DELETE /api/itineraries/:id] *)
Definition deleteItinerary (storage : gmap Z Itinerary.t) (user : option Z) (id : Z)
    : Response * gmap Z Itinerary.t :=
  match user with
  | None => (mkResponse 401 (JsonMessage "Authentication required"), storage)
  | Some userId =>
      match PgStorage.getItinerary storage id with
      | None => (mkResponse 404 (JsonMessage "Itinerary not found"), storage)
      | Some itinerary =>
          if negb (Itinerary.userId itinerary =? userId)%Z then
            (mkResponse 403 (JsonMessage "Access denied"), storage)
          else
            let '(_, storage) := PgRows.deleteItinerary storage (Itinerary.id itinerary) in
            (mkResponse 204 NoBody, storage)
      end
  end.

(** The answer of [POST /api/itineraries/:id/generate] in the same type. *)
Definition ofGenerate (response : Routes.Response) : Response :=
  mkResponse (Routes.statusCode response)
    match Routes.body response with
    | Routes.JsonMessage message => JsonMessage message
    | Routes.JsonItinerary itinerary => JsonItinerary itinerary
    | Routes.JsonSuggestions _ => NoBody
    end.

(** One request to a route that lists, reads, generates, updates or deletes
    stored itineraries, with what its collaborator answers.  The route that
    creates an itinerary is not among them. *)
Inductive Call : Type :=
| CallList
| CallGet (id : Z)
| CallGenerate (id : Z) (chat : OpenAI.ChatResult)
| CallUpdate (id : Z) (validated : ZodResult UpdateItinerary.t)
| CallDelete (id : Z).

Section WithHost.

Variable JSON_parse : string -> option Json.

Definition handle (storage : gmap Z Itinerary.t) (now : Date) (user : option Z)
    (call : Call) : Response * gmap Z Itinerary.t :=
  match call with
  | CallList => (listItineraries storage user, storage)
  | CallGet id => (getItinerary storage user id, storage)
  | CallGenerate id chat =>
      let '(response, storage) :=
        Routes.generate JSON_parse storage now (Routes.mkGenerateRequest user id) chat in
      (ofGenerate response, storage)
  | CallUpdate id validated => updateItinerary storage now user id validated
  | CallDelete id => deleteItinerary storage user id
  end.

(** A session: the requests of one user, one after the other, each at its
    time. *)
Fixpoint session (storage : gmap Z Itinerary.t) (user : option Z)
    (calls : list (Date * Call)) : list Response * gmap Z Itinerary.t :=
  match calls with
  | [] => ([], storage)
  | (now, call) :: rest =>
      let '(response, storage) := handle storage now user call in
      let '(responses, storage) := session storage user rest in
      (response :: responses, storage)
  end.

End WithHost.

(** The itineraries a response shows. *)
Definition shown (response : Response) : list Itinerary.t :=
  match body response with
  | JsonItinerary (Some itinerary) => [itinerary]
  | JsonItineraries itineraries => itineraries
  | _ => []
  end.

(** Every row is stored under its own [id], the primary key. *)
Definition keyed (storage : gmap Z Itinerary.t) : Prop :=
  forall (key : Z) (itinerary : Itinerary.t),
    storage !! key = Some itinerary -> Itinerary.id itinerary = key.

(** What the requests of a user keep of a store: the keys, no new record,
    and the itineraries of everybody else. *)
Definition kept_by (user : option Z) (storage after : gmap Z Itinerary.t) : Prop :=
  keyed after
  /\ dom after ⊆ dom storage
  /\ forall (key : Z) (itinerary : Itinerary.t),
       storage !! key = Some itinerary ->
       user <> Some (Itinerary.userId itinerary) ->
       after !! key = Some itinerary.

End ItineraryRoutes.

(** The state of a [MemStorage] that its own methods build: every itinerary
    sits under its [id], and every [id] in use is below the counter. *)
Definition MemStorage_consistent (this : MemStorage.t) : Prop :=
  forall (key : Z) (itinerary : Itinerary.t),
    MemStorage.itineraries this !! key = Some itinerary ->
    Itinerary.id itinerary = key /\ (key < MemStorage.currentItineraryId this)%Z.

(** [{ ...first, ...second }] on two updates. *)
Definition merge_updates (first second : UpdateItinerary.t) : UpdateItinerary.t :=
  {| UpdateItinerary.title :=
       match UpdateItinerary.title second with
       | Some v => Some v | None => UpdateItinerary.title first end;
     UpdateItinerary.description :=
       match UpdateItinerary.description second with
       | Some v => Some v | None => UpdateItinerary.description first end;
     UpdateItinerary.generatedContent :=
       match UpdateItinerary.generatedContent second with
       | Some v => Some v | None => UpdateItinerary.generatedContent first end;
     UpdateItinerary.status :=
       match UpdateItinerary.status second with
       | Some v => Some v | None => UpdateItinerary.status first end |}.

(** ** The users of [MemStorage] *)

(** [type User = typeof users.$inferSelect] *)
Module User.
Record t : Type := mk {
  id : Z;
  username : string;
  email : string;
  password : string;
  createdAt : Date
}.
End User.

(** [InsertUser] *)
Module InsertUser.
Record t : Type := mk {
  username : string;
  email : string;
  password : string
}.
End InsertUser.

(** [class MemStorage]: the user part.  A [Map] lists its entries in the
    order in which their keys were first set, and [find] takes the first
    match in that order. *)
Module MemUsers.

Record t : Type := mk {
  users : list (Z * User.t);
  currentUserId : Z
}.

Definition empty : t := {| users := []; currentUserId := 1 |}.

(** [map.set(key, value)] *)
Fixpoint Map_set (entries : list (Z * User.t)) (key : Z) (value : User.t)
    : list (Z * User.t) :=
  match entries with
  | [] => [(key, value)]
  | (k, v) :: rest =>
      if (k =? key)%Z then (key, value) :: rest
      else (k, v) :: Map_set rest key value
  end.

(** [map.get(key)] *)
Definition Map_get (entries : list (Z * User.t)) (key : Z) : option User.t :=
  option_map snd (List.find (fun entry => (fst entry =? key)%Z) entries).

Definition getUser (this : t) (id : Z) : option User.t :=
  Map_get (users this) id.

(** [Array.from(this.users.values()).find((user) => user.username === username)] *)
Definition getUserByUsername (this : t) (username : string) : option User.t :=
  List.find (fun user => String.eqb (User.username user) username)
    (map snd (users this)).

Definition getUserByEmail (this : t) (email : string) : option User.t :=
  List.find (fun user => String.eqb (User.email user) email)
    (map snd (users this)).

(** [createUser(insertUser)]; [now] is [new Date()]. *)
Definition createUser (this : t) (now : Date) (insertUser : InsertUser.t)
    : User.t * t :=
  let id := currentUserId this in
  let user :=
    {| User.id := id;
       User.username := InsertUser.username insertUser;
       User.email := InsertUser.email insertUser;
       User.password := InsertUser.password insertUser;
       User.createdAt := now |} in
  (user, {| users := Map_set (users this) id user;
            currentUserId := (id + 1)%Z |}).

(** The states that [createUser] builds from [empty]: every user under the
    own [id], every [id] in use below the counter. *)
Definition consistent (this : t) : Prop :=
  List.Forall
    (fun entry =>
       User.id (snd entry) = fst entry /\ (fst entry < currentUserId this)%Z)
    (users this).

End MemUsers.

(** ** More sample data *)

Module MoreSamples.

Local Open Scope R_scope.

(** A second itinerary, of another user. *)
Definition other : Itinerary.t :=
  {| Itinerary.id := 2%Z; Itinerary.userId := 8%Z;
     Itinerary.title := "Oslo"; Itinerary.description := Some "north";
     Itinerary.location := "Oslo";
     Itinerary.startDate := "2025-08-01"; Itinerary.endDate := "2025-08-03";
     Itinerary.tripType := "solo"; Itinerary.transport := "plane";
     Itinerary.accommodation := "hostel"; Itinerary.dining := "street food";
     Itinerary.ageGroup := "adults"; Itinerary.interests := "fjords";
     Itinerary.generatedContent := JNull; Itinerary.status := "draft";
     Itinerary.createdAt := 1500%Z; Itinerary.updatedAt := 1500%Z |}.

Definition table : gmap Z Itinerary.t := <[2%Z := other]> Samples.table.

Definition insert : InsertItinerary.t :=
  {| InsertItinerary.userId := 7%Z; InsertItinerary.title := "Rome";
     InsertItinerary.description := None; InsertItinerary.location := "Rome";
     InsertItinerary.startDate := "2025-07-01";
     InsertItinerary.endDate := "2025-07-04";
     InsertItinerary.tripType := "couples"; InsertItinerary.transport := "train";
     InsertItinerary.accommodation := "hotel"; InsertItinerary.dining := "local";
     InsertItinerary.ageGroup := "adults"; InsertItinerary.interests := "history" |}.

(** A place with every generic highlight. *)
Definition acclaimed : GooglePlace.t :=
  {| GooglePlace.place_id := "orsay"; GooglePlace.name := "Orsay";
     GooglePlace.geometry := None;
     GooglePlace.types := ["museum"; "establishment"];
     GooglePlace.rating := Some 4.6;
     GooglePlace.user_ratings_total := Some 500;
     GooglePlace.vicinity := Some "";
     GooglePlace.photos :=
       Some [Photo.mk "a" 1 1; Photo.mk "b" 1 1; Photo.mk "c" 1 1; Photo.mk "d" 1 1] |}.

Definition answer_data : PlaceSearch.GooglePlacesResponse :=
  {| PlaceSearch.results := Some [Samples.louvre];
     PlaceSearch.status := "OK";
     PlaceSearch.error_message := None |}.

(** A session of user 7: generate on the own itinerary, then an update and a
    deletion aimed at the itinerary of user 8, then the own one deleted. *)
Definition calls : list (Date * ItineraryRoutes.Call) :=
  [ (2000%Z, ItineraryRoutes.CallGenerate 1 (OpenAI.ChatCompletion [Some "{}"]));
    (2001%Z, ItineraryRoutes.CallUpdate 2
               (ItineraryRoutes.ZodValid
                  (UpdateItinerary.mk (Some "Mine") None None (Some "saved"))));
    (2002%Z, ItineraryRoutes.CallDelete 2);
    (2003%Z, ItineraryRoutes.CallGet 2);
    (2004%Z, ItineraryRoutes.CallList);
    (2005%Z, ItineraryRoutes.CallDelete 1) ].

Definition ada : InsertUser.t :=
  {| InsertUser.username := "ada"; InsertUser.email := "ada@example.org";
     InsertUser.password := "hash-1" |}.

(** A second registration under the same name. *)
Definition ada_again : InsertUser.t :=
  {| InsertUser.username := "ada"; InsertUser.email := "other@example.org";
     InsertUser.password := "hash-2" |}.

End MoreSamples.

(** * The service on every input *)

(** [PlaceClassifier], [GooglePlaces], [GooglePlacesDemo] and
    [Routes.locationSuggestions] above are the service on its regular
    inputs: tags that are place types, distances that are numbers.  The
    modules below leave both assumptions out.  [typeMap] is an object
    literal, so [typeMap[type]] also finds what every object inherits
    ([constructor], [toString], ...), which is no string and has no
    [toLowerCase]: the conversion can throw.  [Math.sqrt] of a negative
    number is [NaN], which the doubles reach in [calculateDistance] when the
    haversine term rounds above 1. *)

(** ** Numbers that may be [NaN] *)

Module Number.

Local Open Scope R_scope.

(** A [number]: a real number, or [NaN]. *)
Inductive t : Type :=
| Num (x : R)
| NaN.

Definition lift2 (op : R -> R -> R) (a b : t) : t :=
  match a, b with
  | Num x, Num y => Num (op x y)
  | _, _ => NaN
  end.

(** [a * b] and [a / b]; the divisors of the code are constants other
    than 0. *)
Definition mul : t -> t -> t := lift2 Rmult.
Definition div : t -> t -> t := lift2 Rdiv.

(** [a < b] and [a == b] are false as soon as one side is [NaN]. *)
Definition ltb (a b : t) : bool :=
  match a, b with
  | Num x, Num y => if Rlt_dec x y then true else false
  | _, _ => false
  end.

Definition equals (a b : t) : bool :=
  match a, b with
  | Num x, Num y => if Req_dec_T x y then true else false
  | _, _ => false
  end.

Definition Math_sqrt (a : t) : t :=
  match a with
  | Num x => if Rlt_dec x 0 then NaN else Num (sqrt x)
  | NaN => NaN
  end.

Definition Math_atan2 : t -> t -> t := lift2 JS.Math_atan2.

(** [Math.round] and [Math.floor] give a whole number, in [Z], or [NaN],
    which is [None]. *)
Definition Math_round (a : t) : option Z :=
  match a with
  | Num x => Some (JS.Math_round x)
  | NaN => None
  end.

Definition Math_floor (a : t) : option Z :=
  match a with
  | Num x => Some (JS.Math_floor x)
  | NaN => None
  end.

Definition of_whole (n : option Z) : t :=
  match n with
  | Some z => Num (IZR z)
  | None => NaN
  end.

(** [n < d] and [n % d] on a whole number [n] and a constant [d]. *)
Definition whole_ltb (n : option Z) (d : Z) : bool :=
  match n with
  | Some z => (z <? d)%Z
  | None => false
  end.

Definition rem (n : option Z) (d : Z) : option Z :=
  match n with
  | Some z => Some (Z.rem z d)
  | None => None
  end.

(** [`${n}`] and [a.toFixed(1)]. *)
Definition whole_toString (n : option Z) : string :=
  match n with
  | Some z => JS.Number_toString z
  | None => "NaN"
  end.

Definition toFixed1 (a : t) : string :=
  match a with
  | Num x => JS.toFixed1 x
  | NaN => "NaN"
  end.

End Number.

(** ** [typeMap] as an object *)

Module PlaceTypes.

(** The properties that an object literal inherits from
    [Object.prototype]. *)
Definition Object_prototype : list string :=
  [ "constructor"; "__defineGetter__"; "__defineSetter__"; "hasOwnProperty";
    "__lookupGetter__"; "__lookupSetter__"; "isPrototypeOf";
    "propertyIsEnumerable"; "toString"; "valueOf"; "__proto__";
    "toLocaleString" ].

(** What [typeMap[type]] can be, apart from [undefined]: the label of an own
    key, or an inherited member (a function, or the prototype itself for
    [__proto__]). *)
Inductive PlaceType : Type :=
| Label (label : string)
| Inherited (key : string).

(** [typeMap[type]]; [None] is [undefined]. *)
Definition typeMap_get (type : string) : option PlaceType :=
  match PlaceClassifier.typeMap !! type with
  | Some label => Some (Label label)
  | None =>
      if JS.includes Object_prototype type then Some (Inherited type) else None
  end.

Definition truthy (value : PlaceType) : bool :=
  match value with
  | Label label => JS.truthy_string label
  | Inherited _ => true
  end.

(** [for (const type of place.types) if (typeMap[type]) return typeMap[type]] *)
Fixpoint getPlaceType_loop (types : list string) : PlaceType :=
  match types with
  | [] => Label "Attraction"
  | type :: rest =>
      match typeMap_get type with
      | Some value => if truthy value then value else getPlaceType_loop rest
      | None => getPlaceType_loop rest
      end
  end.

Definition getPlaceType (place : GooglePlace.t) : PlaceType :=
  getPlaceType_loop (GooglePlace.types place).

(** What [type.toLowerCase()] throws when [type] is no string. *)
Definition TypeError : Error :=
  mkError "type.toLowerCase is not a function".

(** [arr.map(f)] with a callback that may throw: the first exception ends
    the loop. *)
Fixpoint map_outcome {A B : Type} (f : A -> Outcome B) (l : list A)
    : Outcome (list B) :=
  match l with
  | [] => Return []
  | x :: rest =>
      match f x with
      | Throw e => Throw e
      | Return y =>
          match map_outcome f rest with
          | Throw e => Throw e
          | Return ys => Return (y :: ys)
          end
      end
  end.

(** The same with a callback that threads the world. *)
Fixpoint map_outcome_in_world {A B : Type} (f : A -> World -> Outcome B * World)
    (l : list A) (w : World) : Outcome (list B) * World :=
  match l with
  | [] => (Return [], w)
  | x :: rest =>
      match f x w with
      | (Throw e, w) => (Throw e, w)
      | (Return y, w) =>
          match map_outcome_in_world f rest w with
          | (Throw e, w) => (Throw e, w)
          | (Return ys, w) => (Return (y :: ys), w)
          end
      end
  end.

End PlaceTypes.

(** ** The coordinate-aware service on every input *)

Module Service.

Local Open Scope R_scope.
Import PlaceClassifier PlaceTypes.

Section WithRounding.

(** The doubles compute the haversine term [a] with a rounding error, which
    depends on the four coordinates; it is taken as given. *)
Variable haversine_error : R -> R -> R -> R -> R.

(** [calculateDistance(lat1, lng1, lat2, lng2)] *)
Definition calculateDistance (lat1 lng1 lat2 lng2 : R) : Number.t :=
  let R_earth := 6371 in
  let dLat := ((lat2 - lat1) * PI) / 180 in
  let dLng := ((lng2 - lng1) * PI) / 180 in
  let a :=
    sin (dLat / 2) * sin (dLat / 2) +
    cos ((lat1 * PI) / 180) * cos ((lat2 * PI) / 180) *
    sin (dLng / 2) * sin (dLng / 2)
    + haversine_error lat1 lng1 lat2 lng2 in
  let c :=
    Number.mul (Number.Num 2)
      (Number.Math_atan2 (Number.Math_sqrt (Number.Num a))
         (Number.Math_sqrt (Number.Num (1 - a)))) in
  Number.mul (Number.Num R_earth) c.

(** [let distanceKm = 5;
     if (userLat && userLng && place.geometry?.location) distanceKm = ...] *)
Definition distanceKm_of (place : GooglePlace.t) (userLat userLng : option R)
    : Number.t :=
  match userLat, userLng with
  | Some ulat, Some ulng =>
      if JS.truthy_number ulat && JS.truthy_number ulng then
        match GooglePlace.geometry place with
        | Some g =>
            match Geometry.location g with
            | Some loc =>
                calculateDistance ulat ulng (LatLng.lat loc) (LatLng.lng loc)
            | None => Number.Num 5
            end
        | None => Number.Num 5
        end
      else Number.Num 5
  | _, _ => Number.Num 5
  end.

(** [distanceKm < 1 ? `${Math.round(distanceKm * 1000)}m`
                    : `${distanceKm.toFixed(1)}km`] *)
Definition distanceStr (distanceKm : Number.t) : string :=
  if Number.ltb distanceKm (Number.Num 1)
  then Number.whole_toString
         (Number.Math_round (Number.mul distanceKm (Number.Num 1000))) +:+ "m"
  else Number.toFixed1 distanceKm +:+ "km".

(** [Math.round((distanceKm / 40) * 60)] *)
Definition travelTimeMinutes_of (distanceKm : Number.t) : option Z :=
  Number.Math_round
    (Number.mul (Number.div distanceKm (Number.Num 40)) (Number.Num 60)).

(** [travelTimeMinutes < 60 ? `${travelTimeMinutes}min`
      : `${Math.floor(travelTimeMinutes / 60)}h ${travelTimeMinutes % 60}min`] *)
Definition travelTimeStr (travelTimeMinutes : option Z) : string :=
  if Number.whole_ltb travelTimeMinutes 60
  then Number.whole_toString travelTimeMinutes +:+ "min"
  else Number.whole_toString
         (Number.Math_floor
            (Number.div (Number.of_whole travelTimeMinutes) (Number.Num 60)))
       +:+ "h "
       +:+ Number.whole_toString (Number.rem travelTimeMinutes 60) +:+ "min".

(** [generateDescription(place)]: [type.toLowerCase()] throws when
    [getPlaceType] returned an inherited member. *)
Definition generateDescription (place : GooglePlace.t) : Outcome string :=
  match getPlaceType place with
  | Label type =>
      Return
        ("A popular " +:+ JS.toLowerCase type +:+ " in the area. "
         +:+ GooglePlace.name place
         +:+ " offers visitors an authentic local experience and is well-regarded by travelers.")
  | Inherited _ => Throw TypeError
  end.

(** [mapPlaceToSuggestion(place, userLat, userLng)].  The members of the
    returned object are evaluated in order; [generateDescription] is the
    one that can throw, and it does whenever [getPlaceType] gave no
    string, so the last case below does not arise. *)
Definition mapPlaceToSuggestion (this : GooglePlaces.GooglePlacesService)
    (place : GooglePlace.t) (userLat userLng : option R)
    : Outcome TravelSuggestion.t :=
  let distanceKm := distanceKm_of place userLat userLng in
  let distanceStr := distanceStr distanceKm in
  let travelTimeMinutes := travelTimeMinutes_of distanceKm in
  let travelTimeStr := travelTimeStr travelTimeMinutes in
  let photos :=
    match GooglePlace.photos place with
    | Some ps => map (GooglePlaces.photoUrl this) (JS.slice0 3 ps)
    | None => []
    end in
  match getPlaceType place, generateDescription place with
  | _, Throw e => Throw e
  | Label type, Return description =>
      Return
        {| TravelSuggestion.id := GooglePlace.place_id place;
           TravelSuggestion.name := GooglePlace.name place;
           TravelSuggestion.distance := distanceStr;
           TravelSuggestion.travelTime := travelTimeStr;
           TravelSuggestion.type := type;
           TravelSuggestion.description := description;
           TravelSuggestion.highlights := generateHighlights place;
           TravelSuggestion.bestFor := determineBestFor place;
           TravelSuggestion.rating := JS.or_number (GooglePlace.rating place) 4.0;
           TravelSuggestion.location :=
             JS.or_string (GooglePlace.vicinity place) "Location not specified";
           TravelSuggestion.photos := Some photos |}
  | Inherited _, Return _ => Throw TypeError
  end.

(** [places.filter(isValidTravelDestination)
          .map(place => mapPlaceToSuggestion(place, userLat, userLng))
          .slice(0, 6)]: every eligible place is mapped before the cut. *)
Definition convertToTravelSuggestions (this : GooglePlaces.GooglePlacesService)
    (places : list GooglePlace.t) (userLat userLng : option R)
    : Outcome (list TravelSuggestion.t) :=
  match map_outcome (fun place => mapPlaceToSuggestion this place userLat userLng)
          (List.filter isValidTravelDestination places) with
  | Return suggestions => Return (JS.slice0 6 suggestions)
  | Throw e => Throw e
  end.

End WithRounding.

End Service.

(** ** The service of [server/services/google-places.ts] on every input *)

Module ServiceDemo.

Local Open Scope R_scope.
Import PlaceClassifier PlaceTypes.

Section WithNumberFormat.

Variable number_toString : R -> string.

Definition generateDescription (place : GooglePlace.t) : Outcome string :=
  match getPlaceType place with
  | Label type =>
      let rating :=
        match GooglePlace.rating place with
        | Some r =>
            if JS.truthy_number r
            then " with " +:+ number_toString r +:+ " stars" else ""
        | None => ""
        end in
      Return
        ("A popular " +:+ JS.toLowerCase type +:+ " in the area" +:+ rating
         +:+ ". " +:+ GooglePlace.name place
         +:+ " offers visitors an authentic local experience and is well-regarded by travelers.")
  | Inherited _ => Throw TypeError
  end.

(** [mapPlaceToSuggestion(place)]: the draw is taken first, whether or not
    [generateDescription] throws afterwards.  The distance is a number
    between 1 and 21, never [NaN]. *)
Definition mapPlaceToSuggestion (place : GooglePlace.t) (w : World)
    : Outcome TravelSuggestion.t * World :=
  let '(draw, w) := Math_random w in
  let distanceKm := draw * 20 + 1 in
  let distanceStr := distanceStr distanceKm in
  let travelTimeMinutes := JS.Math_round (distanceKm * 12) in
  let travelTimeStr := GooglePlacesDemo.travelTimeStr travelTimeMinutes in
  let photos :=
    match GooglePlace.photos place with
    | Some ps => map (GooglePlacesDemo.photoUrl w) (JS.slice0 3 ps)
    | None => []
    end in
  match getPlaceType place, generateDescription place with
  | _, Throw e => (Throw e, w)
  | Label type, Return description =>
      (Return
         {| TravelSuggestion.id := GooglePlace.place_id place;
            TravelSuggestion.name := GooglePlace.name place;
            TravelSuggestion.distance := distanceStr;
            TravelSuggestion.travelTime := travelTimeStr;
            TravelSuggestion.type := type;
            TravelSuggestion.description := description;
            TravelSuggestion.highlights := generateHighlights place;
            TravelSuggestion.bestFor := determineBestFor place;
            TravelSuggestion.rating := JS.or_number (GooglePlace.rating place) 4.0;
            TravelSuggestion.location :=
              JS.or_string (GooglePlace.vicinity place) "Location not specified";
            TravelSuggestion.photos := Some photos |}, w)
  | Inherited _, Return _ => (Throw TypeError, w)
  end.

(** [places.filter(isValidTravelDestination).slice(0, 8)
          .map(place => mapPlaceToSuggestion(place))] *)
Definition convertToTravelSuggestions (places : list GooglePlace.t) (w : World)
    : Outcome (list TravelSuggestion.t) * World :=
  map_outcome_in_world mapPlaceToSuggestion
    (JS.slice0 8 (List.filter isValidTravelDestination places)) w.

End WithNumberFormat.

End ServiceDemo.

(** ** The suggestions route on every input *)

Module SuggestionsRoute.

(** The three methods of [googlePlacesService] that the handler calls;
    [convertToTravelSuggestions] is called with [places] alone, and may
    throw. *)
Record PlacesService : Type := mkPlacesService {
  service_API_KEY : option string;
  service_convert :
    list GooglePlace.t -> World -> Outcome (list TravelSuggestion.t) * World;
  service_fallback : list TravelSuggestion.t
}.

Definition coordinateAwareService (haversine_error : R -> R -> R -> R -> R)
    (this : GooglePlaces.GooglePlacesService) : PlacesService :=
  {| service_API_KEY := GooglePlaces.API_KEY this;
     service_convert := fun places w =>
       (Service.convertToTravelSuggestions haversine_error this places None None, w);
     service_fallback := PlaceClassifier.getFallbackSuggestions |}.

Definition demoService (number_toString : R -> string) (API_KEY : option string)
    : PlacesService :=
  {| service_API_KEY := API_KEY;
     service_convert := ServiceDemo.convertToTravelSuggestions number_toString;
     service_fallback := PlaceClassifier.getFallbackSuggestions |}.

(** The two services of the repository. *)
Definition of_repository (service : PlacesService) : Prop :=
  (exists haversine_error this, service = coordinateAwareService haversine_error this)
  \/ (exists number_toString API_KEY, service = demoService number_toString API_KEY).

Section WithHost.

Variable parseFloat : string -> option R.
Variable parseInt : string -> option Z.

(** The handler of [GET /api/location-suggestions].  The search and the
    conversion stand in one [try]: whatever either throws, the [catch]
    answers the fallback list. *)
Definition locationSuggestions (service : PlacesService)
    (query : Routes.SuggestionsQuery) (fetched : PlaceSearch.FetchResult)
    (w : World) : Routes.Response * World :=
  if negb (JS.truthy_string (default "" (Routes.lat query)))
     || negb (JS.truthy_string (default "" (Routes.lng query))) then
    (Routes.mkResponse 400
       (Routes.JsonMessage "Latitude and longitude are required"), w)
  else
    let latitude := parseFloat (default "" (Routes.lat query)) in
    let longitude := parseFloat (default "" (Routes.lng query)) in
    let searchRadius :=
      if JS.truthy_string (default "" (Routes.radius query))
      then parseInt (default "" (Routes.radius query)) else Some 25000%Z in
    match latitude, longitude with
    | Some latitude, Some longitude =>
        match PlaceSearch.searchNearbyPlaces (service_API_KEY service)
                latitude longitude searchRadius fetched with
        | Return places =>
            match service_convert service places w with
            | (Return suggestions, w) =>
                (Routes.mkResponse 200 (Routes.JsonSuggestions suggestions), w)
            | (Throw _, w) =>
                (Routes.mkResponse 200
                   (Routes.JsonSuggestions (service_fallback service)), w)
            end
        | Throw _ =>
            (Routes.mkResponse 200
               (Routes.JsonSuggestions (service_fallback service)), w)
        end
    | _, _ => (Routes.mkResponse 400 (Routes.JsonMessage "Invalid coordinates"), w)
    end.

End WithHost.

End SuggestionsRoute.

(** ** Sample data for the edges *)

Module EdgeSamples.

Local Open Scope R_scope.

(** No rounding error at a point and itself, one unit in the last place
    (2 to the power -52) otherwise. *)
Definition haversine_error (lat1 lng1 lat2 lng2 : R) : R :=
  if Req_dec_T lat1 lat2 then 0 else / 4503599627370496.

(** A place whose first tag names an inherited property. *)
Definition oddity : GooglePlace.t :=
  {| GooglePlace.place_id := "oddity"; GooglePlace.name := "Oddity";
     GooglePlace.geometry := None;
     GooglePlace.types := ["constructor"; "museum"];
     GooglePlace.rating := None; GooglePlace.user_ratings_total := None;
     GooglePlace.vicinity := None; GooglePlace.photos := None |}.

(** [JSON.parse] on the few texts of the examples: the empty text is no
    JSON. *)
Definition JSON_parse (s : string) : option Json :=
  if String.eqb s "{}" then Some (JObject [])
  else if String.eqb s "" then None
  else if String.eqb s "{}{" then None
  else Some (JObject [("title", JString s)]).

(** A [MemStorage] that holds the sample draft. *)
Definition store : MemStorage.t :=
  {| MemStorage.itineraries := Samples.table;
     MemStorage.currentItineraryId := 2 |}.

End EdgeSamples.

(** * Properties *)

(** ** Arithmetic of the primitives *)

Section Primitives.

Local Open Scope R_scope.

Lemma Math_round_eq (z : Z) (x : R) :
  IZR z - / 2 <= x < IZR z + / 2 -> JS.Math_round x = z.
Proof.
  intros Hx. unfold JS.Math_round. apply Zfloor_eq. lra.
Qed.


(** [Math.floor(m / 60)] is the integer quotient. *)
Lemma Math_floor_div60 (m : Z) :
  JS.Math_floor (IZR m / 60) = (m / 60)%Z.
Proof.
  unfold JS.Math_floor. apply Zfloor_eq.
  pose proof (Z.div_mod m 60 ltac:(lia)) as Hdm.
  pose proof (Z.mod_pos_bound m 60 ltac:(lia)) as Hb.
  assert (Hm : IZR m = 60 * IZR (m / 60) + IZR (m mod 60)).
  { rewrite <- mult_IZR, <- plus_IZR. now f_equal. }
  assert (H0 : 0 <= IZR (m mod 60)) by (apply IZR_le; lia).
  assert (H1 : IZR (m mod 60) < 60) by (apply IZR_lt; lia).
  rewrite Hm. split.
  - apply Rmult_le_reg_r with 60; [lra|]. field_simplify. lra.
  - apply Rmult_lt_reg_r with 60; [lra|]. field_simplify. lra.
Qed.


Lemma truthy_number_nonzero (x : R) : x <> 0 -> JS.truthy_number x = true.
Proof. intros Hx. unfold JS.truthy_number. destruct (Req_dec_T x 0); [contradiction|reflexivity]. Qed.

Lemma toFixed1_tenths (n : Z) (x : R) :
  0 <= x -> IZR n - / 2 <= x * 10 < IZR n + / 2 ->
  JS.toFixed1 x =
  JS.Number_toString (n / 10) +:+ "." +:+ JS.Number_toString (n mod 10).
Proof.
  intros H0 Hx. unfold JS.toFixed1.
  destruct (Rlt_dec x 0) as [Hneg|_]; [lra|].
  unfold JS.toFixed1_abs.
  assert (Zfloor (x * 10 + / 2) = n) as -> by (apply Zfloor_eq; lra).
  reflexivity.
Qed.

End Primitives.

(** ** The classifier *)

Section Classifier.

Import PlaceClassifier Spec.

Lemma typeMap_lookup (tag : string) :
  typeMap !! tag =
  if JS.includes priority_order tag
  then Some (default "Attraction" (typeMap !! tag)) else None.
Proof.
  unfold JS.includes, priority_order, typeMap. cbn [existsb list_to_map foldr].
  repeat match goal with
  | |- context [String.eqb tag ?k] =>
      destruct (String.eqb_spec tag k) as [->|?]; [reflexivity|]
  end.
  cbn [orb]. cbn [fst snd uncurry curry].
  repeat (rewrite lookup_insert_ne by congruence).
  apply lookup_empty.
Qed.

Lemma typeMap_labels_truthy (tag label : string) :
  typeMap !! tag = Some label -> JS.truthy_string label = true.
Proof.
  rewrite typeMap_lookup. unfold JS.includes, priority_order. cbn [existsb].
  repeat match goal with
  | |- context [String.eqb tag ?k] =>
      destruct (String.eqb_spec tag k) as [->|?];
        [cbn; intros [= <-]; reflexivity|]
  end.
  cbn. discriminate.
Qed.

Lemma getPlaceType_loop_find (types : list string) :
  getPlaceType_loop types =
  match List.find (fun tag => JS.includes priority_order tag) types with
  | Some tag => default "Attraction" (typeMap !! tag)
  | None => "Attraction"
  end.
Proof.
  induction types as [|tag rest IH]; [reflexivity|].
  cbn [getPlaceType_loop List.find].
  pose proof (typeMap_lookup tag) as Htag.
  destruct (typeMap !! tag) as [label|] eqn:Hlabel.
  - rewrite (typeMap_labels_truthy tag label Hlabel).
    destruct (JS.includes priority_order tag); [|discriminate].
    now rewrite Hlabel.
  - destruct (JS.includes priority_order tag); [discriminate|exact IH].
Qed.

(** With a single mapped tag the two readings agree. *)
Example getPlaceType_zoo :
  getPlaceType (Samples.place_of_types ["establishment"; "zoo"]) = "Zoo"
  /\ getPlaceType (Samples.place_of_types ["lodging"; "establishment"]) = "Attraction".
Proof. vm_compute. split; reflexivity. Qed.

End Classifier.

(** ** The ranker *)

Section Ranker.

Import PlaceClassifier GooglePlaces.

Lemma map_in_world_length {A B : Type} (f : A -> World -> B * World)
    (l : list A) (w : World) :
  length (fst (GooglePlacesDemo.map_in_world f l w)) = length l.
Proof.
  revert w. induction l as [|x rest IH]; intros w; [reflexivity|].
  cbn [GooglePlacesDemo.map_in_world].
  destruct (f x w) as [y w1]. specialize (IH w1).
  destruct (GooglePlacesDemo.map_in_world f rest w1) as [ys w2].
  cbn in *. now rewrite IH.
Qed.

(** The form in [server/services/google-places.ts] keeps eight. *)
Lemma demo_convertToTravelSuggestions_length
    (number_toString : R -> string) (places : list GooglePlace.t) (w : World) :
  length (fst (GooglePlacesDemo.convertToTravelSuggestions number_toString places w))
  = Nat.min 8 (length (List.filter isValidTravelDestination places)).
Proof.
  unfold GooglePlacesDemo.convertToTravelSuggestions, JS.slice0.
  rewrite map_in_world_length. apply length_firstn.
Qed.

End Ranker.

(** ** Distance and travel time *)

Section Distance.

Import PlaceClassifier GooglePlaces.
Local Open Scope R_scope.

Lemma distanceStr_5 : distanceStr 5 = "5.0km".
Proof.
  unfold distanceStr. destruct (Rlt_dec 5 1) as [H|_]; [lra|].
  rewrite (toFixed1_tenths 50); [reflexivity|lra|lra].
Qed.

Lemma travelTimeMinutes_of_5 : travelTimeMinutes_of 5 = 8%Z.
Proof. apply Math_round_eq. lra. Qed.

Lemma Math_round_nearest (x : R) :
  IZR (JS.Math_round x) - / 2 <= x < IZR (JS.Math_round x) + / 2.
Proof.
  unfold JS.Math_round. pose proof (Zfloor_bound (x + / 2)). lra.
Qed.

Lemma Math_round_nonneg (x : R) : 0 <= x -> (0 <= JS.Math_round x)%Z.
Proof.
  intros Hx. unfold JS.Math_round. apply Zfloor_lub. simpl. lra.
Qed.

(** The format of the travel time, for every minute count. *)
Lemma travelTimeStr_format (m : Z) :
  travelTimeStr m =
  if (m <? 60)%Z then JS.Number_toString m +:+ "min"
  else JS.Number_toString (m / 60) +:+ "h "
       +:+ JS.Number_toString (m mod 60) +:+ "min".
Proof.
  unfold travelTimeStr. destruct (m <? 60)%Z eqn:Hm; [reflexivity|].
  apply Z.ltb_ge in Hm.
  rewrite Math_floor_div60, Z.rem_mod_nonneg by lia. reflexivity.
Qed.

(** The same for a distance given outright. *)
Lemma travelTimeStr_of_distance (d : R) :
  let m := JS.Math_round (d / 40 * 60) in
  travelTimeStr (travelTimeMinutes_of d)
  = if (m <? 60)%Z then JS.Number_toString m +:+ "min"
    else JS.Number_toString (m / 60) +:+ "h "
         +:+ JS.Number_toString (m mod 60) +:+ "min".
Proof. apply travelTimeStr_format. Qed.

Example travelTime_5km : travelTimeStr (travelTimeMinutes_of 5) = "8min".
Proof. rewrite travelTimeMinutes_of_5. reflexivity. Qed.

Example travelTime_100km : travelTimeStr (travelTimeMinutes_of 100) = "2h 30min".
Proof.
  assert (travelTimeMinutes_of 100 = 150%Z) as -> by (apply Math_round_eq; lra).
  rewrite travelTimeStr_format. reflexivity.
Qed.

Example travelTime_40km : travelTimeStr (travelTimeMinutes_of 40) = "1h 0min".
Proof.
  assert (travelTimeMinutes_of 40 = 60%Z) as -> by (apply Math_round_eq; lra).
  rewrite travelTimeStr_format. reflexivity.
Qed.

(** The form in [server/services/google-places.ts] takes twelve minutes per
    kilometre: ten kilometres are two hours there, a quarter of an hour here. *)
Example demo_travelTime_10km :
  GooglePlacesDemo.travelTimeStr (JS.Math_round (10 * 12)) = "2h 0min"
  /\ travelTimeStr (travelTimeMinutes_of 10) = "15min".
Proof.
  assert (JS.Math_round (10 * 12) = 120%Z) as -> by (apply Math_round_eq; lra).
  assert (travelTimeMinutes_of 10 = 15%Z) as -> by (apply Math_round_eq; lra).
  split; [|reflexivity].
  unfold GooglePlacesDemo.travelTimeStr. cbn [Z.ltb Z.compare Pos.compare Pos.compare_cont].
  assert (JS.Math_round (120 / 60) = 2%Z) as -> by (apply Math_round_eq; lra).
  reflexivity.
Qed.


End Distance.

(** ** The haversine distance *)

Section Haversine.

Import GooglePlaces.
Local Open Scope R_scope.

Lemma sin_sqr_half_swap (x y : R) :
  sin ((x - y) * PI / 180 / 2) * sin ((x - y) * PI / 180 / 2)
  = sin ((y - x) * PI / 180 / 2) * sin ((y - x) * PI / 180 / 2).
Proof.
  replace ((x - y) * PI / 180 / 2) with (- ((y - x) * PI / 180 / 2)) by lra.
  rewrite sin_neg. ring.
Qed.

Lemma calculateDistance_sym (lat1 lng1 lat2 lng2 : R) :
  calculateDistance lat1 lng1 lat2 lng2 = calculateDistance lat2 lng2 lat1 lng1.
Proof.
  unfold calculateDistance. cbv zeta.
  set (a := sin ((lat2 - lat1) * PI / 180 / 2) * sin ((lat2 - lat1) * PI / 180 / 2) +
            cos (lat1 * PI / 180) * cos (lat2 * PI / 180) *
            sin ((lng2 - lng1) * PI / 180 / 2) * sin ((lng2 - lng1) * PI / 180 / 2)).
  set (b := sin ((lat1 - lat2) * PI / 180 / 2) * sin ((lat1 - lat2) * PI / 180 / 2) +
            cos (lat2 * PI / 180) * cos (lat1 * PI / 180) *
            sin ((lng1 - lng2) * PI / 180 / 2) * sin ((lng1 - lng2) * PI / 180 / 2)).
  assert (Hab : a = b).
  { unfold a, b.
    rewrite (sin_sqr_half_swap lat2 lat1).
    rewrite !Rmult_assoc. rewrite (sin_sqr_half_swap lng2 lng1).
    ring. }
  now rewrite Hab.
Qed.

Lemma Math_atan2_0_1 : JS.Math_atan2 0 1 = 0.
Proof.
  unfold JS.Math_atan2. destruct (Rlt_dec 0 1) as [_|H]; [|lra].
  replace (0 / 1) with 0 by lra. apply atan_0.
Qed.


(** On two non-negative arguments [Math.atan2] lies between 0 and a right
    angle, so a distance lies between 0 and half the circumference. *)
Lemma Math_atan2_nonneg (y x : R) :
  0 <= y -> 0 <= x -> 0 <= JS.Math_atan2 y x <= PI / 2.
Proof.
  intros Hy Hx. pose proof PI_RGT_0 as Hpi. unfold JS.Math_atan2.
  destruct (Rlt_dec 0 x) as [Hpos|Hnpos].
  - pose proof (atan_bound (y / x)) as [_ Hup].
    split; [|lra].
    destruct (Req_dec y 0) as [->|Hne].
    + replace (0 / x) with 0 by (field; lra). rewrite atan_0. lra.
    + rewrite <- atan_0. left. apply atan_increasing.
      apply Rdiv_lt_0_compat; lra.
  - destruct (Rlt_dec x 0) as [Hneg|_]; [lra|].
    destruct (Rlt_dec 0 y) as [_|_]; [lra|].
    destruct (Rlt_dec y 0) as [Hyneg|_]; lra.
Qed.

Lemma calculateDistance_bounds (lat1 lng1 lat2 lng2 : R) :
  0 <= calculateDistance lat1 lng1 lat2 lng2 <= 6371 * PI.
Proof.
  unfold calculateDistance. cbv zeta.
  match goal with |- context [JS.Math_atan2 ?y ?x] =>
    pose proof (Math_atan2_nonneg y x (sqrt_pos _) (sqrt_pos _)) as Hc;
    set (c := JS.Math_atan2 y x) in *
  end.
  lra.
Qed.

End Haversine.

(** ** The store *)

Section Store.

(** Every key of an update that is absent leaves its field alone, and no
    other field but [updatedAt] is written. *)
Lemma spread_updates_fields (itinerary : Itinerary.t)
    (updates : UpdateItinerary.t) (now : Date) :
  let updated := spread_updates itinerary updates now in
  Itinerary.id updated = Itinerary.id itinerary
  /\ Itinerary.userId updated = Itinerary.userId itinerary
  /\ Itinerary.location updated = Itinerary.location itinerary
  /\ Itinerary.startDate updated = Itinerary.startDate itinerary
  /\ Itinerary.endDate updated = Itinerary.endDate itinerary
  /\ Itinerary.tripType updated = Itinerary.tripType itinerary
  /\ Itinerary.transport updated = Itinerary.transport itinerary
  /\ Itinerary.accommodation updated = Itinerary.accommodation itinerary
  /\ Itinerary.dining updated = Itinerary.dining itinerary
  /\ Itinerary.ageGroup updated = Itinerary.ageGroup itinerary
  /\ Itinerary.interests updated = Itinerary.interests itinerary
  /\ Itinerary.createdAt updated = Itinerary.createdAt itinerary
  /\ Itinerary.updatedAt updated = now
  /\ Itinerary.title updated
     = match UpdateItinerary.title updates with
       | Some v => v | None => Itinerary.title itinerary end
  /\ Itinerary.description updated
     = match UpdateItinerary.description updates with
       | Some v => v | None => Itinerary.description itinerary end
  /\ Itinerary.generatedContent updated
     = match UpdateItinerary.generatedContent updates with
       | Some v => v | None => Itinerary.generatedContent itinerary end
  /\ Itinerary.status updated
     = match UpdateItinerary.status updates with
       | Some v => v | None => Itinerary.status itinerary end.
Proof.
  cbv zeta. unfold spread_updates. cbn.
  destruct (UpdateItinerary.title updates), (UpdateItinerary.description updates),
    (UpdateItinerary.generatedContent updates), (UpdateItinerary.status updates);
    repeat split.
Qed.

(** C9: [updateItinerary] on a stored itinerary, in [PgStorage] and in
    [MemStorage] alike, writes the fields listed in the update and
    [updatedAt], which becomes the time of the call; every other field of
    the record keeps its value, and so does every other record. *)
Theorem updateItinerary_frame
    (table : gmap Z Itinerary.t) (next : Z) (now : Date) (id : Z)
    (updates : UpdateItinerary.t) (itinerary : Itinerary.t) :
  table !! id = Some itinerary ->
  exists updated : Itinerary.t,
    PgStorage.updateItinerary table now id updates
      = (Some updated, <[id := updated]> table)
    /\ MemStorage.updateItinerary (MemStorage.mk table next) now id updates
       = (Some updated, MemStorage.mk (<[id := updated]> table) next)
    /\ (forall other : Z, other <> id ->
          (<[id := updated]> table) !! other = table !! other)
    /\ (<[id := updated]> table) !! id = Some updated
    /\ Itinerary.id updated = Itinerary.id itinerary
    /\ Itinerary.userId updated = Itinerary.userId itinerary
    /\ Itinerary.location updated = Itinerary.location itinerary
    /\ Itinerary.startDate updated = Itinerary.startDate itinerary
    /\ Itinerary.endDate updated = Itinerary.endDate itinerary
    /\ Itinerary.tripType updated = Itinerary.tripType itinerary
    /\ Itinerary.transport updated = Itinerary.transport itinerary
    /\ Itinerary.accommodation updated = Itinerary.accommodation itinerary
    /\ Itinerary.dining updated = Itinerary.dining itinerary
    /\ Itinerary.ageGroup updated = Itinerary.ageGroup itinerary
    /\ Itinerary.interests updated = Itinerary.interests itinerary
    /\ Itinerary.createdAt updated = Itinerary.createdAt itinerary
    /\ Itinerary.updatedAt updated = now
    /\ Itinerary.title updated
       = match UpdateItinerary.title updates with
         | Some v => v | None => Itinerary.title itinerary end
    /\ Itinerary.description updated
       = match UpdateItinerary.description updates with
         | Some v => v | None => Itinerary.description itinerary end
    /\ Itinerary.generatedContent updated
       = match UpdateItinerary.generatedContent updates with
         | Some v => v | None => Itinerary.generatedContent itinerary end
    /\ Itinerary.status updated
       = match UpdateItinerary.status updates with
         | Some v => v | None => Itinerary.status itinerary end.
Proof.
  intros Hstored. exists (spread_updates itinerary updates now).
  unfold PgStorage.updateItinerary, MemStorage.updateItinerary.
  cbn [MemStorage.itineraries MemStorage.currentItineraryId].
  rewrite Hstored.
  split; [reflexivity|]. split; [reflexivity|].
  split; [intros other Hother; now apply lookup_insert_ne|].
  split; [apply lookup_insert_eq|].
  apply spread_updates_fields.
Qed.

(** An update of the status alone, on the sample draft. *)
Lemma updateItinerary_frame_witness :
  exists updated : Itinerary.t,
    PgStorage.updateItinerary Samples.table 2000%Z 1%Z
      (UpdateItinerary.mk None None None (Some "saved"))
      = (Some updated, <[1%Z := updated]> Samples.table)
    /\ Itinerary.status updated = "saved"
    /\ Itinerary.generatedContent updated = JNull
    /\ Itinerary.title updated = "Rome"
    /\ Itinerary.updatedAt updated = 2000%Z.
Proof.
  destruct (updateItinerary_frame Samples.table 2%Z 2000%Z 1%Z
              (UpdateItinerary.mk None None None (Some "saved")) Samples.draft)
    as (updated & Hpg & _ & _ & _ & H).
  - reflexivity.
  - exists updated. split; [exact Hpg|].
    destruct H as (_ & _ & _ & _ & _ & _ & _ & _ & _ & _ & _ & _ & Hupd & Htitle & _ & Hgen & Hstatus).
    repeat split; assumption.
Defined.

(** A new itinerary is a draft without generated content. *)
Lemma createItinerary_draft (this : MemStorage.t) (now : Date)
    (itinerary : InsertItinerary.t) :
  let '(created, this') := MemStorage.createItinerary this now itinerary in
  Itinerary.status created = "draft"
  /\ Itinerary.generatedContent created = JNull
  /\ MemStorage.getItinerary this' (Itinerary.id created) = Some created.
Proof.
  cbn. repeat split. apply lookup_insert_eq.
Qed.

(** An update of a key that holds no record changes nothing. *)
Lemma updateItinerary_missing (table : gmap Z Itinerary.t) (now : Date) (id : Z)
    (updates : UpdateItinerary.t) :
  table !! id = None ->
  PgStorage.updateItinerary table now id updates = (None, table).
Proof. intros H. unfold PgStorage.updateItinerary. now rewrite H. Qed.

End Store.

(** ** Generation *)

Section Generation.

Import Spec.

Variable JSON_parse : string -> option Json.

Lemma generateItinerary_returns (request : OpenAI.ItineraryRequest)
    (chat : OpenAI.ChatResult) (payload : Json) :
  OpenAI.generateItinerary JSON_parse request chat = Return payload <->
  exists content rest,
    chat = OpenAI.ChatCompletion (content :: rest)
    /\ JSON_parse (JS.or_string content "{}") = Some payload.
Proof.
  unfold OpenAI.generateItinerary. split.
  - destruct chat as [e|[|content rest]]; try discriminate.
    destruct (JSON_parse (JS.or_string content "{}")) eqn:Hp; [|discriminate].
    intros [= <-]. now exists content, rest.
  - intros (content & rest & -> & ->). reflexivity.
Qed.

(** One call: a successful generation stores the parsed payload and the
    status "generated" in place of what the record held, and answers 200
    with the updated record. *)
Lemma generate_success (storage : gmap Z Itinerary.t) (now : Date)
    (req : Routes.GenerateRequest) (chat : OpenAI.ChatResult)
    (itinerary : Itinerary.t) (payload : Json) :
  PgStorage.getItinerary storage (Routes.params_id req) = Some itinerary ->
  Itinerary.id itinerary = Routes.params_id req ->
  Routes.user req = Some (Itinerary.userId itinerary) ->
  OpenAI.generateItinerary JSON_parse (Routes.requestOf itinerary) chat
    = Return payload ->
  let updated :=
    spread_updates itinerary
      (UpdateItinerary.mk None None (Some payload) (Some "generated")) now in
  Routes.generate JSON_parse storage now req chat
  = (Routes.mkResponse 200 (Routes.JsonItinerary (Some updated)),
     <[Routes.params_id req := updated]> storage).
Proof.
  intros Hstored Hid Huser Hgen. cbv zeta. unfold Routes.generate.
  rewrite Huser, Hstored, Z.eqb_refl. cbn [negb]. rewrite Hgen.
  unfold PgStorage.updateItinerary. rewrite Hid.
  unfold PgStorage.getItinerary in Hstored. now rewrite Hstored.
Qed.

Lemma or_string_text (text : string) :
  text <> "" -> JS.or_string (Some text) "{}" = text.
Proof. destruct text; [contradiction|reflexivity]. Qed.

Lemma or_string_blank (chat : OpenAI.ChatResult) :
  blank_content chat ->
  exists content rest,
    chat = OpenAI.ChatCompletion (content :: rest)
    /\ JS.or_string content "{}" = "{}".
Proof.
  destruct chat as [e|[|[text|] rest]]; cbn; try contradiction.
  - intros ->. now exists (Some ""), rest.
  - intros _. now exists None, rest.
Qed.

(** What the code treats as a failure: the failures of the specification,
    less the answers whose content is null or empty. *)
Lemma generateItinerary_throws (request : OpenAI.ItineraryRequest)
    (chat : OpenAI.ChatResult) :
  generation_failure JSON_parse chat -> ~ blank_content chat ->
  OpenAI.generateItinerary JSON_parse request chat = Throw OpenAI.failure.
Proof.
  unfold generation_failure, blank_content, OpenAI.generateItinerary.
  destruct chat as [e|[|[text|] rest]]; try reflexivity.
  - intros Hparse Htext. rewrite or_string_text by assumption.
    now rewrite Hparse.
  - intros _ Hblank. now contradiction Hblank.
Qed.

(** C2, as the code has it.  When the generation fails by a rejected call
    (network error, status outside 2xx), by an answer without a choice or by
    a content that is not empty and is no JSON text, the handler writes
    nothing: the status and the generated content are as before the call,
    and it answers 500 "Failed to generate itinerary".  A content that is
    null or empty is no failure for the code: it is read as "{}", and what
    that parses to is stored with the status "generated". *)
Theorem generate_failure_writes_nothing
    (storage : gmap Z Itinerary.t) (now : Date) (req : Routes.GenerateRequest)
    (chat : OpenAI.ChatResult) (itinerary : Itinerary.t) :
  PgStorage.getItinerary storage (Routes.params_id req) = Some itinerary ->
  Itinerary.id itinerary = Routes.params_id req ->
  Routes.user req = Some (Itinerary.userId itinerary) ->
  let '(response, storage') := Routes.generate JSON_parse storage now req chat in
  (generation_failure JSON_parse chat -> ~ blank_content chat ->
   response = Routes.mkResponse 500 (Routes.JsonMessage "Failed to generate itinerary")
   /\ storage' = storage
   /\ exists after : Itinerary.t,
        PgStorage.getItinerary storage' (Routes.params_id req) = Some after
        /\ Itinerary.status after = Itinerary.status itinerary
        /\ Itinerary.generatedContent after = Itinerary.generatedContent itinerary)
  /\ (blank_content chat ->
      forall payload : Json, JSON_parse "{}" = Some payload ->
      exists after : Itinerary.t,
        response = Routes.mkResponse 200 (Routes.JsonItinerary (Some after))
        /\ PgStorage.getItinerary storage' (Routes.params_id req) = Some after
        /\ Itinerary.status after = "generated"
        /\ Itinerary.generatedContent after = payload).
Proof.
  intros Hstored Hid Huser.
  destruct (Routes.generate JSON_parse storage now req chat)
    as [response storage'] eqn:Hgenerate.
  split.
  - intros Hfail Hblank. revert Hgenerate. unfold Routes.generate.
    rewrite Huser, Hstored, Z.eqb_refl. cbn [negb].
    rewrite (generateItinerary_throws (Routes.requestOf itinerary) chat Hfail Hblank).
    intros [= <- <-]. repeat split. now exists itinerary.
  - intros Hblank payload Hparse.
    destruct (or_string_blank chat Hblank) as (content & rest & -> & Hor).
    rewrite (generate_success storage now req _ itinerary payload) in Hgenerate;
      [|assumption|assumption|assumption|].
    + injection Hgenerate as <- <-. eexists. split; [reflexivity|].
      split; [apply lookup_insert_eq|]. split; reflexivity.
    + apply generateItinerary_returns. exists content, rest.
      split; [reflexivity|]. now rewrite Hor.
Qed.

(** C3: a generation whose answer carries a content that is JSON text
    stores what that text parses to, with the status "generated", whatever
    the record held before, in particular for a draft and for a generated
    record; the other fields of the record stay.  A second such generation
    on the record, now generated, is accepted: it replaces the payload by
    the one of the second answer and leaves the status "generated". *)
Theorem generate_stores_parsed_content
    (storage : gmap Z Itinerary.t) (now : Date) (req : Routes.GenerateRequest)
    (text : string) (rest : list (option string)) (itinerary : Itinerary.t)
    (payload : Json) :
  PgStorage.getItinerary storage (Routes.params_id req) = Some itinerary ->
  Itinerary.id itinerary = Routes.params_id req ->
  Routes.user req = Some (Itinerary.userId itinerary) ->
  text <> "" ->
  JSON_parse text = Some payload ->
  let '(response, storage') :=
    Routes.generate JSON_parse storage now req
      (OpenAI.ChatCompletion (Some text :: rest)) in
  exists updated : Itinerary.t,
    response = Routes.mkResponse 200 (Routes.JsonItinerary (Some updated))
    /\ PgStorage.getItinerary storage' (Routes.params_id req) = Some updated
    /\ Itinerary.status updated = "generated"
    /\ Itinerary.generatedContent updated = payload
    /\ Routes.requestOf updated = Routes.requestOf itinerary
    /\ Itinerary.userId updated = Itinerary.userId itinerary
    /\ forall (now2 : Date) (text2 : string) (rest2 : list (option string))
              (payload2 : Json),
         text2 <> "" ->
         JSON_parse text2 = Some payload2 ->
         let '(response2, storage2) :=
           Routes.generate JSON_parse storage' now2 req
             (OpenAI.ChatCompletion (Some text2 :: rest2)) in
         exists again : Itinerary.t,
           response2 = Routes.mkResponse 200 (Routes.JsonItinerary (Some again))
           /\ PgStorage.getItinerary storage2 (Routes.params_id req) = Some again
           /\ Itinerary.status again = "generated"
           /\ Itinerary.generatedContent again = payload2.
Proof.
  intros Hstored Hid Huser Htext Hparse.
  assert (Hreturns : forall (request : OpenAI.ItineraryRequest) (t : string)
            (r : list (option string)) (p : Json),
            t <> "" -> JSON_parse t = Some p ->
            OpenAI.generateItinerary JSON_parse request
              (OpenAI.ChatCompletion (Some t :: r)) = Return p).
  { intros request t r p Ht Hp. apply generateItinerary_returns.
    exists (Some t), r. split; [reflexivity|]. now rewrite or_string_text. }
  rewrite (generate_success storage now req _ itinerary payload)
    by (try assumption; now apply Hreturns).
  set (updated := spread_updates itinerary
                    (UpdateItinerary.mk None None (Some payload) (Some "generated")) now).
  exists updated. split; [reflexivity|].
  assert (Hstored' : PgStorage.getItinerary
                       (<[Routes.params_id req := updated]> storage)
                       (Routes.params_id req) = Some updated)
    by apply lookup_insert_eq.
  split; [exact Hstored'|]. repeat split.
  intros now2 text2 rest2 payload2 Htext2 Hparse2.
  rewrite (generate_success _ now2 req _ updated payload2);
    [|exact Hstored'|exact Hid|exact Huser|now apply Hreturns].
  eexists. split; [reflexivity|]. split; [apply lookup_insert_eq|].
  split; reflexivity.
Qed.

End Generation.

(** A network error, and a content that is no JSON text, on the sample
    draft: 500, and the record is still a draft without content. *)
Lemma generate_failure_writes_nothing_witness :
  List.Forall
    (fun chat =>
       let '(response, storage') :=
         Routes.generate EdgeSamples.JSON_parse Samples.table 2000%Z
           Samples.request chat in
       response
       = Routes.mkResponse 500 (Routes.JsonMessage "Failed to generate itinerary")
       /\ storage' = Samples.table
       /\ exists after : Itinerary.t,
            PgStorage.getItinerary storage' 1%Z = Some after
            /\ Itinerary.status after = "draft"
            /\ Itinerary.generatedContent after = JNull)
    [ OpenAI.ChatRejected (mkError "network");
      OpenAI.ChatCompletion [Some "{}{"; Some "{}"] ].
Proof.
  apply List.Forall_cons; [|apply List.Forall_cons; [|apply List.Forall_nil]].
  - exact (proj1 (generate_failure_writes_nothing EdgeSamples.JSON_parse
                    Samples.table 2000%Z Samples.request
                    (OpenAI.ChatRejected (mkError "network")) Samples.draft
                    eq_refl eq_refl eq_refl) I (fun H => H)).
  - exact (proj1 (generate_failure_writes_nothing EdgeSamples.JSON_parse
                    Samples.table 2000%Z Samples.request
                    (OpenAI.ChatCompletion [Some "{}{"; Some "{}"]) Samples.draft
                    eq_refl eq_refl eq_refl) eq_refl ltac:(discriminate)).
Defined.

(** C2, as the specification words it, fails.  An answer whose content is
    null, or empty, is a malformed response, yet the handler answers 200
    and the draft becomes a generated record holding the empty object. *)
Lemma generate_null_content_is_stored :
  List.Forall
    (fun chat =>
       Spec.generation_failure EdgeSamples.JSON_parse chat
       /\ let '(response, storage') :=
            Routes.generate EdgeSamples.JSON_parse Samples.table 2000%Z
              Samples.request chat in
          Routes.statusCode response = 200%Z
          /\ exists after : Itinerary.t,
               PgStorage.getItinerary storage' 1%Z = Some after
               /\ Itinerary.status after = "generated"
               /\ Itinerary.status after <> Itinerary.status Samples.draft
               /\ Itinerary.generatedContent after = JObject []
               /\ Itinerary.generatedContent after
                  <> Itinerary.generatedContent Samples.draft)
    [ OpenAI.ChatCompletion [None]; OpenAI.ChatCompletion [Some ""] ].
Proof.
  repeat constructor;
    (eexists; split; [apply lookup_insert_eq|]; repeat split; discriminate).
Qed.

(** A content that is not JSON fails the generation; the record is as it
    was. *)
Example generate_malformed_content :
  Routes.generate Samples.JSON_parse Samples.table 2000%Z Samples.request
    (OpenAI.ChatCompletion [Some "{}{"])
  = (Routes.mkResponse 500 (Routes.JsonMessage "Failed to generate itinerary"),
     Samples.table).
Proof. reflexivity. Qed.

(** A plan for the sample draft, then a second one: the second replaces the
    first. *)
Lemma generate_stores_parsed_content_witness :
  let '(response, storage') :=
    Routes.generate EdgeSamples.JSON_parse Samples.table 2000%Z Samples.request
      (OpenAI.ChatCompletion [Some "three days in Rome"]) in
  (exists updated : Itinerary.t,
     PgStorage.getItinerary storage' 1%Z = Some updated
     /\ Itinerary.status updated = "generated"
     /\ Itinerary.generatedContent updated
        = JObject [("title", JString "three days in Rome")])
  /\ let '(response2, storage2) :=
       Routes.generate EdgeSamples.JSON_parse storage' 3000%Z Samples.request
         (OpenAI.ChatCompletion [Some "four days in Rome"; None]) in
     exists again : Itinerary.t,
       PgStorage.getItinerary storage2 1%Z = Some again
       /\ Itinerary.status again = "generated"
       /\ Itinerary.generatedContent again
          = JObject [("title", JString "four days in Rome")].
Proof.
  pose proof (generate_stores_parsed_content EdgeSamples.JSON_parse Samples.table
                2000%Z Samples.request "three days in Rome" [] Samples.draft
                (JObject [("title", JString "three days in Rome")])
                eq_refl eq_refl eq_refl ltac:(discriminate) eq_refl) as H.
  destruct (Routes.generate EdgeSamples.JSON_parse Samples.table 2000%Z
              Samples.request (OpenAI.ChatCompletion [Some "three days in Rome"]))
    as [response storage'].
  destruct H as (updated & _ & Hget & Hstatus & Hcontent & _ & _ & Hagain).
  split; [now exists updated|].
  specialize (Hagain 3000%Z "four days in Rome" [None]
                (JObject [("title", JString "four days in Rome")])
                ltac:(discriminate) eq_refl).
  destruct (Routes.generate EdgeSamples.JSON_parse storage' 3000%Z Samples.request
              (OpenAI.ChatCompletion [Some "four days in Rome"; None]))
    as [response2 storage2].
  destruct Hagain as (again & _ & Hget2 & Hstatus2 & Hcontent2).
  now exists again.
Defined.

(** ** The suggestions route *)

Section Suggestions.

Import PlaceClassifier Spec.
Local Open Scope R_scope.

Variable parseFloat : string -> option R.
Variable parseInt : string -> option Z.

Lemma searchNearbyPlaces_throws (API_KEY : option string) (lat lng : R)
    (radius : option Z) (fetched : PlaceSearch.FetchResult) :
  search_fails API_KEY fetched <->
  exists e, PlaceSearch.searchNearbyPlaces API_KEY lat lng radius fetched = Throw e.
Proof.
  unfold search_fails, PlaceSearch.searchNearbyPlaces.
  destruct (JS.truthy_string (default "" API_KEY)); cbn [negb].
  - destruct fetched as [e|[|] http_status statusText [data|e]];
      try (split; [intros _; eexists; reflexivity | intros _; right; exact I]).
    destruct (String.eqb_spec (PlaceSearch.status data) "OK") as [Hok|Hno].
    + split; [intros [H|H]; [discriminate|contradiction] | intros [e [=]]].
    + split; [intros _; eexists; reflexivity | intros _; now right].
  - split; [intros _; eexists; reflexivity | intros _; now left].
Qed.

Lemma searchNearbyPlaces_returns (API_KEY : option string) (lat lng : R)
    (radius : option Z) (fetched : PlaceSearch.FetchResult) :
  ~ search_fails API_KEY fetched ->
  exists ok http_status statusText data,
    fetched = PlaceSearch.FetchResponse ok http_status statusText (Return data)
    /\ PlaceSearch.status data = "OK"
    /\ PlaceSearch.searchNearbyPlaces API_KEY lat lng radius fetched
       = Return (default [] (PlaceSearch.results data)).
Proof.
  intros Hok.
  destruct (PlaceSearch.searchNearbyPlaces API_KEY lat lng radius fetched)
    as [places|e] eqn:Hsearch.
  - revert Hsearch. unfold PlaceSearch.searchNearbyPlaces.
    destruct (JS.truthy_string (default "" API_KEY)); cbn [negb]; [|discriminate].
    destruct fetched as [e|[|] http_status statusText [data|e]]; try discriminate.
    destruct (String.eqb_spec (PlaceSearch.status data) "OK") as [Hst|Hst];
      [|discriminate].
    intros [= <-]. now exists true, http_status, statusText, data.
  - exfalso. apply Hok.
    apply (searchNearbyPlaces_throws API_KEY lat lng radius fetched). now exists e.
Qed.

Lemma locationSuggestions_live (service : Routes.PlacesService)
    (query : Routes.SuggestionsQuery) (fetched : PlaceSearch.FetchResult)
    (w : World) (slat slng : string) (latitude longitude : R) :
  Routes.lat query = Some slat -> JS.truthy_string slat = true ->
  Routes.lng query = Some slng -> JS.truthy_string slng = true ->
  parseFloat slat = Some latitude -> parseFloat slng = Some longitude ->
  Routes.locationSuggestions parseFloat parseInt service query fetched w
  = match PlaceSearch.searchNearbyPlaces (Routes.service_API_KEY service)
            latitude longitude
            (if JS.truthy_string (default "" (Routes.radius query))
             then parseInt (default "" (Routes.radius query)) else Some 25000%Z)
            fetched with
    | Return places =>
        let '(suggestions, w) := Routes.service_convert service places w in
        (Routes.mkResponse 200 (Routes.JsonSuggestions suggestions), w)
    | Throw _ =>
        (Routes.mkResponse 200
           (Routes.JsonSuggestions (Routes.service_fallback service)), w)
    end.
Proof.
  intros Hlat Hslat Hlng Hslng Hplat Hplng. unfold Routes.locationSuggestions.
  rewrite Hlat, Hlng. cbn [from_option]. unfold Datatypes.id. rewrite Hslat, Hslng. cbn [negb orb].
  now rewrite Hplat, Hplng.
Qed.

(** The fallback list: three suggestions, fallback-1 to fallback-3. *)
Lemma getFallbackSuggestions_ids :
  map TravelSuggestion.id getFallbackSuggestions
  = ["fallback-1"; "fallback-2"; "fallback-3"]
  /\ length getFallbackSuggestions = 3%nat.
Proof. split; reflexivity. Qed.

End Suggestions.

(** An empty result list, with the service kept in
    [server/services/google-places.ts]: the empty list is the answer. *)
Example locationSuggestions_empty_results :
  Routes.locationSuggestions Samples.parseFloat Samples.parseInt
    (Routes.demoService Samples.number_toString (Some "key")) Samples.query
    (Samples.answer []) (Samples.world 0)
  = (Routes.mkResponse 200 (Routes.JsonSuggestions []), Samples.world 0).
Proof. reflexivity. Qed.

(** When the provider finds nothing it reports ZERO_RESULTS, which is not
    OK: the search throws and the route answers the fallback list. *)
Example locationSuggestions_zero_results :
  Routes.locationSuggestions Samples.parseFloat Samples.parseInt
    (Routes.coordinateAwareService Samples.service) Samples.query
    (PlaceSearch.FetchResponse true 200%Z "OK"
       (Return (PlaceSearch.mkResponse (Some []) "ZERO_RESULTS" None)))
    (Samples.world 0)
  = (Routes.mkResponse 200
       (Routes.JsonSuggestions PlaceClassifier.getFallbackSuggestions),
     Samples.world 0).
Proof. reflexivity. Qed.

(** A missing credential is a failure of the search like any other. *)
Example locationSuggestions_no_credential (fetched : PlaceSearch.FetchResult) :
  Routes.locationSuggestions Samples.parseFloat Samples.parseInt
    (Routes.coordinateAwareService
       (GooglePlaces.mkService "https://maps.googleapis.com/maps/api/place" None))
    Samples.query fetched (Samples.world 0)
  = (Routes.mkResponse 200
       (Routes.JsonSuggestions PlaceClassifier.getFallbackSuggestions),
     Samples.world 0).
Proof. reflexivity. Qed.

(** ** The requester coordinate *)

Section RequesterCoordinate.

Import PlaceClassifier GooglePlaces.
Local Open Scope R_scope.




End RequesterCoordinate.


(** With a requester coordinate the distance is the computed one. *)
Example distanceKm_of_with_requester :
  GooglePlaces.distanceKm_of Samples.louvre (Some 48.8566%R) (Some 2.3522%R)
  = GooglePlaces.calculateDistance 48.8566 2.3522 48.8606 2.3376.
Proof.
  unfold GooglePlaces.distanceKm_of.
  rewrite !truthy_number_nonzero by lra. reflexivity.
Qed.

(** Seven eligible places: six suggestions here, seven in the form kept in
    [server/services/google-places.ts]. *)
Example seven_eligible_places :
  length (GooglePlaces.convertToTravelSuggestions Samples.service
            (repeat Samples.louvre 7) None None) = 6%nat
  /\ length (fst (GooglePlacesDemo.convertToTravelSuggestions
                    Samples.number_toString (repeat Samples.louvre 7)
                    (Samples.world 0))) = 7%nat.
Proof.
  split.
  - unfold GooglePlaces.convertToTravelSuggestions, JS.slice0.
    rewrite length_firstn, length_map. reflexivity.
  - rewrite demo_convertToTravelSuggestions_length. reflexivity.
Qed.

(** * Further properties of the code *)

(** ** Highlights, audience tags and labels *)

Section ClassifierMore.

Import PlaceClassifier Spec.
Local Open Scope R_scope.

(** The highlights of a place are at most three, each taken from a fixed
    list of nine phrases. *)
Theorem generateHighlights_bounded (place : GooglePlace.t) :
  (length (generateHighlights place) <= 3)%nat
  /\ List.Forall
       (fun highlight =>
          In highlight
            [ "Highly rated destination"; "Popular with visitors";
              "Photo-worthy location"; "Educational experience";
              "Cultural significance"; "Outdoor activities";
              "Nature experience"; "Must-see destination"; "Local landmark" ])
       (generateHighlights place).
Proof.
  unfold generateHighlights, JS.slice0. split.
  - rewrite length_firstn. lia.
  - apply Forall_take.
    repeat match goal with
    | |- List.Forall _ (_ ++ _) => apply List.Forall_app; split
    | |- List.Forall _ [] => apply List.Forall_nil
    | |- List.Forall _ (_ :: _) =>
        apply List.Forall_cons;
          [cbn [In]; repeat (first [left; reflexivity | right])|]
    | |- List.Forall _ (if ?b then _ else _) => destruct b
    | |- List.Forall _ (match ?o with Some _ => _ | None => _ end) => destruct o
    end.
Qed.

(** A place rated 4.5 or more, with more than 100 ratings and a photo, gets
    the three general highlights; what its tags would add is cut off. *)
Theorem generateHighlights_general_first
    (place : GooglePlace.t) (r n : R) (photo : Photo.t) (photos : list Photo.t) :
  GooglePlace.rating place = Some r -> r >= 4.5 ->
  GooglePlace.user_ratings_total place = Some n -> n > 100 ->
  GooglePlace.photos place = Some (photo :: photos) ->
  generateHighlights place
  = [ "Highly rated destination"; "Popular with visitors"; "Photo-worthy location" ].
Proof.
  intros Hr Hr45 Hn Hn100 Hp. unfold generateHighlights.
  rewrite Hr, Hn, Hp.
  rewrite (truthy_number_nonzero r) by lra.
  rewrite (truthy_number_nonzero n) by lra.
  destruct (Rge_dec r 4.5) as [_|Hno]; [|contradiction].
  destruct (Rgt_dec n 100) as [_|Hno]; [|contradiction].
  cbn [andb length Nat.ltb Nat.leb app].
  destruct (JS.includes (GooglePlace.types place) "museum"),
    (JS.includes (GooglePlace.types place) "park"),
    (JS.includes (GooglePlace.types place) "tourist_attraction"); reflexivity.
Qed.

Lemma generateHighlights_general_first_witness :
  generateHighlights MoreSamples.acclaimed
  = [ "Highly rated destination"; "Popular with visitors"; "Photo-worthy location" ].
Proof.
  apply (generateHighlights_general_first MoreSamples.acclaimed 4.6 500
           (Photo.mk "a" 1 1) [Photo.mk "b" 1 1; Photo.mk "c" 1 1; Photo.mk "d" 1 1]).
  - reflexivity.
  - lra.
  - reflexivity.
  - lra.
  - reflexivity.
Defined.

(** The audience tags are always exactly two: those of the first group the
    place belongs to, in the order museum or art gallery, park or natural
    feature, amusement park or zoo, tourist attraction, and the general pair
    when it belongs to none. *)
Theorem determineBestFor_first_group (place : GooglePlace.t) :
  let types := GooglePlace.types place in
  determineBestFor place
  = (if JS.includes types "museum" || JS.includes types "art_gallery"
     then ["Culture enthusiasts"; "History buffs"]
     else if JS.includes types "park" || JS.includes types "natural_feature"
     then ["Nature lovers"; "Outdoor activities"]
     else if JS.includes types "amusement_park" || JS.includes types "zoo"
     then ["Families"; "Adventure seekers"]
     else if JS.includes types "tourist_attraction"
     then ["First-time visitors"; "Sightseeing"]
     else ["All travelers"; "Local exploration"])
  /\ length (determineBestFor place) = 2%nat.
Proof.
  cbv zeta. unfold determineBestFor.
  set (types := GooglePlace.types place).
  destruct (JS.includes types "museum" || JS.includes types "art_gallery"),
    (JS.includes types "park" || JS.includes types "natural_feature"),
    (JS.includes types "amusement_park" || JS.includes types "zoo"),
    (JS.includes types "tourist_attraction"); split; reflexivity.
Qed.

Lemma includes_travelTypes (tag : string) :
  JS.includes travelTypes tag
  = JS.includes priority_order tag || String.eqb tag "establishment".
Proof.
  unfold JS.includes, travelTypes, priority_order. cbn [existsb].
  repeat (destruct (String.eqb tag _); [reflexivity|]). reflexivity.
Qed.

Lemma mapped_tag_label (tag : string) :
  JS.includes priority_order tag = true ->
  In (default "Attraction" (typeMap !! tag))
    [ "Tourist Attraction"; "Museum"; "Amusement Park"; "Zoo"; "Aquarium";
      "Art Gallery"; "Park"; "Natural Feature"; "Point of Interest" ].
Proof.
  unfold JS.includes, priority_order. cbn [existsb].
  repeat match goal with
  | |- context [String.eqb tag ?k] =>
      destruct (String.eqb_spec tag k) as [->|?];
        [intros _; vm_compute; tauto|]
  end.
  discriminate.
Qed.

End ClassifierMore.

(** ** Suggestions and their fields *)

Section SuggestionsMore.

Import PlaceClassifier GooglePlaces.
Local Open Scope R_scope.



(** Below one kilometre the distance is shown in metres, as a whole number
    between 0 and 1000; 1000 itself is reached from 999.5 m on. *)
Theorem distanceStr_metres (distanceKm : R) :
  0 <= distanceKm < 1 ->
  let metres := JS.Math_round (distanceKm * 1000) in
  distanceStr distanceKm = JS.Number_toString metres +:+ "m"
  /\ (0 <= metres <= 1000)%Z
  /\ (metres = 1000%Z <-> 0.9995 <= distanceKm).
Proof.
  intros [H0 H1]. cbv zeta. unfold distanceStr.
  destruct (Rlt_dec distanceKm 1) as [_|Hno]; [|contradiction].
  split; [reflexivity|].
  pose proof (Math_round_nearest (distanceKm * 1000)) as [Hlo Hhi].
  set (metres := JS.Math_round (distanceKm * 1000)) in *.
  assert (Hm0 : (0 <= metres)%Z) by (apply Math_round_nonneg; lra).
  assert (Hm1 : (metres <= 1000)%Z).
  { apply Z.lt_succ_r. apply lt_IZR. rewrite succ_IZR. lra. }
  split; [lia|]. split.
  - intros ->. lra.
  - intros Hd. apply Z.le_antisymm; [assumption|].
    apply Z.lt_succ_r. apply lt_IZR. rewrite succ_IZR. lra.
Qed.

Lemma distanceStr_metres_witness :
  distanceStr 0.9996 = JS.Number_toString (JS.Math_round (0.9996 * 1000)) +:+ "m"
  /\ (0 <= JS.Math_round (0.9996 * 1000) <= 1000)%Z
  /\ (JS.Math_round (0.9996 * 1000) = 1000%Z <-> 0.9995 <= 0.9996).
Proof.
  apply (distanceStr_metres 0.9996). lra.
Defined.

(** A longer way never takes less time, and no way takes negative time. *)
Theorem travelTimeMinutes_monotone (shorter longer : R) :
  0 <= shorter <= longer ->
  (0 <= travelTimeMinutes_of shorter <= travelTimeMinutes_of longer)%Z.
Proof.
  intros [H0 Hle]. unfold travelTimeMinutes_of, JS.Math_round. split.
  - apply Zfloor_lub. simpl. lra.
  - apply Zfloor_le. lra.
Qed.

Lemma travelTimeMinutes_monotone_witness :
  (0 <= travelTimeMinutes_of 5 <= travelTimeMinutes_of 100)%Z.
Proof.
  apply (travelTimeMinutes_monotone 5 100). lra.
Defined.

End SuggestionsMore.

(** ** The service kept in [server/services/google-places.ts] *)

Section DemoMore.

Import PlaceClassifier.
Local Open Scope R_scope.

Variable number_toString : R -> string.

Lemma Math_round_div60 (m : Z) :
  JS.Math_round (IZR m / 60) = ((m + 30) / 60)%Z.
Proof.
  unfold JS.Math_round. apply Zfloor_eq.
  pose proof (Z.div_mod (m + 30) 60 ltac:(lia)) as Hdm.
  pose proof (Z.mod_pos_bound (m + 30) 60 ltac:(lia)) as Hb.
  assert (Hm : IZR m + 30 = 60 * IZR ((m + 30) / 60) + IZR ((m + 30) mod 60)).
  { rewrite <- mult_IZR, <- !plus_IZR. now f_equal. }
  assert (H0 : 0 <= IZR ((m + 30) mod 60)) by (apply IZR_le; lia).
  assert (H1 : IZR ((m + 30) mod 60) < 60) by (apply IZR_lt; lia).
  lra.
Qed.

(** From one hour on, this form rounds the hours instead of cutting them:
    with 30 minutes or more left over it shows one hour too many, so 100
    minutes read "2h 40min". *)
Theorem demo_travelTimeStr_rounds_hours (travelTimeMinutes : Z) :
  (60 <= travelTimeMinutes)%Z ->
  GooglePlacesDemo.travelTimeStr travelTimeMinutes
  = JS.Number_toString ((travelTimeMinutes + 30) / 60) +:+ "h "
    +:+ JS.Number_toString (travelTimeMinutes mod 60) +:+ "min"
  /\ ((travelTimeMinutes + 30) / 60
      = travelTimeMinutes / 60
        + (if 30 <=? travelTimeMinutes mod 60 then 1 else 0))%Z.
Proof.
  intros Hm. split.
  - unfold GooglePlacesDemo.travelTimeStr.
    destruct (travelTimeMinutes <? 60)%Z eqn:Hlt; [apply Z.ltb_lt in Hlt; lia|].
    rewrite Math_round_div60, Z.rem_mod_nonneg by lia. reflexivity.
  - pose proof (Z.div_mod travelTimeMinutes 60 ltac:(lia)) as Hdm.
    pose proof (Z.mod_pos_bound travelTimeMinutes 60 ltac:(lia)) as Hb.
    destruct (30 <=? travelTimeMinutes mod 60)%Z eqn:H30.
    + apply Z.leb_le in H30. symmetry.
      apply (Z.div_unique _ _ _ (travelTimeMinutes mod 60 - 30)); lia.
    + apply Z.leb_gt in H30. symmetry.
      apply (Z.div_unique _ _ _ (travelTimeMinutes mod 60 + 30)); lia.
Qed.

Lemma demo_travelTimeStr_rounds_hours_witness :
  GooglePlacesDemo.travelTimeStr 100 = "2h 40min".
Proof.
  apply (demo_travelTimeStr_rounds_hours 100). lia.
Defined.

Lemma demo_mapPlaceToSuggestion_world (place : GooglePlace.t) (w : World) :
  snd (GooglePlacesDemo.mapPlaceToSuggestion number_toString place w)
  = {| random_draws := random_draws w;
       random_next := S (random_next w);
       env_GOOGLE_MAPS_API := env_GOOGLE_MAPS_API w |}.
Proof. reflexivity. Qed.

Lemma demo_map_in_world_world (places : list GooglePlace.t) (w : World) :
  snd (GooglePlacesDemo.map_in_world
         (GooglePlacesDemo.mapPlaceToSuggestion number_toString) places w)
  = {| random_draws := random_draws w;
       random_next := (length places + random_next w)%nat;
       env_GOOGLE_MAPS_API := env_GOOGLE_MAPS_API w |}.
Proof.
  revert w. induction places as [|place rest IH]; intros w.
  - destruct w. reflexivity.
  - cbn [GooglePlacesDemo.map_in_world].
    pose proof (demo_mapPlaceToSuggestion_world place w) as Hw.
    destruct (GooglePlacesDemo.mapPlaceToSuggestion number_toString place w)
      as [y w1].
    cbn [snd] in Hw. specialize (IH w1).
    destruct (GooglePlacesDemo.map_in_world
                (GooglePlacesDemo.mapPlaceToSuggestion number_toString) rest w1)
      as [ys w2].
    cbn [snd] in *. rewrite IH, Hw.
    cbn [random_draws random_next env_GOOGLE_MAPS_API length].
    f_equal. lia.
Qed.

(** A conversion takes one draw from [Math.random] for each suggestion it
    returns, at most eight, and changes nothing else of the world. *)
Theorem demo_convertToTravelSuggestions_draws
    (places : list GooglePlace.t) (w : World) :
  let '(suggestions, after) :=
    GooglePlacesDemo.convertToTravelSuggestions number_toString places w in
  random_next after = (length suggestions + random_next w)%nat
  /\ (length suggestions <= 8)%nat
  /\ random_draws after = random_draws w
  /\ env_GOOGLE_MAPS_API after = env_GOOGLE_MAPS_API w.
Proof.
  pose proof (demo_map_in_world_world
                (JS.slice0 8 (List.filter isValidTravelDestination places)) w) as Hw.
  pose proof (map_in_world_length
                (GooglePlacesDemo.mapPlaceToSuggestion number_toString)
                (JS.slice0 8 (List.filter isValidTravelDestination places)) w) as Hlen.
  unfold GooglePlacesDemo.convertToTravelSuggestions.
  destruct (GooglePlacesDemo.map_in_world _ _ w) as [suggestions after].
  cbn [fst snd] in *. subst after. cbn. rewrite Hlen.
  unfold JS.slice0. rewrite length_firstn. repeat split. lia.
Qed.

End DemoMore.

Section DemoDistances.

Import PlaceClassifier.
Local Open Scope R_scope.

Variable number_toString : R -> string.



End DemoDistances.


(** ** The place search *)

Section SearchMore.

Local Open Scope R_scope.

(** The search returns places only when a credential is set, the endpoint
    answers with a status in 2xx and a JSON body, and the provider status is
    OK; it then returns the results, or no place when the body has none. *)
Theorem searchNearbyPlaces_returns_iff (API_KEY : option string) (lat lng : R)
    (radius : option Z) (fetched : PlaceSearch.FetchResult)
    (places : list GooglePlace.t) :
  PlaceSearch.searchNearbyPlaces API_KEY lat lng radius fetched = Return places
  <->
  (exists key : string, API_KEY = Some key /\ key <> "")
  /\ exists http_status statusText data,
       fetched = PlaceSearch.FetchResponse true http_status statusText (Return data)
       /\ PlaceSearch.status data = "OK"
       /\ places = default [] (PlaceSearch.results data).
Proof.
  unfold PlaceSearch.searchNearbyPlaces. split.
  - destruct API_KEY as [[|c key]|]; cbn [default from_option Datatypes.id
                                           JS.truthy_string negb];
      try discriminate.
    destruct fetched as [e|[|] http_status statusText [data|e]]; try discriminate.
    destruct (String.eqb_spec (PlaceSearch.status data) "OK") as [Hok|Hno];
      [|discriminate].
    intros [= <-]. split.
    + exists (String c key). split; [reflexivity|discriminate].
    + now exists http_status, statusText, data.
  - intros [(key & -> & Hkey) (http_status & statusText & data & -> & Hok & ->)].
    destruct key as [|c key]; [contradiction|].
    cbn [default from_option Datatypes.id JS.truthy_string negb].
    rewrite Hok. reflexivity.
Qed.

End SearchMore.

(** ** The suggestions route, once more *)

Section SuggestionsRouteMore.

Import PlaceClassifier.
Local Open Scope R_scope.

Variable parseFloat : string -> option R.
Variable parseInt : string -> option Z.


(** The route answers 400 exactly when a coordinate is missing, empty or not
    a number; what the places endpoint would answer plays no part then. *)
Theorem locationSuggestions_bad_request_iff
    (service : Routes.PlacesService) (query : Routes.SuggestionsQuery)
    (fetched : PlaceSearch.FetchResult) (w : World) :
  Routes.statusCode
    (fst (Routes.locationSuggestions parseFloat parseInt service query fetched w))
  = 400%Z
  <->
  (JS.truthy_string (default "" (Routes.lat query)) = false
   \/ JS.truthy_string (default "" (Routes.lng query)) = false
   \/ parseFloat (default "" (Routes.lat query)) = None
   \/ parseFloat (default "" (Routes.lng query)) = None).
Proof.
  unfold Routes.locationSuggestions.
  destruct (JS.truthy_string (default "" (Routes.lat query))); cbn [negb orb];
    [|split; [now left|reflexivity]].
  destruct (JS.truthy_string (default "" (Routes.lng query))); cbn [negb orb];
    [|split; [right; now left|reflexivity]].
  destruct (parseFloat (default "" (Routes.lat query))) as [latitude|];
    [|split; [right; right; now left|reflexivity]].
  destruct (parseFloat (default "" (Routes.lng query))) as [longitude|];
    [|split; [right; right; now right|reflexivity]].
  destruct (PlaceSearch.searchNearbyPlaces _ _ _ _ _) as [places|e].
  - destruct (Routes.service_convert service places w) as [suggestions after].
    cbn. split; [discriminate|intros [H|[H|[H|H]]]; discriminate].
  - cbn. split; [discriminate|intros [H|[H|[H|H]]]; discriminate].
Qed.

End SuggestionsRouteMore.

(** ** The chat completion, once more *)

Section OpenAIMore.

Variable JSON_parse : string -> option Json.

(** The text that is parsed: the content of the first choice, or "{}" in
    place of a content that is null or empty. *)
Lemma or_string_cases (content : option string) :
  JS.or_string content "{}"
  = match content with
    | Some text => if String.eqb text "" then "{}" else text
    | None => "{}"
    end.
Proof. destruct content as [[|c text]|]; reflexivity. Qed.

(** [generateItinerary] returns a payload exactly when the answer has a
    first choice whose content, with "{}" in place of a null or empty one,
    parses, and the payload is what it parses to; in every other case, and
    in no other, it throws, and what it throws is the one fixed message.
    Later choices are never read. *)
Theorem generateItinerary_outcomes (request : OpenAI.ItineraryRequest)
    (chat : OpenAI.ChatResult) :
  (forall payload : Json,
     OpenAI.generateItinerary JSON_parse request chat = Return payload
     <->
     exists content rest,
       chat = OpenAI.ChatCompletion (content :: rest)
       /\ JSON_parse
            match content with
            | Some text => if String.eqb text "" then "{}" else text
            | None => "{}"
            end = Some payload)
  /\ (forall e : Error,
        OpenAI.generateItinerary JSON_parse request chat = Throw e
        <->
        e = mkError "Failed to generate itinerary. Please try again."
        /\ match chat with
           | OpenAI.ChatRejected _ => True
           | OpenAI.ChatCompletion [] => True
           | OpenAI.ChatCompletion (content :: _) =>
               JSON_parse
                 match content with
                 | Some text => if String.eqb text "" then "{}" else text
                 | None => "{}"
                 end = None
           end)
  /\ (forall (content : option string) (rest : list (option string)),
        OpenAI.generateItinerary JSON_parse request
          (OpenAI.ChatCompletion (content :: rest))
        = OpenAI.generateItinerary JSON_parse request
            (OpenAI.ChatCompletion [content])).
Proof.
  split; [|split].
  - intros payload. rewrite generateItinerary_returns.
    split; intros (content & rest & Hchat & Hparse); exists content, rest;
      (split; [assumption|]).
    + now rewrite <- or_string_cases.
    + now rewrite or_string_cases.
  - intros e. unfold OpenAI.generateItinerary, OpenAI.failure.
    destruct chat as [rejected|[|content rest]].
    + split; [intros [= <-]; now split|intros [-> _]; reflexivity].
    + split; [intros [= <-]; now split|intros [-> _]; reflexivity].
    + rewrite <- or_string_cases.
      destruct (JSON_parse (JS.or_string content "{}")) as [payload|].
      * split; [discriminate|intros [_ [=]]].
      * split; [intros [= <-]; now split|intros [-> _]; reflexivity].
  - reflexivity.
Qed.

End OpenAIMore.

(** ** The store, once more *)

Section StoreMore.

Lemma MemStorage_empty_consistent : MemStorage_consistent MemStorage.empty.
Proof. intros key itinerary H. cbn in H. now rewrite lookup_empty in H. Qed.

(** What [createItinerary] and [updateItinerary] build stays consistent:
    every itinerary under its own [id], every [id] below the counter. *)
Theorem MemStorage_consistent_kept (this : MemStorage.t) (now : Date)
    (itinerary : InsertItinerary.t) (id : Z) (updates : UpdateItinerary.t) :
  MemStorage_consistent this ->
  MemStorage_consistent (snd (MemStorage.createItinerary this now itinerary))
  /\ MemStorage_consistent (snd (MemStorage.updateItinerary this now id updates)).
Proof.
  intros Hthis. split.
  - intros key stored. cbn.
    destruct (decide (MemStorage.currentItineraryId this = key)) as [<-|Hne].
    + rewrite lookup_insert_eq. intros [= <-]. cbn. lia.
    + rewrite lookup_insert_ne by assumption. intros Hstored.
      destruct (Hthis key stored Hstored). lia.
  - unfold MemStorage.updateItinerary.
    destruct (MemStorage.itineraries this !! id) as [old|] eqn:Hold;
      [|exact Hthis].
    intros key stored. cbn.
    destruct (decide (id = key)) as [<-|Hne].
    + rewrite lookup_insert_eq. intros [= <-]. cbn. exact (Hthis id old Hold).
    + rewrite lookup_insert_ne by assumption. apply Hthis.
Qed.

Lemma EdgeSamples_store_consistent : MemStorage_consistent EdgeSamples.store.
Proof.
  intros key itinerary Hstored. cbn in Hstored. unfold Samples.table in Hstored.
  apply lookup_singleton_Some in Hstored as [<- <-]. split; [reflexivity|cbn; lia].
Qed.

(** A store that holds the sample draft under 1: after a creation, and after
    an update of the draft, it is consistent still. *)
Lemma MemStorage_consistent_kept_witness :
  MemStorage_consistent
    (snd (MemStorage.createItinerary EdgeSamples.store 3000%Z MoreSamples.insert))
  /\ MemStorage_consistent
       (snd (MemStorage.updateItinerary EdgeSamples.store 3000%Z 1%Z
               (UpdateItinerary.mk None None None (Some "saved"))))
  /\ MemStorage.getItinerary
       (snd (MemStorage.updateItinerary EdgeSamples.store 3000%Z 1%Z
               (UpdateItinerary.mk None None None (Some "saved")))) 1%Z
     = Some (spread_updates Samples.draft
               (UpdateItinerary.mk None None None (Some "saved")) 3000%Z).
Proof.
  destruct (MemStorage_consistent_kept EdgeSamples.store 3000%Z MoreSamples.insert
              1%Z (UpdateItinerary.mk None None None (Some "saved"))
              EdgeSamples_store_consistent) as [Hcreate Hupdate].
  split; [exact Hcreate|]. split; [exact Hupdate|]. reflexivity.
Defined.

(** In a consistent store a new itinerary gets an [id] that was free, can be
    read back under it, overwrites nothing, belongs to the given user and is
    a draft without generated content. *)
Theorem createItinerary_fresh (this : MemStorage.t) (now : Date)
    (itinerary : InsertItinerary.t) :
  MemStorage_consistent this ->
  let '(created, after) := MemStorage.createItinerary this now itinerary in
  MemStorage.getItinerary this (Itinerary.id created) = None
  /\ MemStorage.getItinerary after (Itinerary.id created) = Some created
  /\ (forall other : Z, other <> Itinerary.id created ->
        MemStorage.getItinerary after other = MemStorage.getItinerary this other)
  /\ Itinerary.userId created = InsertItinerary.userId itinerary
  /\ Itinerary.status created = "draft"
  /\ Itinerary.generatedContent created = JNull
  /\ Itinerary.createdAt created = now
  /\ Itinerary.updatedAt created = now.
Proof.
  intros Hthis. cbn. unfold MemStorage.getItinerary. cbn. repeat split.
  - destruct (MemStorage.itineraries this !! MemStorage.currentItineraryId this)
      as [stored|] eqn:Hstored; [|reflexivity].
    destruct (Hthis _ stored Hstored). lia.
  - apply lookup_insert_eq.
  - intros other Hother. now apply lookup_insert_ne.
Qed.

(** In the store that holds the sample draft under 1, the new itinerary
    gets the id 2 and the draft stays where it was. *)
Lemma createItinerary_fresh_witness :
  let '(created, after) :=
    MemStorage.createItinerary EdgeSamples.store 3000%Z MoreSamples.insert in
  Itinerary.id created = 2%Z
  /\ MemStorage.getItinerary EdgeSamples.store (Itinerary.id created) = None
  /\ MemStorage.getItinerary after (Itinerary.id created) = Some created
  /\ MemStorage.getItinerary after 1%Z = Some Samples.draft
  /\ Itinerary.userId created = 7%Z
  /\ Itinerary.status created = "draft"
  /\ Itinerary.generatedContent created = JNull
  /\ Itinerary.createdAt created = 3000%Z
  /\ Itinerary.updatedAt created = 3000%Z.
Proof.
  pose proof (createItinerary_fresh EdgeSamples.store 3000%Z MoreSamples.insert
                EdgeSamples_store_consistent) as H.
  destruct (MemStorage.createItinerary EdgeSamples.store 3000%Z MoreSamples.insert)
    as [created after] eqn:Hcreate.
  destruct H as (Hfree & Hstored & Hothers & Huser & Hstatus & Hcontent & Hc & Hu).
  assert (Hid : Itinerary.id created = 2%Z) by (injection Hcreate as <- _; reflexivity).
  split; [exact Hid|]. split; [exact Hfree|]. split; [exact Hstored|].
  split.
  { rewrite (Hothers 1%Z) by (rewrite Hid; discriminate). reflexivity. }
  repeat split; assumption.
Defined.

(** An update never adds or removes a record: the keys in use are the same
    before and after, in both stores. *)
Theorem updateItinerary_same_keys (table : gmap Z Itinerary.t) (next : Z)
    (now : Date) (id : Z) (updates : UpdateItinerary.t) :
  dom (snd (PgStorage.updateItinerary table now id updates)) = dom table
  /\ dom (MemStorage.itineraries
            (snd (MemStorage.updateItinerary (MemStorage.mk table next) now id
                    updates))) = dom table
  /\ MemStorage.currentItineraryId
       (snd (MemStorage.updateItinerary (MemStorage.mk table next) now id updates))
     = next.
Proof.
  unfold PgStorage.updateItinerary, MemStorage.updateItinerary.
  cbn [MemStorage.itineraries MemStorage.currentItineraryId].
  destruct (table !! id) as [old|] eqn:Hold; cbn; [|repeat split].
  repeat split; apply dom_insert_lookup_L; now rewrite Hold.
Qed.

Lemma spread_updates_twice (itinerary : Itinerary.t)
    (first second : UpdateItinerary.t) (now1 now2 : Date) :
  spread_updates (spread_updates itinerary first now1) second now2
  = spread_updates itinerary (merge_updates first second) now2.
Proof.
  unfold spread_updates, merge_updates. cbn.
  destruct (UpdateItinerary.title second), (UpdateItinerary.description second),
    (UpdateItinerary.generatedContent second), (UpdateItinerary.status second);
    reflexivity.
Qed.

(** Two updates of a record, one after the other, are one update with the
    keys of both, the second winning where both set a key; the time of the
    first is forgotten. *)
Theorem updateItinerary_twice (table : gmap Z Itinerary.t) (now1 now2 : Date)
    (id : Z) (first second : UpdateItinerary.t) :
  PgStorage.updateItinerary
    (snd (PgStorage.updateItinerary table now1 id first)) now2 id second
  = PgStorage.updateItinerary table now2 id (merge_updates first second).
Proof.
  unfold PgStorage.updateItinerary.
  destruct (table !! id) as [old|] eqn:Hold; cbn [snd].
  - rewrite lookup_insert_eq, insert_insert_eq. now rewrite spread_updates_twice.
  - now rewrite Hold.
Qed.

(** [PgStorage.deleteItinerary] tells whether there was a row, removes it and
    nothing else; a second deletion finds nothing. *)
Theorem deleteItinerary_removes (table : gmap Z Itinerary.t) (id : Z) :
  let '(found, after) := PgRows.deleteItinerary table id in
  (found = true <-> is_Some (table !! id))
  /\ PgStorage.getItinerary after id = None
  /\ (forall other : Z, other <> id ->
        PgStorage.getItinerary after other = PgStorage.getItinerary table other)
  /\ PgRows.deleteItinerary after id = (false, after).
Proof.
  unfold PgRows.deleteItinerary, PgStorage.getItinerary. repeat split.
  - apply bool_decide_eq_true_1.
  - apply bool_decide_eq_true_2.
  - apply lookup_delete_eq.
  - intros other Hother. now apply lookup_delete_ne.
  - f_equal.
    + apply bool_decide_eq_false_2. rewrite lookup_delete_eq. now intros [x Hx].
    + apply delete_id. apply lookup_delete_eq.
Qed.

(** [getItinerariesByUserId] returns the stored itineraries of the user, all
    of them and no other. *)
Theorem getItinerariesByUserId_exact (table : gmap Z Itinerary.t) (userId : Z)
    (itinerary : Itinerary.t) :
  In itinerary (PgRows.getItinerariesByUserId table userId)
  <->
  (exists key : Z, table !! key = Some itinerary)
  /\ Itinerary.userId itinerary = userId.
Proof.
  unfold PgRows.getItinerariesByUserId.
  rewrite List.filter_In, Z.eqb_eq, List.in_map_iff. split.
  - intros [([key stored] & Hsnd & Hin) Huser]. cbn in Hsnd. subst stored.
    split; [|assumption]. exists key.
    apply list_elem_of_In in Hin. now apply elem_of_map_to_list in Hin.
  - intros [[key Hkey] Huser]. split; [|assumption].
    exists (key, itinerary). split; [reflexivity|].
    apply list_elem_of_In. now apply elem_of_map_to_list.
Qed.

(** [MemStorage.deleteItinerary] deletes from the database table and not
    from the [MemStorage]: the itinerary can still be read from it. *)
Theorem MemStorage_deleteItinerary_keeps (this : MemStorage.t)
    (db : gmap Z Itinerary.t) (id : Z) :
  let '(found, after, db_after) := MemStorageRows.deleteItinerary this db id in
  MemStorage.getItinerary after id = MemStorage.getItinerary this id
  /\ db_after !! id = None
  /\ (found = true <-> is_Some (db !! id)).
Proof.
  unfold MemStorageRows.deleteItinerary. repeat split.
  - apply lookup_delete_eq.
  - apply bool_decide_eq_true_1.
  - apply bool_decide_eq_true_2.
Qed.

End StoreMore.

(** ** The itinerary routes *)

Section RoutesMore.

Import ItineraryRoutes.

Variable JSON_parse : string -> option Json.

Lemma keyed_insert (storage : gmap Z Itinerary.t) (key : Z) (itinerary : Itinerary.t) :
  keyed storage -> Itinerary.id itinerary = key ->
  keyed (<[key := itinerary]> storage).
Proof.
  intros Hkeyed Hid other stored.
  destruct (decide (key = other)) as [<-|Hne].
  - rewrite lookup_insert_eq. now intros [= <-].
  - rewrite lookup_insert_ne by assumption. apply Hkeyed.
Qed.

Lemma keyed_delete (storage : gmap Z Itinerary.t) (key : Z) :
  keyed storage -> keyed (delete key storage).
Proof.
  intros Hkeyed other stored Hstored.
  apply lookup_delete_Some in Hstored as [_ Hstored]. now apply Hkeyed.
Qed.

Lemma kept_by_refl (user : option Z) (storage : gmap Z Itinerary.t) :
  keyed storage -> kept_by user storage storage.
Proof. intros H. repeat split; [assumption|set_solver|auto]. Qed.

Lemma kept_by_update (userId : Z) (storage : gmap Z Itinerary.t) (now : Date)
    (id : Z) (old : Itinerary.t) (updates : UpdateItinerary.t) :
  keyed storage -> storage !! id = Some old -> Itinerary.userId old = userId ->
  kept_by (Some userId) storage
    (snd (PgStorage.updateItinerary storage now (Itinerary.id old) updates))
  /\ fst (PgStorage.updateItinerary storage now (Itinerary.id old) updates)
     = Some (spread_updates old updates now).
Proof.
  intros Hkeyed Hold Huser. rewrite (Hkeyed id old Hold).
  unfold PgStorage.updateItinerary. rewrite Hold. cbn [fst snd].
  split; [|reflexivity]. repeat split.
  - apply keyed_insert; [assumption|]. cbn. now apply Hkeyed.
  - rewrite dom_insert_lookup_L by (now rewrite Hold). set_solver.
  - intros key stored Hstored Hother.
    destruct (decide (id = key)) as [<-|Hne].
    + rewrite Hold in Hstored. injection Hstored as <-. congruence.
    + now rewrite lookup_insert_ne.
Qed.

Lemma handle_kept (storage : gmap Z Itinerary.t) (now : Date) (user : option Z)
    (call : Call) :
  keyed storage ->
  kept_by user storage (snd (handle JSON_parse storage now user call))
  /\ List.Forall (fun itinerary => user = Some (Itinerary.userId itinerary))
       (shown (fst (handle JSON_parse storage now user call))).
Proof.
  intros Hkeyed. pose proof (kept_by_refl user storage Hkeyed) as Hrefl.
  destruct call as [|id|id chat|id validated|id]; cbn [handle].
  - cbn [fst snd]. split; [assumption|].
    unfold listItineraries. destruct user as [userId|]; [|constructor].
    cbn [shown body]. unfold PgRows.getItinerariesByUserId.
    apply List.Forall_forall. intros itinerary Hin.
    apply List.filter_In in Hin as [_ Huser]. apply Z.eqb_eq in Huser.
    now subst userId.
  - cbn [fst snd]. split; [assumption|].
    unfold getItinerary. destruct user as [userId|]; [|constructor].
    destruct (PgStorage.getItinerary storage id) as [itinerary|]; [|constructor].
    destruct (Z.eqb_spec (Itinerary.userId itinerary) userId) as [<-|Hne];
      cbn [negb shown body]; repeat constructor.
  - unfold Routes.generate. cbn [Routes.user Routes.params_id].
    destruct user as [userId|]; [|split; [assumption|constructor]].
    destruct (PgStorage.getItinerary storage id) as [itinerary|] eqn:Hold;
      [|split; [assumption|constructor]].
    destruct (Z.eqb_spec (Itinerary.userId itinerary) userId) as [Huser|Hne];
      cbn [negb]; [|split; [assumption|constructor]].
    destruct (OpenAI.generateItinerary _ _ _) as [generatedContent|e];
      [|split; [assumption|constructor]].
    destruct (kept_by_update userId storage now id itinerary
                (UpdateItinerary.mk None None (Some generatedContent)
                   (Some "generated")) Hkeyed Hold Huser) as [Hkept Hfst].
    destruct (PgStorage.updateItinerary storage now (Itinerary.id itinerary) _)
      as [updated after].
    cbn [fst snd] in *. subst updated. split; [assumption|].
    cbn. constructor; [cbn; congruence|constructor].
  - unfold updateItinerary.
    destruct user as [userId|]; [|split; [assumption|constructor]].
    destruct (PgStorage.getItinerary storage id) as [itinerary|] eqn:Hold;
      [|split; [assumption|constructor]].
    destruct (Z.eqb_spec (Itinerary.userId itinerary) userId) as [Huser|Hne];
      cbn [negb]; [|split; [assumption|constructor]].
    destruct validated as [validatedData|errors];
      [|split; [assumption|constructor]].
    destruct (kept_by_update userId storage now id itinerary validatedData
                Hkeyed Hold Huser) as [Hkept Hfst].
    destruct (PgStorage.updateItinerary storage now (Itinerary.id itinerary) _)
      as [updated after].
    cbn [fst snd] in *. subst updated. split; [assumption|].
    cbn. constructor; [cbn; congruence|constructor].
  - unfold deleteItinerary.
    destruct user as [userId|]; [|split; [assumption|constructor]].
    destruct (PgStorage.getItinerary storage id) as [itinerary|] eqn:Hold;
      [|split; [assumption|constructor]].
    destruct (Z.eqb_spec (Itinerary.userId itinerary) userId) as [Huser|Hne];
      cbn [negb]; [|split; [assumption|constructor]].
    cbn [PgRows.deleteItinerary fst snd]. split; [|constructor].
    rewrite (Hkeyed id itinerary Hold). repeat split.
    + now apply keyed_delete.
    + rewrite dom_delete_L. now apply subseteq_difference_l.
    + intros key stored Hstored Hother.
      destruct (decide (id = key)) as [<-|Hne].
      * unfold PgStorage.getItinerary in Hold. rewrite Hold in Hstored.
        injection Hstored as <-. congruence.
      * now rewrite lookup_delete_ne.
Qed.

Lemma kept_by_trans (user : option Z) (s1 s2 s3 : gmap Z Itinerary.t) :
  kept_by user s1 s2 -> kept_by user s2 s3 -> kept_by user s1 s3.
Proof.
  intros (_ & Hdom12 & Hsame12) (Hkeyed & Hdom23 & Hsame23).
  repeat split; [assumption|set_solver|].
  intros key itinerary Hstored Hother.
  apply Hsame23; [|assumption]. now apply Hsame12.
Qed.

Lemma session_kept (storage : gmap Z Itinerary.t) (user : option Z)
    (calls : list (Date * Call)) :
  keyed storage ->
  kept_by user storage (snd (session JSON_parse storage user calls))
  /\ List.Forall
       (fun response =>
          List.Forall (fun itinerary => user = Some (Itinerary.userId itinerary))
            (shown response))
       (fst (session JSON_parse storage user calls)).
Proof.
  revert storage. induction calls as [|[now call] rest IH]; intros storage Hkeyed.
  - cbn. split; [now apply kept_by_refl|constructor].
  - cbn [session].
    destruct (handle_kept storage now user call Hkeyed) as [Hstep Hshown].
    destruct (handle JSON_parse storage now user call) as [response s1].
    cbn [fst snd] in *.
    destruct (IH s1 (proj1 Hstep)) as [Hrest Hshown_rest].
    destruct (session JSON_parse s1 user rest) as [responses s2].
    cbn [fst snd] in *. split.
    + now apply (kept_by_trans user storage s1 s2).
    + now constructor.
Qed.

(** Integrity: whatever a user asks of these five routes, in whatever
    order, the itineraries of other users stay as they are, no record
    appears, and every row stays under its own key. *)
Theorem session_leaves_others_alone (storage : gmap Z Itinerary.t)
    (user : option Z) (calls : list (Date * Call)) :
  keyed storage ->
  let after := snd (session JSON_parse storage user calls) in
  keyed after
  /\ dom after ⊆ dom storage
  /\ forall (key : Z) (itinerary : Itinerary.t),
       storage !! key = Some itinerary ->
       user <> Some (Itinerary.userId itinerary) ->
       after !! key = Some itinerary.
Proof.
  intros Hkeyed. exact (proj1 (session_kept storage user calls Hkeyed)).
Qed.

(** Confidentiality: every itinerary that a response shows belongs to the
    user who asked; without authentication none is shown. *)
Theorem session_shows_own_only (storage : gmap Z Itinerary.t)
    (user : option Z) (calls : list (Date * Call)) :
  keyed storage ->
  List.Forall
    (fun response =>
       List.Forall (fun itinerary => user = Some (Itinerary.userId itinerary))
         (shown response))
    (fst (session JSON_parse storage user calls)).
Proof.
  intros Hkeyed. exact (proj2 (session_kept storage user calls Hkeyed)).
Qed.

End RoutesMore.

Lemma MoreSamples_table_keyed : ItineraryRoutes.keyed MoreSamples.table.
Proof.
  intros key itinerary. unfold MoreSamples.table, Samples.table.
  destruct (decide (2%Z = key)) as [<-|Hne2].
  - rewrite lookup_insert_eq. now intros [= <-].
  - rewrite lookup_insert_ne by assumption.
    destruct (decide (1%Z = key)) as [<-|Hne1].
    + rewrite lookup_singleton_eq. now intros [= <-].
    + rewrite lookup_singleton_ne by assumption. discriminate.
Qed.

(** After the sample session of user 7 the itinerary of user 8 is as it
    was. *)
Lemma session_leaves_others_alone_witness :
  snd (ItineraryRoutes.session Samples.JSON_parse MoreSamples.table (Some 7%Z)
         MoreSamples.calls) !! 2%Z
  = Some MoreSamples.other.
Proof.
  destruct (session_leaves_others_alone Samples.JSON_parse MoreSamples.table
              (Some 7%Z) MoreSamples.calls MoreSamples_table_keyed)
    as (_ & _ & Hsame).
  apply Hsame.
  - reflexivity.
  - discriminate.
Defined.

Lemma session_shows_own_only_witness :
  List.Forall
    (fun response =>
       List.Forall
         (fun itinerary => Some 7%Z = Some (Itinerary.userId itinerary))
         (ItineraryRoutes.shown response))
    (fst (ItineraryRoutes.session Samples.JSON_parse MoreSamples.table (Some 7%Z)
            MoreSamples.calls)).
Proof.
  apply (session_shows_own_only Samples.JSON_parse MoreSamples.table
           (Some 7%Z) MoreSamples.calls).
  exact MoreSamples_table_keyed.
Defined.

Section RouteByRoute.

Import ItineraryRoutes.

Variable JSON_parse : string -> option Json.

(** An update by the owner with valid data answers 200 with the record as
    [updateItinerary] leaves it, and a later read by the owner shows that
    record. *)
Theorem updateItinerary_route_by_owner (storage : gmap Z Itinerary.t)
    (now : Date) (userId id : Z) (old : Itinerary.t) (updates : UpdateItinerary.t) :
  keyed storage -> storage !! id = Some old -> Itinerary.userId old = userId ->
  let updated := spread_updates old updates now in
  let '(response, after) :=
    updateItinerary storage now (Some userId) id (ZodValid updates) in
  response = mkResponse 200 (JsonItinerary (Some updated))
  /\ after = <[id := updated]> storage
  /\ getItinerary after (Some userId) id
     = mkResponse 200 (JsonItinerary (Some updated)).
Proof.
  intros Hkeyed Hold Huser. cbv zeta. unfold updateItinerary, getItinerary.
  unfold PgStorage.getItinerary, PgStorage.updateItinerary.
  rewrite Hold, Huser, Z.eqb_refl. cbn [negb].
  rewrite (Hkeyed id old Hold), Hold.
  repeat split. rewrite lookup_insert_eq. cbn. now rewrite Huser, Z.eqb_refl.
Qed.

(** A body that does not validate changes nothing, and only the owner of
    an existing itinerary learns of it: the answer is 400 exactly for the
    owner, since the checks for 401, 404 and 403 come first. *)
Theorem updateItinerary_route_invalid (storage : gmap Z Itinerary.t)
    (now : Date) (user : option Z) (id : Z) (errors : Json) :
  snd (updateItinerary storage now user id (ZodError errors)) = storage
  /\ (statusCode (fst (updateItinerary storage now user id (ZodError errors)))
      = 400%Z
      <-> exists old : Itinerary.t,
            storage !! id = Some old /\ user = Some (Itinerary.userId old)).
Proof.
  unfold updateItinerary, PgStorage.getItinerary.
  destruct user as [userId|].
  - destruct (storage !! id) as [old|].
    + destruct (Z.eqb_spec (Itinerary.userId old) userId) as [Huser|Hne];
        cbn [negb fst snd statusCode].
      * split; [reflexivity|]. split; [|reflexivity].
        intros _. exists old. split; [reflexivity|congruence].
      * split; [reflexivity|]. split; [discriminate|].
        intros (old' & [= <-] & [= Heq]). congruence.
    + cbn. split; [reflexivity|]. split; [discriminate|].
      intros (old & Hold & _). discriminate.
  - cbn. split; [reflexivity|]. split; [discriminate|].
    intros (old & _ & Huser). discriminate.
Qed.

(** After the owner deletes an itinerary the answer is 204 without a body,
    the record is gone, and reading, generating or deleting it again
    answers 404. *)
Theorem deleteItinerary_route_by_owner (storage : gmap Z Itinerary.t)
    (now : Date) (userId id : Z) (old : Itinerary.t) (chat : OpenAI.ChatResult) :
  keyed storage -> storage !! id = Some old -> Itinerary.userId old = userId ->
  let '(response, after) := deleteItinerary storage (Some userId) id in
  response = mkResponse 204 NoBody
  /\ after = delete id storage
  /\ statusCode (getItinerary after (Some userId) id) = 404%Z
  /\ statusCode (fst (deleteItinerary after (Some userId) id)) = 404%Z
  /\ Routes.generate JSON_parse after now (Routes.mkGenerateRequest (Some userId) id)
       chat
     = (Routes.mkResponse 404 (Routes.JsonMessage "Itinerary not found"), after).
Proof.
  intros Hkeyed Hold Huser. unfold deleteItinerary, getItinerary, Routes.generate.
  unfold PgStorage.getItinerary, PgRows.deleteItinerary.
  cbn [Routes.user Routes.params_id].
  rewrite Hold, Huser, Z.eqb_refl. cbn [negb].
  rewrite (Hkeyed id old Hold), !lookup_delete_eq. repeat split.
Qed.

Lemma generate_storage_cases (storage : gmap Z Itinerary.t) (now : Date)
    (req : Routes.GenerateRequest) (chat : OpenAI.ChatResult) :
  snd (Routes.generate JSON_parse storage now req chat) = storage
  \/ exists (old : Itinerary.t) (generatedContent : Json),
       storage !! Routes.params_id req = Some old
       /\ snd (Routes.generate JSON_parse storage now req chat)
          = snd (PgStorage.updateItinerary storage now (Itinerary.id old)
                   (UpdateItinerary.mk None None (Some generatedContent)
                      (Some "generated"))).
Proof.
  unfold Routes.generate, PgStorage.getItinerary.
  destruct (Routes.user req) as [userId|]; [|now left].
  destruct (storage !! Routes.params_id req) as [old|]; [|now left].
  destruct (negb _); [now left|].
  destruct (OpenAI.generateItinerary _ _ _) as [generatedContent|e]; [|now left].
  right. exists old, generatedContent. split; [reflexivity|].
  now destruct (PgStorage.updateItinerary storage now (Itinerary.id old) _).
Qed.

(** A generation request, whatever comes of it, adds and removes no record,
    changes no record but the one it names, and of that one neither the
    owner, the title, the description, the preferences nor the creation
    time. *)
Theorem generate_touches_only_target (storage : gmap Z Itinerary.t) (now : Date)
    (req : Routes.GenerateRequest) (chat : OpenAI.ChatResult) :
  keyed storage ->
  let after := snd (Routes.generate JSON_parse storage now req chat) in
  dom after = dom storage
  /\ (forall other : Z, other <> Routes.params_id req ->
        after !! other = storage !! other)
  /\ match storage !! Routes.params_id req, after !! Routes.params_id req with
     | Some old, Some new =>
         Itinerary.id new = Itinerary.id old
         /\ Itinerary.userId new = Itinerary.userId old
         /\ Itinerary.title new = Itinerary.title old
         /\ Itinerary.description new = Itinerary.description old
         /\ Routes.requestOf new = Routes.requestOf old
         /\ Itinerary.createdAt new = Itinerary.createdAt old
     | None, None => True
     | _, _ => False
     end.
Proof.
  intros Hkeyed. cbv zeta.
  destruct (generate_storage_cases storage now req chat)
    as [->|(old & generatedContent & Hold & ->)].
  - repeat split. destruct (storage !! Routes.params_id req); repeat split.
  - unfold PgStorage.updateItinerary.
    rewrite (Hkeyed _ old Hold), Hold. cbn [snd]. repeat split.
    + apply dom_insert_lookup_L. now rewrite Hold.
    + intros other Hother. now apply lookup_insert_ne.
    + rewrite lookup_insert_eq. repeat split.
Qed.

End RouteByRoute.

(** The owner of the sample draft saves it. *)
Lemma updateItinerary_route_by_owner_witness :
  let updated :=
    spread_updates Samples.draft
      (UpdateItinerary.mk None None None (Some "saved")) 2000%Z in
  let '(response, after) :=
    ItineraryRoutes.updateItinerary MoreSamples.table 2000%Z (Some 7%Z) 1%Z
      (ItineraryRoutes.ZodValid (UpdateItinerary.mk None None None (Some "saved"))) in
  response = ItineraryRoutes.mkResponse 200 (ItineraryRoutes.JsonItinerary (Some updated))
  /\ after = <[1%Z := updated]> MoreSamples.table
  /\ ItineraryRoutes.getItinerary after (Some 7%Z) 1%Z
     = ItineraryRoutes.mkResponse 200 (ItineraryRoutes.JsonItinerary (Some updated)).
Proof.
  apply (updateItinerary_route_by_owner MoreSamples.table 2000%Z 7%Z 1%Z
           Samples.draft (UpdateItinerary.mk None None None (Some "saved"))).
  - exact MoreSamples_table_keyed.
  - reflexivity.
  - reflexivity.
Defined.

Lemma deleteItinerary_route_by_owner_witness :
  let '(response, after) := ItineraryRoutes.deleteItinerary MoreSamples.table (Some 7%Z) 1%Z in
  response = ItineraryRoutes.mkResponse 204 ItineraryRoutes.NoBody
  /\ after = delete 1%Z MoreSamples.table
  /\ ItineraryRoutes.statusCode (ItineraryRoutes.getItinerary after (Some 7%Z) 1%Z) = 404%Z
  /\ ItineraryRoutes.statusCode (fst (ItineraryRoutes.deleteItinerary after (Some 7%Z) 1%Z)) = 404%Z
  /\ Routes.generate Samples.JSON_parse after 2000%Z
       (Routes.mkGenerateRequest (Some 7%Z) 1%Z) (OpenAI.ChatCompletion [Some "{}"])
     = (Routes.mkResponse 404 (Routes.JsonMessage "Itinerary not found"), after).
Proof.
  apply (deleteItinerary_route_by_owner Samples.JSON_parse MoreSamples.table
           2000%Z 7%Z 1%Z Samples.draft (OpenAI.ChatCompletion [Some "{}"])).
  - exact MoreSamples_table_keyed.
  - reflexivity.
  - reflexivity.
Defined.

Lemma generate_touches_only_target_witness :
  snd (Routes.generate Samples.JSON_parse MoreSamples.table 2000%Z Samples.request
         (OpenAI.ChatCompletion [Some "{}"])) !! 2%Z
  = MoreSamples.table !! 2%Z.
Proof.
  destruct (generate_touches_only_target Samples.JSON_parse MoreSamples.table
              2000%Z Samples.request (OpenAI.ChatCompletion [Some "{}"])
              MoreSamples_table_keyed)
    as (_ & Hother & _).
  apply Hother. discriminate.
Defined.

(** ** The users of [MemStorage] *)

Section Users.

Lemma Map_set_fresh (entries : list (Z * User.t)) (key : Z) (value : User.t) :
  List.Forall (fun entry => fst entry <> key) entries ->
  MemUsers.Map_set entries key value = entries ++ [(key, value)].
Proof.
  induction 1 as [|[k v] rest Hk _ IH]; [reflexivity|].
  cbn [MemUsers.Map_set]. cbn in Hk.
  destruct (Z.eqb_spec k key); [contradiction|]. now rewrite IH.
Qed.

Lemma find_app_first {A : Type} (f : A -> bool) (l1 l2 : list A) :
  List.find f (l1 ++ l2)
  = match List.find f l1 with Some x => Some x | None => List.find f l2 end.
Proof.
  induction l1 as [|x rest IH]; [reflexivity|].
  cbn. destruct (f x); [reflexivity|exact IH].
Qed.

Lemma consistent_keys_below (this : MemUsers.t) :
  MemUsers.consistent this ->
  List.Forall (fun entry => fst entry <> MemUsers.currentUserId this)
    (MemUsers.users this).
Proof.
  unfold MemUsers.consistent. apply List.Forall_impl. intros entry [_ Hlt]. lia.
Qed.

Lemma createUser_users (this : MemUsers.t) (now : Date) (insertUser : InsertUser.t) :
  MemUsers.consistent this ->
  MemUsers.users (snd (MemUsers.createUser this now insertUser))
  = MemUsers.users this
    ++ [(MemUsers.currentUserId this, fst (MemUsers.createUser this now insertUser))].
Proof.
  intros Hthis. cbn. apply Map_set_fresh. now apply consistent_keys_below.
Qed.

Lemma MemUsers_empty_consistent : MemUsers.consistent MemUsers.empty.
Proof. constructor. Qed.

Lemma find_key_none (entries : list (Z * User.t)) (key : Z) :
  List.Forall (fun entry => fst entry <> key) entries ->
  List.find (fun entry => (fst entry =? key)%Z) entries = None.
Proof.
  induction 1 as [|[k v] rest Hk _ IH]; [reflexivity|].
  cbn in *. destruct (Z.eqb_spec k key); [contradiction|exact IH].
Qed.

Lemma createUser_consistent (this : MemUsers.t) (now : Date)
    (insertUser : InsertUser.t) :
  MemUsers.consistent this ->
  MemUsers.consistent (snd (MemUsers.createUser this now insertUser)).
Proof.
  intros Hthis. unfold MemUsers.consistent.
  rewrite (createUser_users this now insertUser Hthis).
  cbn [MemUsers.createUser snd fst MemUsers.currentUserId].
  apply List.Forall_app. split.
  - revert Hthis. unfold MemUsers.consistent. apply List.Forall_impl.
    intros entry [Hid Hlt]. split; [assumption|lia].
  - repeat constructor. cbn. lia.
Qed.

(** In a consistent store a new user gets an [id] that was free, is added
    after all earlier users, can be read back under the [id], displaces
    nobody, and the store stays consistent. *)
Theorem createUser_fresh (this : MemUsers.t) (now : Date)
    (insertUser : InsertUser.t) :
  MemUsers.consistent this ->
  let '(user, after) := MemUsers.createUser this now insertUser in
  MemUsers.consistent after
  /\ MemUsers.getUser this (User.id user) = None
  /\ MemUsers.getUser after (User.id user) = Some user
  /\ (forall other : Z, other <> User.id user ->
        MemUsers.getUser after other = MemUsers.getUser this other)
  /\ MemUsers.users after = MemUsers.users this ++ [(User.id user, user)]
  /\ User.username user = InsertUser.username insertUser
  /\ User.email user = InsertUser.email insertUser.
Proof.
  intros Hthis. pose proof (createUser_users this now insertUser Hthis) as Husers.
  pose proof (consistent_keys_below this Hthis) as Hkeys.
  destruct (MemUsers.createUser this now insertUser) as [user after] eqn:Hcreate.
  injection Hcreate as <- <-. cbn [fst snd] in Husers.
  cbn [User.id User.username User.email].
  pose proof (find_key_none (MemUsers.users this) _ Hkeys) as Hnone.
  repeat split.
  - exact (createUser_consistent this now insertUser Hthis).
  - unfold MemUsers.getUser, MemUsers.Map_get. now rewrite Hnone.
  - unfold MemUsers.getUser, MemUsers.Map_get. rewrite Husers, find_app_first, Hnone.
    cbn. now rewrite Z.eqb_refl.
  - intros other Hother. unfold MemUsers.getUser, MemUsers.Map_get.
    rewrite Husers, find_app_first.
    destruct (List.find (fun entry => (fst entry =? other)%Z) (MemUsers.users this));
      [reflexivity|].
    cbn. destruct (Z.eqb_spec (MemUsers.currentUserId this) other) as [Heq|Hne];
      [now symmetry in Heq|reflexivity].
  - exact Husers.
Qed.

(** A second user, after "ada": the id 2, added after the first, who is
    found as before. *)
Lemma createUser_fresh_witness :
  let first := MemUsers.createUser MemUsers.empty 1000%Z MoreSamples.ada in
  let '(user, after) := MemUsers.createUser (snd first) 2000%Z MoreSamples.ada_again in
  MemUsers.consistent after
  /\ User.id user = 2%Z
  /\ MemUsers.getUser (snd first) (User.id user) = None
  /\ MemUsers.getUser after (User.id user) = Some user
  /\ MemUsers.getUser after 1%Z = Some (fst first)
  /\ MemUsers.users after = [(1%Z, fst first); (2%Z, user)]
  /\ User.username user = "ada"
  /\ User.email user = "other@example.org".
Proof.
  cbv zeta.
  pose proof (createUser_fresh
                (snd (MemUsers.createUser MemUsers.empty 1000%Z MoreSamples.ada))
                2000%Z MoreSamples.ada_again
                (createUser_consistent MemUsers.empty 1000%Z MoreSamples.ada
                   MemUsers_empty_consistent)) as H.
  destruct (MemUsers.createUser
              (snd (MemUsers.createUser MemUsers.empty 1000%Z MoreSamples.ada))
              2000%Z MoreSamples.ada_again) as [user after] eqn:Hcreate.
  destruct H as (Hcons & Hfree & Hstored & Hothers & Husers & Hname & Hemail).
  assert (Hid : User.id user = 2%Z) by (injection Hcreate as <- _; reflexivity).
  split; [exact Hcons|]. split; [exact Hid|]. split; [exact Hfree|].
  split; [exact Hstored|]. split.
  { rewrite (Hothers 1%Z) by (rewrite Hid; discriminate). reflexivity. }
  split; [rewrite Husers, Hid; reflexivity|]. split; assumption.
Defined.

(** The store does not keep names or addresses unique: [createUser] accepts
    a name that is taken, and the lookup by name, like the one by address,
    goes on returning the user who had it first.  A name that was free
    leads to the new user. *)
Theorem getUserByUsername_first_registered (this : MemUsers.t) (now : Date)
    (insertUser : InsertUser.t) (username email : string) :
  MemUsers.consistent this ->
  let '(user, after) := MemUsers.createUser this now insertUser in
  MemUsers.getUserByUsername after username
  = match MemUsers.getUserByUsername this username with
    | Some earlier => Some earlier
    | None =>
        if String.eqb (InsertUser.username insertUser) username
        then Some user else None
    end
  /\ MemUsers.getUserByEmail after email
     = match MemUsers.getUserByEmail this email with
       | Some earlier => Some earlier
       | None =>
           if String.eqb (InsertUser.email insertUser) email
           then Some user else None
       end.
Proof.
  intros Hthis. pose proof (createUser_users this now insertUser Hthis) as Husers.
  destruct (MemUsers.createUser this now insertUser) as [user after] eqn:Hcreate.
  injection Hcreate as <- <-. cbn [fst snd] in Husers.
  unfold MemUsers.getUserByUsername, MemUsers.getUserByEmail.
  rewrite Husers, map_app, !find_app_first. cbn [map snd List.find User.username User.email].
  split.
  - destruct (List.find _ (map snd (MemUsers.users this))); [reflexivity|].
    now destruct (String.eqb _ username).
  - destruct (List.find (fun user => String.eqb (User.email user) email)
                (map snd (MemUsers.users this))); [reflexivity|].
    now destruct (String.eqb _ email).
Qed.

(** Two registrations as "ada": the lookup returns the first. *)
Lemma getUserByUsername_first_registered_witness :
  let first := MemUsers.createUser MemUsers.empty 1000%Z MoreSamples.ada in
  let '(user, after) := MemUsers.createUser (snd first) 2000%Z MoreSamples.ada_again in
  MemUsers.getUserByUsername after "ada" = Some (fst first)
  /\ MemUsers.getUserByEmail after "other@example.org" = Some user.
Proof.
  cbv zeta.
  exact (getUserByUsername_first_registered
           (snd (MemUsers.createUser MemUsers.empty 1000%Z MoreSamples.ada))
           2000%Z MoreSamples.ada_again "ada" "other@example.org"
           (createUser_consistent MemUsers.empty 1000%Z MoreSamples.ada
              MemUsers_empty_consistent)).
Defined.

End Users.

(** ** Without authentication; at the requester's own position *)

Section Edges.

Import PlaceClassifier GooglePlaces.
Local Open Scope R_scope.

Variable JSON_parse : string -> option Json.

(** Without authentication each of the five routes answers 401 and the
    store is not touched, whatever is asked and whatever the collaborators
    would answer. *)
Theorem session_unauthenticated (storage : gmap Z Itinerary.t)
    (calls : list (Date * ItineraryRoutes.Call)) :
  let '(responses, after) :=
    ItineraryRoutes.session JSON_parse storage None calls in
  after = storage
  /\ responses
     = map (fun _ =>
              ItineraryRoutes.mkResponse 401
                (ItineraryRoutes.JsonMessage "Authentication required"))
         calls.
Proof.
  induction calls as [|[now call] rest IH]; [now split|].
  cbn [ItineraryRoutes.session map].
  assert (Hstep : ItineraryRoutes.handle JSON_parse storage now None call
                  = (ItineraryRoutes.mkResponse 401
                       (ItineraryRoutes.JsonMessage "Authentication required"),
                     storage))
    by (destruct call; reflexivity).
  rewrite Hstep.
  destruct (ItineraryRoutes.session JSON_parse storage None rest)
    as [responses after].
  destruct IH as [-> ->]. now split.
Qed.


End Edges.


(** * The service on every input: properties *)

(** ** The display type *)

Section PlaceTypesProperties.

Import PlaceClassifier PlaceTypes Spec.

Lemma Object_prototype_not_mapped (tag : string) :
  JS.includes priority_order tag = true ->
  JS.includes Object_prototype tag = false.
Proof.
  unfold JS.includes, priority_order. cbn [existsb].
  repeat match goal with
  | |- context [String.eqb tag ?k] =>
      destruct (String.eqb_spec tag k) as [->|?]; [intros _; reflexivity|]
  end.
  discriminate.
Qed.

(** [typeMap[tag]]: the label of a mapped tag, the inherited member of a
    property of [Object.prototype], [undefined] for every other tag. *)
Lemma typeMap_get_cases (tag : string) :
  typeMap_get tag =
  if JS.includes priority_order tag
  then Some (Label (default "Attraction" (typeMap !! tag)))
  else if JS.includes Object_prototype tag then Some (Inherited tag)
  else None.
Proof.
  unfold typeMap_get. rewrite typeMap_lookup.
  destruct (JS.includes priority_order tag); reflexivity.
Qed.

Lemma mapped_label_truthy (tag : string) :
  JS.includes priority_order tag = true ->
  JS.truthy_string (default "Attraction" (typeMap !! tag)) = true.
Proof.
  intros Htag. pose proof (typeMap_lookup tag) as Hlookup. rewrite Htag in Hlookup.
  rewrite Hlookup. cbn [default from_option]. unfold Datatypes.id.
  rewrite Hlookup in *. cbn [default from_option] in *. unfold Datatypes.id in *.
  destruct (typeMap !! tag) as [label|] eqn:Hlabel; [|reflexivity].
  exact (typeMap_labels_truthy tag label Hlabel).
Qed.

Lemma getPlaceType_loop_first (types : list string) :
  getPlaceType_loop types =
  match List.find (fun tag => JS.includes priority_order tag
                              || JS.includes Object_prototype tag) types with
  | Some tag =>
      if JS.includes priority_order tag
      then Label (default "Attraction" (typeMap !! tag))
      else Inherited tag
  | None => Label "Attraction"
  end.
Proof.
  induction types as [|tag rest IH]; [reflexivity|].
  cbn [getPlaceType_loop List.find]. rewrite typeMap_get_cases.
  destruct (JS.includes priority_order tag) eqn:Hmapped.
  - cbn [orb truthy]. rewrite mapped_label_truthy by assumption. now rewrite Hmapped.
  - cbn [orb]. destruct (JS.includes Object_prototype tag);
      [now rewrite Hmapped|exact IH].
Qed.

(** C5, as the code has it.  The display type is decided by the first tag,
    in the order of the place's own tag list, that [typeMap] knows: when
    that tag is one of the nine mapped tags, the display type is its label;
    it is "Attraction" when [typeMap] knows no tag of the place.  ([typeMap]
    also knows the names of the properties that every object inherits; when
    such a name comes first, what is returned is that property and no
    label.) *)
Theorem getPlaceType_first_known_tag (place : GooglePlace.t) :
  match List.find (fun tag => JS.includes priority_order tag
                              || JS.includes Object_prototype tag)
          (GooglePlace.types place) with
  | Some tag =>
      In tag (GooglePlace.types place)
      /\ if JS.includes priority_order tag
         then getPlaceType place = Label (default "Attraction" (typeMap !! tag))
         else getPlaceType place = Inherited tag
  | None => getPlaceType place = Label "Attraction"
  end.
Proof.
  unfold getPlaceType. rewrite getPlaceType_loop_first.
  destruct (List.find _ _) as [tag|] eqn:Hfind; [|reflexivity].
  split; [exact (proj1 (List.find_some _ _ Hfind))|].
  destruct (JS.includes priority_order tag); reflexivity.
Qed.

(** C5, as the specification words it, fails: a place tagged
    [museum, tourist_attraction] is a "Museum", although tourist_attraction
    comes first in the priority order. *)
Lemma getPlaceType_own_order_not_priority :
  getPlaceType (Samples.place_of_types ["museum"; "tourist_attraction"])
  = Label "Museum"
  /\ displayType_by_priority (Samples.place_of_types ["museum"; "tourist_attraction"])
     = "Tourist Attraction"
  /\ "Museum" <> "Tourist Attraction".
Proof. vm_compute. repeat split; discriminate. Qed.

(** A tag that names an inherited property, ahead of a mapped one. *)
Example getPlaceType_constructor :
  getPlaceType EdgeSamples.oddity = Inherited "constructor"
  /\ getPlaceType (Samples.place_of_types ["museum"; "constructor"]) = Label "Museum"
  /\ getPlaceType (Samples.place_of_types ["lodging"; "__proto__"])
     = Inherited "__proto__".
Proof. vm_compute. repeat split. Qed.

(** Where the display type is a label, it is the one of the regular case. *)
Lemma getPlaceType_label (place : GooglePlace.t) (label : string) :
  getPlaceType place = Label label -> PlaceClassifier.getPlaceType place = label.
Proof.
  unfold getPlaceType, PlaceClassifier.getPlaceType.
  rewrite getPlaceType_loop_first, getPlaceType_loop_find.
  induction (GooglePlace.types place) as [|tag rest IH]; cbn [List.find].
  - now intros [= <-].
  - destruct (JS.includes priority_order tag) eqn:Hmapped; cbn [orb].
    + rewrite Hmapped. now intros [= <-].
    + destruct (JS.includes Object_prototype tag) eqn:Hinherited.
      * rewrite Hmapped. discriminate.
      * exact IH.
Qed.


(** A place is eligible exactly when it carries a mapped tag or the tag
    establishment.  So, where the display type is a label, the place is
    eligible exactly when the label is not "Attraction" or the place is an
    establishment. *)
Theorem eligible_iff_labelled_or_establishment (place : GooglePlace.t) :
  (isValidTravelDestination place = true
   <-> (exists tag, In tag (GooglePlace.types place)
                    /\ JS.includes priority_order tag = true)
       \/ In "establishment" (GooglePlace.types place))
  /\ match getPlaceType place with
     | Label label =>
         isValidTravelDestination place = true
         <-> label <> "Attraction" \/ In "establishment" (GooglePlace.types place)
     | Inherited _ => True
     end.
Proof.
  unfold isValidTravelDestination, getPlaceType. split.
  - rewrite existsb_exists. split.
    + intros (tag & Hin & Hvalid). rewrite includes_travelTypes in Hvalid.
      apply orb_true_iff in Hvalid as [Hmapped|Hest].
      * left. now exists tag.
      * right. apply String.eqb_eq in Hest. now subst tag.
    + intros [(tag & Hin & Hmapped)|Hest].
      * exists tag. split; [assumption|]. rewrite includes_travelTypes.
        now rewrite Hmapped.
      * exists "establishment". split; [assumption|reflexivity].
  - rewrite getPlaceType_loop_first.
    induction (GooglePlace.types place) as [|tag rest IH].
    + cbn. split; [discriminate|intros [H|[]]; congruence].
    + cbn [existsb List.find In]. rewrite includes_travelTypes.
      destruct (JS.includes priority_order tag) eqn:Htag.
      * cbn [orb]. rewrite Htag. split; [intros _|reflexivity].
        left. pose proof (mapped_tag_label tag Htag) as Hin. cbn [In] in Hin.
        destruct Hin as [<-|[<-|[<-|[<-|[<-|[<-|[<-|[<-|[<-|[]]]]]]]]]]; discriminate.
      * cbn [orb]. destruct (JS.includes Object_prototype tag) eqn:Hinherited.
        -- rewrite Htag. exact I.
        -- destruct (List.find _ rest) as [found|] eqn:Hfind.
           ++ destruct (JS.includes priority_order found); [|exact I].
              destruct (String.eqb_spec tag "establishment") as [->|Hne]; cbn [orb].
              ** split; [intros _; right; now left|reflexivity].
              ** rewrite IH. split.
                 --- intros [H|H]; [now left|right; now right].
                 --- intros [H|[H|H]]; [now left|congruence|now right].
           ++ destruct (String.eqb_spec tag "establishment") as [->|Hne]; cbn [orb].
              ** split; [intros _; right; now left|reflexivity].
              ** rewrite IH. split.
                 --- intros [H|H]; [now left|right; now right].
                 --- intros [H|[H|H]]; [now left|congruence|now right].
Qed.

End PlaceTypesProperties.

(** ** Suggestions, one place at a time *)

Section ServiceProperties.

Import PlaceClassifier PlaceTypes Spec.
Local Open Scope R_scope.

(** A place is mapped to a suggestion exactly when its display type is a
    label; otherwise [generateDescription] throws. *)
Lemma mapPlaceToSuggestion_outcome (haversine_error : R -> R -> R -> R -> R)
    (this : GooglePlaces.GooglePlacesService) (place : GooglePlace.t)
    (userLat userLng : option R) :
  match getPlaceType place with
  | Label type =>
      exists suggestion : TravelSuggestion.t,
        Service.mapPlaceToSuggestion haversine_error this place userLat userLng
        = Return suggestion
        /\ TravelSuggestion.id suggestion = GooglePlace.place_id place
        /\ TravelSuggestion.type suggestion = type
        /\ TravelSuggestion.distance suggestion
           = Service.distanceStr
               (Service.distanceKm_of haversine_error place userLat userLng)
        /\ TravelSuggestion.travelTime suggestion
           = Service.travelTimeStr
               (Service.travelTimeMinutes_of
                  (Service.distanceKm_of haversine_error place userLat userLng))
  | Inherited _ =>
      Service.mapPlaceToSuggestion haversine_error this place userLat userLng
      = Throw TypeError
  end.
Proof.
  unfold Service.mapPlaceToSuggestion, Service.generateDescription.
  destruct (getPlaceType place) as [type|key]; [|reflexivity].
  eexists. split; [reflexivity|]. repeat split.
Qed.

Lemma demo_mapPlaceToSuggestion_outcome (number_toString : R -> string)
    (place : GooglePlace.t) (w : World) :
  snd (ServiceDemo.mapPlaceToSuggestion number_toString place w)
  = {| random_draws := random_draws w;
       random_next := S (random_next w);
       env_GOOGLE_MAPS_API := env_GOOGLE_MAPS_API w |}
  /\ match getPlaceType place with
     | Label type =>
         exists suggestion : TravelSuggestion.t,
           fst (ServiceDemo.mapPlaceToSuggestion number_toString place w)
           = Return suggestion
           /\ TravelSuggestion.id suggestion = GooglePlace.place_id place
           /\ TravelSuggestion.type suggestion = type
           /\ TravelSuggestion.distance suggestion
              = distanceStr (random_draws w (random_next w) * 20 + 1)
           /\ TravelSuggestion.travelTime suggestion
              = GooglePlacesDemo.travelTimeStr
                  (JS.Math_round ((random_draws w (random_next w) * 20 + 1) * 12))
     | Inherited _ =>
         fst (ServiceDemo.mapPlaceToSuggestion number_toString place w)
         = Throw TypeError
     end.
Proof.
  unfold ServiceDemo.mapPlaceToSuggestion, ServiceDemo.generateDescription.
  cbn [Math_random].
  destruct (getPlaceType place) as [type|key]; cbn [fst snd];
    (split; [reflexivity|]); [|reflexivity].
  eexists. split; [reflexivity|]. repeat split.
Qed.

(** Where the distance is a number, the strings are those of the regular
    case; where it is [NaN], they say so. *)
Lemma distanceStr_Num (d : R) :
  Service.distanceStr (Number.Num d) = distanceStr d.
Proof.
  unfold Service.distanceStr, distanceStr. cbn.
  destruct (Rlt_dec d 1); reflexivity.
Qed.

Lemma travelTimeStr_Num (d : R) :
  Service.travelTimeStr (Service.travelTimeMinutes_of (Number.Num d))
  = GooglePlaces.travelTimeStr (GooglePlaces.travelTimeMinutes_of d).
Proof.
  unfold Service.travelTimeStr, Service.travelTimeMinutes_of,
    GooglePlaces.travelTimeStr, GooglePlaces.travelTimeMinutes_of. cbn.
  destruct (JS.Math_round (d / 40 * 60) <? 60)%Z; reflexivity.
Qed.

Lemma strings_NaN :
  Service.distanceStr Number.NaN = "NaNkm"
  /\ Service.travelTimeStr (Service.travelTimeMinutes_of Number.NaN)
     = "NaNh NaNmin".
Proof. split; reflexivity. Qed.

Lemma demo_travelTimeStr_format (m : Z) :
  GooglePlacesDemo.travelTimeStr m
  = if (m <? 60)%Z then JS.Number_toString m +:+ "min"
    else JS.Number_toString ((m + 30) / 60) +:+ "h "
         +:+ JS.Number_toString (m mod 60) +:+ "min".
Proof.
  unfold GooglePlacesDemo.travelTimeStr.
  destruct (m <? 60)%Z eqn:Hm; [reflexivity|]. apply Z.ltb_ge in Hm.
  rewrite Math_round_div60, Z.rem_mod_nonneg by lia. reflexivity.
Qed.

(** C6, as the code has it.  For every distance [d] that is a number, the
    travel time of the coordinate-aware service is the one of the claim:
    [m = round(d / 40 * 60)], "{m}min" below an hour, "{floor(m/60)}h
    {m%60}min" from an hour on; this is the travel time of every suggestion
    that the service makes.  The service of
    [server/services/google-places.ts] takes [m = round(d * 12)] for its
    drawn distance [d], prints "{m}min" below an hour and rounds the hours
    from an hour on. *)
Theorem travelTime_of_distance :
  (forall d : R,
     Service.travelTimeStr (Service.travelTimeMinutes_of (Number.Num d))
     = travelTime_at_40 d)
  /\ (forall (haversine_error : R -> R -> R -> R -> R)
             (this : GooglePlaces.GooglePlacesService) (place : GooglePlace.t)
             (userLat userLng : option R),
        match Service.mapPlaceToSuggestion haversine_error this place
                userLat userLng with
        | Return suggestion =>
            match Service.distanceKm_of haversine_error place userLat userLng with
            | Number.Num d =>
                TravelSuggestion.travelTime suggestion = travelTime_at_40 d
            | Number.NaN =>
                TravelSuggestion.travelTime suggestion = "NaNh NaNmin"
            end
        | Throw _ => exists key : string, getPlaceType place = Inherited key
        end)
  /\ (forall (number_toString : R -> string) (place : GooglePlace.t) (w : World),
        match fst (ServiceDemo.mapPlaceToSuggestion number_toString place w) with
        | Return suggestion =>
            let d := random_draws w (random_next w) * 20 + 1 in
            let m := JS.Math_round (d * 12) in
            TravelSuggestion.travelTime suggestion
            = if (m <? 60)%Z then JS.Number_toString m +:+ "min"
              else JS.Number_toString ((m + 30) / 60) +:+ "h "
                   +:+ JS.Number_toString (m mod 60) +:+ "min"
        | Throw _ => exists key : string, getPlaceType place = Inherited key
        end).
Proof.
  assert (Hformula : forall d : R,
            Service.travelTimeStr (Service.travelTimeMinutes_of (Number.Num d))
            = travelTime_at_40 d).
  { intros d. rewrite travelTimeStr_Num. apply travelTimeStr_format. }
  split; [exact Hformula|]. split.
  - intros haversine_error this place userLat userLng.
    pose proof (mapPlaceToSuggestion_outcome haversine_error this place
                  userLat userLng) as Hmap.
    destruct (getPlaceType place) as [type|key].
    + destruct Hmap as (suggestion & -> & _ & _ & _ & ->).
      destruct (Service.distanceKm_of haversine_error place userLat userLng)
        as [d|]; [apply Hformula|reflexivity].
    + rewrite Hmap. now exists key.
  - intros number_toString place w.
    pose proof (demo_mapPlaceToSuggestion_outcome number_toString place w)
      as [_ Hmap].
    destruct (getPlaceType place) as [type|key].
    + destruct Hmap as (suggestion & -> & _ & _ & _ & ->).
      cbv zeta. apply demo_travelTimeStr_format.
    + rewrite Hmap. now exists key.
Qed.

(** C6, as the specification words it, fails on the service of
    [server/services/google-places.ts]: with the draw 0.45 the distance is
    10 km and the travel time reads "2h 0min", where 40 km/h give
    "15min". *)
Lemma demo_travelTime_is_not_at_40 :
  exists suggestion : TravelSuggestion.t,
    fst (ServiceDemo.mapPlaceToSuggestion Samples.number_toString Samples.louvre
           (Samples.world 0.45)) = Return suggestion
    /\ TravelSuggestion.distance suggestion = "10.0km"
    /\ TravelSuggestion.travelTime suggestion = "2h 0min"
    /\ travelTime_at_40 10 = "15min"
    /\ TravelSuggestion.travelTime suggestion <> travelTime_at_40 10.
Proof.
  pose proof (demo_mapPlaceToSuggestion_outcome Samples.number_toString
                Samples.louvre (Samples.world 0.45)) as [_ Hmap].
  replace (getPlaceType Samples.louvre) with (Label "Museum") in Hmap
    by (vm_compute; reflexivity).
  destruct Hmap as (suggestion & Hreturn & _ & _ & Hdistance & Htime).
  cbn [Samples.world random_draws random_next] in Hdistance, Htime.
  replace (0.45 * 20 + 1) with 10 in Hdistance, Htime by lra.
  assert (Hd : TravelSuggestion.distance suggestion = "10.0km").
  { rewrite Hdistance. unfold distanceStr.
    destruct (Rlt_dec 10 1) as [Hlt|_]; [lra|].
    rewrite (toFixed1_tenths 100); [reflexivity|lra|lra]. }
  assert (Ht : TravelSuggestion.travelTime suggestion = "2h 0min").
  { rewrite Htime.
    assert (JS.Math_round (10 * 12) = 120%Z) as -> by (apply Math_round_eq; lra).
    rewrite demo_travelTimeStr_format. reflexivity. }
  assert (H40 : travelTime_at_40 10 = "15min").
  { unfold travelTime_at_40.
    assert (JS.Math_round (10 / 40 * 60) = 15%Z) as -> by (apply Math_round_eq; lra).
    reflexivity. }
  exists suggestion. split; [exact Hreturn|]. split; [exact Hd|].
  split; [exact Ht|]. split; [exact H40|]. rewrite Ht, H40. discriminate.
Qed.

End ServiceProperties.

(** ** The ranker *)

Section RankerProperties.

Import PlaceClassifier PlaceTypes Spec.
Local Open Scope R_scope.

Lemma map_outcome_cases {A B : Type} (f : A -> Outcome B) (l : list A) :
  match map_outcome f l with
  | Return ys => List.Forall2 (fun x y => f x = Return y) l ys
  | Throw e => List.Exists (fun x => f x = Throw e) l
  end.
Proof.
  induction l as [|x rest IH]; cbn [map_outcome]; [constructor|].
  destruct (f x) as [y|e] eqn:Hx; [|now left].
  destruct (map_outcome f rest) as [ys|e]; [now constructor|now right].
Qed.

Lemma Forall2_ids (places : list GooglePlace.t)
    (suggestions : list TravelSuggestion.t) :
  List.Forall2
    (fun place suggestion =>
       TravelSuggestion.id suggestion = GooglePlace.place_id place)
    places suggestions ->
  map TravelSuggestion.id suggestions = map GooglePlace.place_id places.
Proof. induction 1 as [|place s places ss Hid _ IH]; cbn; congruence. Qed.

Lemma mapPlaceToSuggestion_id (haversine_error : R -> R -> R -> R -> R)
    (this : GooglePlaces.GooglePlacesService) (place : GooglePlace.t)
    (userLat userLng : option R) (suggestion : TravelSuggestion.t) :
  Service.mapPlaceToSuggestion haversine_error this place userLat userLng
  = Return suggestion ->
  TravelSuggestion.id suggestion = GooglePlace.place_id place.
Proof.
  pose proof (mapPlaceToSuggestion_outcome haversine_error this place
                userLat userLng) as Hmap.
  destruct (getPlaceType place) as [type|key].
  - destruct Hmap as (s & -> & Hid & _). now intros [= <-].
  - rewrite Hmap. discriminate.
Qed.

Lemma mapPlaceToSuggestion_throws (haversine_error : R -> R -> R -> R -> R)
    (this : GooglePlaces.GooglePlacesService) (place : GooglePlace.t)
    (userLat userLng : option R) (e : Error) :
  Service.mapPlaceToSuggestion haversine_error this place userLat userLng
  = Throw e ->
  exists key : string, getPlaceType place = Inherited key.
Proof.
  pose proof (mapPlaceToSuggestion_outcome haversine_error this place
                userLat userLng) as Hmap.
  destruct (getPlaceType place) as [type|key].
  - destruct Hmap as (s & -> & _). discriminate.
  - intros _. now exists key.
Qed.

Lemma demo_map_cases (number_toString : R -> string)
    (places : list GooglePlace.t) (w : World) :
  match fst (map_outcome_in_world
               (ServiceDemo.mapPlaceToSuggestion number_toString) places w) with
  | Return suggestions =>
      List.Forall2
        (fun place suggestion =>
           exists v : World,
             fst (ServiceDemo.mapPlaceToSuggestion number_toString place v)
             = Return suggestion)
        places suggestions
  | Throw _ =>
      List.Exists (fun place => exists key : string, getPlaceType place = Inherited key)
        places
  end.
Proof.
  revert w. induction places as [|place rest IH]; intros w;
    cbn [map_outcome_in_world fst]; [constructor|].
  pose proof (demo_mapPlaceToSuggestion_outcome number_toString place w)
    as [_ Hmap].
  destruct (ServiceDemo.mapPlaceToSuggestion number_toString place w)
    as [[suggestion|e] w1] eqn:Hplace; cbn [fst] in *.
  - specialize (IH w1).
    destruct (map_outcome_in_world _ rest w1) as [[suggestions|e] w2];
      cbn [fst] in *.
    + constructor; [|exact IH]. exists w. now rewrite Hplace.
    + now right.
  - left. destruct (getPlaceType place) as [type|key].
    + destruct Hmap as (s & [=] & _).
    + now exists key.
Qed.

Lemma demo_mapPlaceToSuggestion_id (number_toString : R -> string)
    (place : GooglePlace.t) (v : World) (suggestion : TravelSuggestion.t) :
  fst (ServiceDemo.mapPlaceToSuggestion number_toString place v)
  = Return suggestion ->
  TravelSuggestion.id suggestion = GooglePlace.place_id place.
Proof.
  pose proof (demo_mapPlaceToSuggestion_outcome number_toString place v)
    as [_ Hmap].
  destruct (getPlaceType place) as [type|key].
  - destruct Hmap as (s & -> & Hid & _). now intros [= <-].
  - rewrite Hmap. discriminate.
Qed.

(** C4, as the code has it.  When the coordinate-aware service returns, its
    output is the suggestions of the first six eligible places, in input
    order; when the service of [server/services/google-places.ts] returns,
    its output is the suggestions of the first eight.  Nothing is sorted.
    (Either throws instead when it maps a place whose display type is an
    inherited property: any eligible place for the first, one of the first
    eight for the second.) *)
Theorem convertToTravelSuggestions_first_eligible
    (haversine_error : R -> R -> R -> R -> R)
    (this : GooglePlaces.GooglePlacesService) (number_toString : R -> string)
    (places : list GooglePlace.t) (userLat userLng : option R) (w : World) :
  let eligible := List.filter isValidTravelDestination places in
  match Service.convertToTravelSuggestions haversine_error this places
          userLat userLng with
  | Return suggestions =>
      List.Forall2
        (fun place suggestion =>
           Service.mapPlaceToSuggestion haversine_error this place userLat userLng
           = Return suggestion)
        (firstn 6 eligible) suggestions
      /\ map TravelSuggestion.id suggestions
         = firstn 6 (map GooglePlace.place_id eligible)
      /\ (length suggestions <= 6)%nat
  | Throw _ =>
      List.Exists (fun place => exists key : string, getPlaceType place = Inherited key)
        eligible
  end
  /\ match fst (ServiceDemo.convertToTravelSuggestions number_toString places w) with
     | Return suggestions =>
         List.Forall2
           (fun place suggestion =>
              exists v : World,
                fst (ServiceDemo.mapPlaceToSuggestion number_toString place v)
                = Return suggestion)
           (firstn 8 eligible) suggestions
         /\ map TravelSuggestion.id suggestions
            = firstn 8 (map GooglePlace.place_id eligible)
         /\ (length suggestions <= 8)%nat
     | Throw _ =>
         List.Exists
           (fun place => exists key : string, getPlaceType place = Inherited key)
           (firstn 8 eligible)
     end.
Proof.
  cbv zeta. split.
  - unfold Service.convertToTravelSuggestions, JS.slice0.
    pose proof (map_outcome_cases
                  (fun place => Service.mapPlaceToSuggestion haversine_error this
                                  place userLat userLng)
                  (List.filter isValidTravelDestination places)) as Hmap.
    destruct (map_outcome _ _) as [suggestions|e].
    + assert (Hfirst : List.Forall2
                (fun place suggestion =>
                   Service.mapPlaceToSuggestion haversine_error this place
                     userLat userLng = Return suggestion)
                (firstn 6 (List.filter isValidTravelDestination places))
                (firstn 6 suggestions)) by now apply Forall2_take.
      split; [exact Hfirst|]. split.
      * rewrite firstn_map. apply Forall2_ids.
        revert Hfirst. apply List.Forall2_impl. intros place suggestion.
        apply mapPlaceToSuggestion_id.
      * rewrite length_firstn. lia.
    + revert Hmap. apply List.Exists_impl. intros place.
      apply mapPlaceToSuggestion_throws.
  - unfold ServiceDemo.convertToTravelSuggestions, JS.slice0.
    pose proof (demo_map_cases number_toString
                  (firstn 8 (List.filter isValidTravelDestination places)) w)
      as Hmap.
    destruct (fst (map_outcome_in_world _ _ w)) as [suggestions|e];
      [|exact Hmap].
    split; [exact Hmap|]. split.
    + rewrite firstn_map. apply Forall2_ids.
      revert Hmap. apply List.Forall2_impl. intros place suggestion [v Hv].
      now apply demo_mapPlaceToSuggestion_id in Hv.
    + apply List.Forall2_length in Hmap. rewrite <- Hmap, length_firstn. lia.
Qed.

(** C4, as the specification words it, fails on the service of
    [server/services/google-places.ts], the one [server/routes.ts] imports:
    seven eligible places give seven suggestions. *)
Lemma demo_seven_suggestions :
  exists suggestions : list TravelSuggestion.t,
    fst (ServiceDemo.convertToTravelSuggestions Samples.number_toString
           (repeat Samples.louvre 7) (Samples.world 0)) = Return suggestions
    /\ length suggestions = 7%nat
    /\ ~ (length suggestions <= 6)%nat.
Proof.
  pose proof (demo_map_cases Samples.number_toString
                (firstn 8 (List.filter isValidTravelDestination
                             (repeat Samples.louvre 7))) (Samples.world 0)) as Hmap.
  unfold ServiceDemo.convertToTravelSuggestions, JS.slice0.
  destruct (fst (map_outcome_in_world _ _ (Samples.world 0)))
    as [suggestions|e].
  - exists suggestions. split; [reflexivity|].
    apply List.Forall2_length in Hmap. rewrite <- Hmap.
    split; [reflexivity|]. cbn. lia.
  - exfalso. apply List.Exists_exists in Hmap as (place & Hin & key & Hkey).
    assert (Hplace : place = Samples.louvre).
    { cbn in Hin. intuition congruence. }
    subst place. vm_compute in Hkey. discriminate.
Qed.

End RankerProperties.

(** ** What the conversion depends on *)

Section DeterminismProperties.

Import PlaceClassifier PlaceTypes Spec.
Local Open Scope R_scope.

Variable number_toString : R -> string.

Lemma demo_mapPlaceToSuggestion_related (place : GooglePlace.t) (w1 w2 : World) :
  env_GOOGLE_MAPS_API w1 = env_GOOGLE_MAPS_API w2 ->
  match fst (ServiceDemo.mapPlaceToSuggestion number_toString place w1),
        fst (ServiceDemo.mapPlaceToSuggestion number_toString place w2) with
  | Return s1, Return s2 => same_but_distance s1 s2
  | Throw e1, Throw e2 => e1 = e2
  | _, _ => False
  end.
Proof.
  intros Henv.
  unfold ServiceDemo.mapPlaceToSuggestion, ServiceDemo.generateDescription.
  cbn [Math_random].
  destruct (getPlaceType place) as [type|key]; cbn [fst]; [|reflexivity].
  unfold same_but_distance, GooglePlacesDemo.photoUrl. cbn. rewrite Henv.
  repeat split.
Qed.

Lemma demo_mapPlaceToSuggestion_same_draw (place : GooglePlace.t) (w1 w2 : World) :
  env_GOOGLE_MAPS_API w1 = env_GOOGLE_MAPS_API w2 ->
  random_draws w1 (random_next w1) = random_draws w2 (random_next w2) ->
  fst (ServiceDemo.mapPlaceToSuggestion number_toString place w1)
  = fst (ServiceDemo.mapPlaceToSuggestion number_toString place w2).
Proof.
  intros Henv Hdraw.
  unfold ServiceDemo.mapPlaceToSuggestion, ServiceDemo.generateDescription.
  cbn [Math_random].
  destruct (getPlaceType place) as [type|key]; cbn [fst]; [|reflexivity].
  unfold GooglePlacesDemo.photoUrl. cbn. now rewrite Henv, Hdraw.
Qed.

Lemma demo_map_related (places : list GooglePlace.t) (w1 w2 : World) :
  env_GOOGLE_MAPS_API w1 = env_GOOGLE_MAPS_API w2 ->
  match fst (map_outcome_in_world
               (ServiceDemo.mapPlaceToSuggestion number_toString) places w1),
        fst (map_outcome_in_world
               (ServiceDemo.mapPlaceToSuggestion number_toString) places w2) with
  | Return l1, Return l2 => List.Forall2 same_but_distance l1 l2
  | Throw e1, Throw e2 => e1 = e2
  | _, _ => False
  end.
Proof.
  revert w1 w2. induction places as [|place rest IH]; intros w1 w2 Henv;
    cbn [map_outcome_in_world fst]; [constructor|].
  pose proof (demo_mapPlaceToSuggestion_related place w1 w2 Henv) as Hplace.
  pose proof (demo_mapPlaceToSuggestion_outcome number_toString place w1)
    as [Hv1 _].
  pose proof (demo_mapPlaceToSuggestion_outcome number_toString place w2)
    as [Hv2 _].
  destruct (ServiceDemo.mapPlaceToSuggestion number_toString place w1)
    as [[s1|e1] v1];
    destruct (ServiceDemo.mapPlaceToSuggestion number_toString place w2)
      as [[s2|e2] v2]; cbn [fst snd] in *; try contradiction; [|exact Hplace].
  assert (Henv' : env_GOOGLE_MAPS_API v1 = env_GOOGLE_MAPS_API v2)
    by (subst v1 v2; exact Henv).
  specialize (IH v1 v2 Henv').
  destruct (map_outcome_in_world _ rest v1) as [[l1|e1] u1];
    destruct (map_outcome_in_world _ rest v2) as [[l2|e2] u2];
    cbn [fst] in *; try contradiction; [now constructor|exact IH].
Qed.

Lemma demo_map_same_draws (places : list GooglePlace.t) (w1 w2 : World) :
  env_GOOGLE_MAPS_API w1 = env_GOOGLE_MAPS_API w2 ->
  (forall k : nat,
     random_draws w1 (random_next w1 + k)%nat
     = random_draws w2 (random_next w2 + k)%nat) ->
  fst (map_outcome_in_world
         (ServiceDemo.mapPlaceToSuggestion number_toString) places w1)
  = fst (map_outcome_in_world
           (ServiceDemo.mapPlaceToSuggestion number_toString) places w2).
Proof.
  revert w1 w2. induction places as [|place rest IH]; intros w1 w2 Henv Hdraws;
    cbn [map_outcome_in_world fst]; [reflexivity|].
  assert (Hdraw : random_draws w1 (random_next w1)
                  = random_draws w2 (random_next w2)).
  { specialize (Hdraws 0%nat). now rewrite !Nat.add_0_r in Hdraws. }
  pose proof (demo_mapPlaceToSuggestion_same_draw place w1 w2 Henv Hdraw) as Hplace.
  pose proof (demo_mapPlaceToSuggestion_outcome number_toString place w1)
    as [Hv1 _].
  pose proof (demo_mapPlaceToSuggestion_outcome number_toString place w2)
    as [Hv2 _].
  destruct (ServiceDemo.mapPlaceToSuggestion number_toString place w1)
    as [[s1|e1] v1];
    destruct (ServiceDemo.mapPlaceToSuggestion number_toString place w2)
      as [[s2|e2] v2]; cbn [fst snd] in *; try discriminate; [|congruence].
  injection Hplace as <-.
  assert (Hrest : fst (map_outcome_in_world
                         (ServiceDemo.mapPlaceToSuggestion number_toString) rest v1)
                  = fst (map_outcome_in_world
                           (ServiceDemo.mapPlaceToSuggestion number_toString) rest v2)).
  { apply IH; subst v1 v2; cbn; [exact Henv|].
    intros k. specialize (Hdraws (S k)).
    now rewrite <- !Nat.add_succ_r. }
  destruct (map_outcome_in_world _ rest v1) as [[l1|e1] u1];
    destruct (map_outcome_in_world _ rest v2) as [[l2|e2] u2];
    cbn [fst] in *; congruence.
Qed.

Lemma demo_map_world (places : list GooglePlace.t) (w : World) :
  let after :=
    snd (map_outcome_in_world
           (ServiceDemo.mapPlaceToSuggestion number_toString) places w) in
  random_draws after = random_draws w
  /\ env_GOOGLE_MAPS_API after = env_GOOGLE_MAPS_API w
  /\ (random_next w <= random_next after <= random_next w + length places)%nat.
Proof.
  cbv zeta. revert w. induction places as [|place rest IH]; intros w;
    cbn [map_outcome_in_world snd length]; [repeat split; lia|].
  pose proof (demo_mapPlaceToSuggestion_outcome number_toString place w)
    as [Hv _].
  destruct (ServiceDemo.mapPlaceToSuggestion number_toString place w)
    as [[s|e] v]; cbn [snd] in *.
  - specialize (IH v).
    destruct (map_outcome_in_world _ rest v) as [[l|e] u]; cbn [snd] in *;
      subst v; cbn in IH; destruct IH as (Hd & He & Hn); repeat split;
      try assumption; lia.
  - subst v. cbn. repeat split; lia.
Qed.

Lemma distanceKm_of_geometry (haversine_error : R -> R -> R -> R -> R)
    (place place' : GooglePlace.t) (userLat userLng : option R) :
  GooglePlace.geometry place = GooglePlace.geometry place' ->
  Service.distanceKm_of haversine_error place userLat userLng
  = Service.distanceKm_of haversine_error place' userLat userLng.
Proof. intros Hgeometry. unfold Service.distanceKm_of. now rewrite Hgeometry. Qed.

(** C7, as the code has it.  In the service of
    [server/services/google-places.ts] two conversions of the same places
    throw alike or return suggestions that agree in every field but
    distance and travel time, which follow the draws of [Math.random]: with
    the same draws the outputs are identical.  The conversion changes
    nothing but the position in the stream of draws, which it moves on by at
    most eight.  In the coordinate-aware service no draw is taken: distance
    and travel time of a suggestion depend on nothing but the requester
    coordinate and the coordinate of the place. *)
Theorem conversion_fixed_up_to_draws (places : list GooglePlace.t) :
  let call := ServiceDemo.convertToTravelSuggestions number_toString places in
  (forall w1 w2 : World,
     env_GOOGLE_MAPS_API w1 = env_GOOGLE_MAPS_API w2 ->
     match fst (call w1), fst (call w2) with
     | Return l1, Return l2 => List.Forall2 same_but_distance l1 l2
     | Throw e1, Throw e2 => e1 = e2
     | _, _ => False
     end)
  /\ (forall w1 w2 : World,
        env_GOOGLE_MAPS_API w1 = env_GOOGLE_MAPS_API w2 ->
        (forall k : nat,
           random_draws w1 (random_next w1 + k)%nat
           = random_draws w2 (random_next w2 + k)%nat) ->
        fst (call w1) = fst (call w2))
  /\ (forall w : World,
        random_draws (snd (call w)) = random_draws w
        /\ env_GOOGLE_MAPS_API (snd (call w)) = env_GOOGLE_MAPS_API w
        /\ (random_next w <= random_next (snd (call w)) <= random_next w + 8)%nat)
  /\ (forall (haversine_error : R -> R -> R -> R -> R)
             (this this' : GooglePlaces.GooglePlacesService)
             (place place' : GooglePlace.t) (userLat userLng : option R),
        GooglePlace.geometry place = GooglePlace.geometry place' ->
        match Service.mapPlaceToSuggestion haversine_error this place
                userLat userLng,
              Service.mapPlaceToSuggestion haversine_error this' place'
                userLat userLng with
        | Return s, Return s' =>
            TravelSuggestion.distance s = TravelSuggestion.distance s'
            /\ TravelSuggestion.travelTime s = TravelSuggestion.travelTime s'
        | _, _ => True
        end).
Proof.
  cbv zeta. unfold ServiceDemo.convertToTravelSuggestions.
  split; [|split; [|split]].
  - intros w1 w2. apply demo_map_related.
  - intros w1 w2. apply demo_map_same_draws.
  - intros w.
    pose proof (demo_map_world
                  (JS.slice0 8 (List.filter isValidTravelDestination places)) w)
      as (Hd & He & Hn).
    split; [exact Hd|]. split; [exact He|].
    assert (Hlen : (length (JS.slice0 8 (List.filter isValidTravelDestination places))
                    <= 8)%nat)
      by (unfold JS.slice0; rewrite length_firstn; lia).
    lia.
  - intros haversine_error this this' place place' userLat userLng Hgeometry.
    pose proof (mapPlaceToSuggestion_outcome haversine_error this place
                  userLat userLng) as Hmap.
    pose proof (mapPlaceToSuggestion_outcome haversine_error this' place'
                  userLat userLng) as Hmap'.
    rewrite (distanceKm_of_geometry haversine_error place place' userLat userLng
               Hgeometry) in Hmap.
    destruct (getPlaceType place) as [type|key];
      [destruct Hmap as (s & -> & _ & _ & Hdistance & Htime)|now rewrite Hmap].
    destruct (getPlaceType place') as [type'|key'];
      [destruct Hmap' as (s' & -> & _ & _ & Hdistance' & Htime')|now rewrite Hmap'].
    split; congruence.
Qed.

End DeterminismProperties.

(** C7, as the specification words it, fails on the service of
    [server/services/google-places.ts]: two conversions of the Louvre, with
    the draws 0 and 1/2, give the distances "1.0km" and "11.0km", and each
    moves the stream of draws on. *)
Lemma demo_conversion_draws_distance :
  ~ Spec.deterministic
      (ServiceDemo.convertToTravelSuggestions Samples.number_toString
         [Samples.louvre])
  /\ ~ Spec.side_effect_free
        (ServiceDemo.convertToTravelSuggestions Samples.number_toString
           [Samples.louvre]).
Proof.
  assert (Hcall : forall draw : R,
            exists suggestion : TravelSuggestion.t,
              fst (ServiceDemo.convertToTravelSuggestions Samples.number_toString
                     [Samples.louvre] (Samples.world draw)) = Return [suggestion]
              /\ TravelSuggestion.distance suggestion
                 = PlaceClassifier.distanceStr (draw * 20 + 1)).
  { intros draw.
    pose proof (demo_mapPlaceToSuggestion_outcome Samples.number_toString
                  Samples.louvre (Samples.world draw)) as [_ Hmap].
    replace (PlaceTypes.getPlaceType Samples.louvre)
      with (PlaceTypes.Label "Museum") in Hmap by (vm_compute; reflexivity).
    destruct Hmap as (suggestion & Hreturn & _ & _ & Hdistance & _).
    exists suggestion. split; [|exact Hdistance].
    unfold ServiceDemo.convertToTravelSuggestions.
    replace (JS.slice0 8 (List.filter PlaceClassifier.isValidTravelDestination
                            [Samples.louvre]))
      with [Samples.louvre] by (vm_compute; reflexivity).
    cbn [PlaceTypes.map_outcome_in_world].
    destruct (ServiceDemo.mapPlaceToSuggestion Samples.number_toString
                Samples.louvre (Samples.world draw)) as [outcome v].
    cbn [fst] in Hreturn. subst outcome. reflexivity. }
  split.
  - intros Hdet. specialize (Hdet (Samples.world 0) (Samples.world (/ 2))).
    destruct (Hcall 0%R) as (s1 & Hs1 & Hd1).
    destruct (Hcall (/ 2)%R) as (s2 & Hs2 & Hd2).
    rewrite Hs1, Hs2 in Hdet. injection Hdet as ->.
    rewrite Hd1 in Hd2. revert Hd2. unfold PlaceClassifier.distanceStr.
    destruct (Rlt_dec (0 * 20 + 1) 1) as [Hlt|_]; [lra|].
    destruct (Rlt_dec (/ 2 * 20 + 1) 1) as [Hlt|_]; [lra|].
    rewrite (toFixed1_tenths 10) by lra.
    rewrite (toFixed1_tenths 110) by lra.
    vm_compute. discriminate.
  - intros Hfree. specialize (Hfree (Samples.world 0)).
    apply (f_equal random_next) in Hfree.
    vm_compute in Hfree. discriminate.
Qed.

(** ** The suggestions route *)

Section RouteProperties.

Import PlaceClassifier PlaceTypes Spec.
Local Open Scope R_scope.

Variable parseFloat : string -> option R.
Variable parseInt : string -> option Z.

Lemma locationSuggestions_tried (service : SuggestionsRoute.PlacesService)
    (query : Routes.SuggestionsQuery) (fetched : PlaceSearch.FetchResult)
    (w : World) (slat slng : string) (latitude longitude : R) :
  Routes.lat query = Some slat -> JS.truthy_string slat = true ->
  Routes.lng query = Some slng -> JS.truthy_string slng = true ->
  parseFloat slat = Some latitude -> parseFloat slng = Some longitude ->
  SuggestionsRoute.locationSuggestions parseFloat parseInt service query fetched w
  = match PlaceSearch.searchNearbyPlaces
            (SuggestionsRoute.service_API_KEY service) latitude longitude
            (if JS.truthy_string (default "" (Routes.radius query))
             then parseInt (default "" (Routes.radius query)) else Some 25000%Z)
            fetched with
    | Return places =>
        match SuggestionsRoute.service_convert service places w with
        | (Return suggestions, w) =>
            (Routes.mkResponse 200 (Routes.JsonSuggestions suggestions), w)
        | (Throw _, w) =>
            (Routes.mkResponse 200
               (Routes.JsonSuggestions (SuggestionsRoute.service_fallback service)),
             w)
        end
    | Throw _ =>
        (Routes.mkResponse 200
           (Routes.JsonSuggestions (SuggestionsRoute.service_fallback service)), w)
    end.
Proof.
  intros Hlat Hslat Hlng Hslng Hplat Hplng.
  unfold SuggestionsRoute.locationSuggestions.
  rewrite Hlat, Hlng. cbn [from_option]. unfold Datatypes.id.
  rewrite Hslat, Hslng. cbn [negb orb].
  now rewrite Hplat, Hplng.
Qed.

Lemma of_repository_fallback (service : SuggestionsRoute.PlacesService) :
  SuggestionsRoute.of_repository service ->
  SuggestionsRoute.service_fallback service = getFallbackSuggestions.
Proof. intros [(e & this & ->)|(n & key & ->)]; reflexivity. Qed.

Lemma convert_none_eligible (service : SuggestionsRoute.PlacesService)
    (places : list GooglePlace.t) (w : World) :
  SuggestionsRoute.of_repository service ->
  List.filter isValidTravelDestination places = [] ->
  SuggestionsRoute.service_convert service places w = (Return [], w).
Proof.
  intros [(e & this & ->)|(n & key & ->)] Hnone;
    cbn [SuggestionsRoute.coordinateAwareService SuggestionsRoute.demoService
         SuggestionsRoute.service_convert].
  - unfold Service.convertToTravelSuggestions. now rewrite Hnone.
  - unfold ServiceDemo.convertToTravelSuggestions. now rewrite Hnone.
Qed.

(** C1, as the code has it.  On a request with coordinates, when the place
    search throws (no credential, network error, status outside 2xx, a body
    that is not JSON, provider status other than OK), the route answers 200
    with the fallback list of three, fallback-1 to fallback-3, and
    propagates nothing.  When the search succeeds and none of the places
    found is eligible, the route answers 200 with the empty list. *)
Theorem locationSuggestions_fallback_when_search_throws
    (service : SuggestionsRoute.PlacesService)
    (query : Routes.SuggestionsQuery) (fetched : PlaceSearch.FetchResult)
    (w : World) (slat slng : string) (latitude longitude : R) :
  SuggestionsRoute.of_repository service ->
  Routes.lat query = Some slat -> JS.truthy_string slat = true ->
  Routes.lng query = Some slng -> JS.truthy_string slng = true ->
  parseFloat slat = Some latitude -> parseFloat slng = Some longitude ->
  let answer :=
    SuggestionsRoute.locationSuggestions parseFloat parseInt service query
      fetched w in
  (search_fails (SuggestionsRoute.service_API_KEY service) fetched ->
     answer = (Routes.mkResponse 200 (Routes.JsonSuggestions getFallbackSuggestions), w)
     /\ map TravelSuggestion.id getFallbackSuggestions
        = ["fallback-1"; "fallback-2"; "fallback-3"])
  /\ (~ search_fails (SuggestionsRoute.service_API_KEY service) fetched ->
      exists ok http_status statusText data,
        fetched = PlaceSearch.FetchResponse ok http_status statusText (Return data)
        /\ (List.filter isValidTravelDestination
              (default [] (PlaceSearch.results data)) = [] ->
            answer = (Routes.mkResponse 200 (Routes.JsonSuggestions []), w))).
Proof.
  intros Hrepo Hlat Hslat Hlng Hslng Hplat Hplng. cbv zeta.
  rewrite (locationSuggestions_tried _ query fetched w slat slng latitude longitude)
    by assumption.
  rewrite (of_repository_fallback service Hrepo).
  split.
  - intros Hfail.
    apply (searchNearbyPlaces_throws _ latitude longitude
             (if JS.truthy_string (default "" (Routes.radius query))
              then parseInt (default "" (Routes.radius query)) else Some 25000%Z))
      in Hfail as [e He].
    rewrite He. split; reflexivity.
  - intros Hok.
    destruct (searchNearbyPlaces_returns _ latitude longitude
                (if JS.truthy_string (default "" (Routes.radius query))
                 then parseInt (default "" (Routes.radius query)) else Some 25000%Z)
                fetched Hok)
      as (ok & http_status & statusText & data & Hfetched & _ & Hsearch).
    exists ok, http_status, statusText, data.
    split; [assumption|]. intros Hnone.
    rewrite Hsearch. now rewrite (convert_none_eligible service _ w Hrepo Hnone).
Qed.

(** What the conversion throws is caught like what the search throws: the
    fallback list is the answer. *)
Lemma locationSuggestions_fallback_when_conversion_throws
    (service : SuggestionsRoute.PlacesService)
    (query : Routes.SuggestionsQuery) (fetched : PlaceSearch.FetchResult)
    (w : World) (slat slng : string) (latitude longitude : R)
    (places : list GooglePlace.t) (e : Error) :
  Routes.lat query = Some slat -> JS.truthy_string slat = true ->
  Routes.lng query = Some slng -> JS.truthy_string slng = true ->
  parseFloat slat = Some latitude -> parseFloat slng = Some longitude ->
  PlaceSearch.searchNearbyPlaces (SuggestionsRoute.service_API_KEY service)
    latitude longitude
    (if JS.truthy_string (default "" (Routes.radius query))
     then parseInt (default "" (Routes.radius query)) else Some 25000%Z) fetched
  = Return places ->
  fst (SuggestionsRoute.service_convert service places w) = Throw e ->
  fst (SuggestionsRoute.locationSuggestions parseFloat parseInt service query
         fetched w)
  = Routes.mkResponse 200
      (Routes.JsonSuggestions (SuggestionsRoute.service_fallback service)).
Proof.
  intros Hlat Hslat Hlng Hslng Hplat Hplng Hsearch Hconvert.
  rewrite (locationSuggestions_tried _ query fetched w slat slng latitude longitude)
    by assumption.
  rewrite Hsearch.
  destruct (SuggestionsRoute.service_convert service places w) as [outcome v].
  cbn [fst] in Hconvert. now subst outcome.
Qed.

End RouteProperties.

(** A failed fetch on the sample request, with either service. *)
Lemma locationSuggestions_fallback_when_search_throws_witness :
  List.Forall
    (fun service =>
       SuggestionsRoute.locationSuggestions Samples.parseFloat Samples.parseInt
         service Samples.query
         (PlaceSearch.FetchRejected (mkError "fetch failed")) (Samples.world 0)
       = (Routes.mkResponse 200
            (Routes.JsonSuggestions PlaceClassifier.getFallbackSuggestions),
          Samples.world 0))
    [ SuggestionsRoute.demoService Samples.number_toString (Some "key");
      SuggestionsRoute.coordinateAwareService EdgeSamples.haversine_error
        Samples.service ].
Proof.
  apply List.Forall_cons; [|apply List.Forall_cons; [|apply List.Forall_nil]].
  - apply (locationSuggestions_fallback_when_search_throws
             Samples.parseFloat Samples.parseInt
             (SuggestionsRoute.demoService Samples.number_toString (Some "key"))
             Samples.query (PlaceSearch.FetchRejected (mkError "fetch failed"))
             (Samples.world 0) "48.8566" "2.3522" 48.8566%R 2.3522%R);
      try reflexivity.
    + right. now exists Samples.number_toString, (Some "key").
    + right. exact I.
  - apply (locationSuggestions_fallback_when_search_throws
             Samples.parseFloat Samples.parseInt
             (SuggestionsRoute.coordinateAwareService EdgeSamples.haversine_error
                Samples.service)
             Samples.query (PlaceSearch.FetchRejected (mkError "fetch failed"))
             (Samples.world 0) "48.8566" "2.3522" 48.8566%R 2.3522%R);
      try reflexivity.
    + left. now exists EdgeSamples.haversine_error, Samples.service.
    + right. exact I.
Defined.

(** C1, as the specification words it, fails: the search succeeds with one
    place, a lodging, which is not eligible; with either service the route
    answers the empty list, not the fallback list. *)
Lemma locationSuggestions_none_eligible_is_empty :
  List.filter PlaceClassifier.isValidTravelDestination [Samples.hotel] = []
  /\ List.Forall
       (fun service =>
          SuggestionsRoute.locationSuggestions Samples.parseFloat Samples.parseInt
            service Samples.query (Samples.answer [Samples.hotel]) (Samples.world 0)
          = (Routes.mkResponse 200 (Routes.JsonSuggestions []), Samples.world 0))
       [ SuggestionsRoute.demoService Samples.number_toString (Some "key");
         SuggestionsRoute.coordinateAwareService EdgeSamples.haversine_error
           Samples.service ]
  /\ Routes.JsonSuggestions []
     <> Routes.JsonSuggestions PlaceClassifier.getFallbackSuggestions.
Proof.
  split; [reflexivity|]. split.
  - repeat constructor.
  - unfold PlaceClassifier.getFallbackSuggestions. discriminate.
Qed.

(** A place found whose first tag is [constructor]: the conversion throws
    and the route answers the fallback list. *)
Example locationSuggestions_inherited_tag :
  List.Forall
    (fun service =>
       fst (SuggestionsRoute.locationSuggestions Samples.parseFloat Samples.parseInt
              service Samples.query
              (Samples.answer [Samples.louvre; EdgeSamples.oddity])
              (Samples.world 0))
       = Routes.mkResponse 200
           (Routes.JsonSuggestions PlaceClassifier.getFallbackSuggestions))
    [ SuggestionsRoute.demoService Samples.number_toString (Some "key");
      SuggestionsRoute.coordinateAwareService EdgeSamples.haversine_error
        Samples.service ].
Proof.
  apply List.Forall_cons; [|apply List.Forall_cons; [|apply List.Forall_nil]].
  - apply (locationSuggestions_fallback_when_conversion_throws
             Samples.parseFloat Samples.parseInt
             (SuggestionsRoute.demoService Samples.number_toString (Some "key"))
             Samples.query (Samples.answer [Samples.louvre; EdgeSamples.oddity])
             (Samples.world 0) "48.8566" "2.3522" 48.8566%R 2.3522%R
             [Samples.louvre; EdgeSamples.oddity] PlaceTypes.TypeError);
      reflexivity.
  - apply (locationSuggestions_fallback_when_conversion_throws
             Samples.parseFloat Samples.parseInt
             (SuggestionsRoute.coordinateAwareService EdgeSamples.haversine_error
                Samples.service)
             Samples.query (Samples.answer [Samples.louvre; EdgeSamples.oddity])
             (Samples.world 0) "48.8566" "2.3522" 48.8566%R 2.3522%R
             [Samples.louvre; EdgeSamples.oddity] PlaceTypes.TypeError);
      reflexivity.
Qed.

(** ** The haversine distance in doubles *)

Section HaversineDoubles.

Import PlaceTypes.
Local Open Scope R_scope.

Variable haversine_error : R -> R -> R -> R -> R.

(** The distance is [NaN] when the haversine term, with its rounding
    error, leaves the interval from 0 to 1, and a number between 0 and half
    the circumference of the Earth, 6371 times pi, otherwise. *)
Theorem calculateDistance_range (lat1 lng1 lat2 lng2 : R) :
  let a :=
    sin ((lat2 - lat1) * PI / 180 / 2) * sin ((lat2 - lat1) * PI / 180 / 2) +
    cos (lat1 * PI / 180) * cos (lat2 * PI / 180) *
    sin ((lng2 - lng1) * PI / 180 / 2) * sin ((lng2 - lng1) * PI / 180 / 2)
    + haversine_error lat1 lng1 lat2 lng2 in
  match Service.calculateDistance haversine_error lat1 lng1 lat2 lng2 with
  | Number.Num d => 0 <= a <= 1 /\ 0 <= d <= 6371 * PI
  | Number.NaN => a < 0 \/ 1 < a
  end.
Proof.
  cbv zeta. unfold Service.calculateDistance. cbv zeta.
  set (a := sin ((lat2 - lat1) * PI / 180 / 2) * sin ((lat2 - lat1) * PI / 180 / 2) +
            cos (lat1 * PI / 180) * cos (lat2 * PI / 180) *
            sin ((lng2 - lng1) * PI / 180 / 2) * sin ((lng2 - lng1) * PI / 180 / 2)
            + haversine_error lat1 lng1 lat2 lng2).
  unfold Number.Math_sqrt.
  destruct (Rlt_dec a 0) as [Hneg|Hpos]; [now left|].
  destruct (Rlt_dec (1 - a) 0) as [Hbig|Hsmall]; [right; lra|].
  cbn [Number.Math_atan2 Number.mul Number.lift2].
  pose proof (Math_atan2_nonneg (sqrt a) (sqrt (1 - a)) (sqrt_pos a)
                (sqrt_pos (1 - a))) as [Hlow Hhigh].
  pose proof PI_RGT_0 as Hpi.
  split; [lra|]. split.
  - apply Rmult_le_pos; lra.
  - lra.
Qed.

Lemma antipodal_term :
  sin ((12 - -12) * PI / 180 / 2) * sin ((12 - -12) * PI / 180 / 2) +
  cos (-12 * PI / 180) * cos (12 * PI / 180) *
  sin ((1 - -179) * PI / 180 / 2) * sin ((1 - -179) * PI / 180 / 2) = 1.
Proof.
  replace ((1 - -179) * PI / 180 / 2) with (PI / 2) by lra.
  replace ((12 - -12) * PI / 180 / 2) with (12 * PI / 180) by lra.
  replace (-12 * PI / 180) with (- (12 * PI / 180)) by lra.
  rewrite sin_PI2, cos_neg.
  pose proof (sin2_cos2 (12 * PI / 180)) as H. unfold Rsqr in H. lra.
Qed.

(** C8 at the points (-12, -179) and (12, 1), where the doubles round the
    haversine term to 1.0000000000000002: a rounding error above 0 makes
    [Math.sqrt(1 - a)] and so the distance [NaN], and [NaN == NaN] is
    false, so the distance does not equal the distance the other way
    round. *)
Theorem calculateDistance_NaN_near_antipodes :
  0 < haversine_error (-12) (-179) 12 1 ->
  Service.calculateDistance haversine_error (-12) (-179) 12 1 = Number.NaN
  /\ Number.equals
       (Service.calculateDistance haversine_error (-12) (-179) 12 1)
       (Service.calculateDistance haversine_error 12 1 (-12) (-179)) = false
  /\ Service.distanceStr (Service.calculateDistance haversine_error (-12) (-179) 12 1)
     = "NaNkm".
Proof.
  intros Herror.
  assert (HNaN : Service.calculateDistance haversine_error (-12) (-179) 12 1
                 = Number.NaN).
  { unfold Service.calculateDistance. cbv zeta. rewrite antipodal_term.
    unfold Number.Math_sqrt.
    destruct (Rlt_dec (1 + haversine_error (-12) (-179) 12 1) 0) as [Hneg|_];
      [reflexivity|].
    destruct (Rlt_dec (1 - (1 + haversine_error (-12) (-179) 12 1)) 0)
      as [_|Hpos]; [reflexivity|lra]. }
  rewrite HNaN. repeat split.
Qed.

(** Where the doubles compute the haversine term exactly, as they do from a
    point to itself, the distance is as over the reals: 0 from a point to
    itself. *)
Lemma calculateDistance_exact_same (lat lng : R) :
  haversine_error lat lng lat lng = 0 ->
  Service.calculateDistance haversine_error lat lng lat lng = Number.Num 0.
Proof.
  intros Herror. unfold Service.calculateDistance. cbv zeta. rewrite Herror.
  replace ((lat - lat) * PI / 180 / 2) with 0 by lra.
  replace ((lng - lng) * PI / 180 / 2) with 0 by lra.
  rewrite sin_0.
  replace (0 * 0 + cos (lat * PI / 180) * cos (lat * PI / 180) * 0 * 0 + 0)
    with 0 by ring.
  rewrite Rminus_0_r. unfold Number.Math_sqrt.
  destruct (Rlt_dec 0 0) as [H|_]; [lra|].
  destruct (Rlt_dec 1 0) as [H|_]; [lra|].
  cbn [Number.Math_atan2 Number.mul Number.lift2].
  rewrite sqrt_0, sqrt_1, Math_atan2_0_1. f_equal. ring.
Qed.

End HaversineDoubles.

(** With one unit in the last place as the rounding error. *)
Lemma calculateDistance_NaN_near_antipodes_witness :
  Service.calculateDistance EdgeSamples.haversine_error (-12) (-179) 12 1
  = Number.NaN
  /\ Number.equals
       (Service.calculateDistance EdgeSamples.haversine_error (-12) (-179) 12 1)
       (Service.calculateDistance EdgeSamples.haversine_error 12 1 (-12) (-179))
     = false
  /\ Service.distanceStr
       (Service.calculateDistance EdgeSamples.haversine_error (-12) (-179) 12 1)
     = "NaNkm".
Proof.
  apply (calculateDistance_NaN_near_antipodes EdgeSamples.haversine_error).
  unfold EdgeSamples.haversine_error.
  destruct (Req_dec_T (-12) 12) as [H|_]; lra.
Defined.

(** ** The regular case *)

Section Regular.

Import PlaceClassifier PlaceTypes.
Local Open Scope R_scope.

Variable haversine_error : R -> R -> R -> R -> R.

(** Where the display type is a label and the distance a number, the
    suggestion is the one of [GooglePlaces.mapPlaceToSuggestion]. *)
Lemma mapPlaceToSuggestion_regular (this : GooglePlaces.GooglePlacesService)
    (place : GooglePlace.t) (userLat userLng : option R) (type : string) :
  getPlaceType place = Label type ->
  Service.distanceKm_of haversine_error place userLat userLng
  = Number.Num (GooglePlaces.distanceKm_of place userLat userLng) ->
  Service.mapPlaceToSuggestion haversine_error this place userLat userLng
  = Return (GooglePlaces.mapPlaceToSuggestion this place userLat userLng).
Proof.
  intros Htype Hdistance.
  unfold Service.mapPlaceToSuggestion, Service.generateDescription,
    GooglePlaces.mapPlaceToSuggestion, GooglePlaces.generateDescription.
  rewrite Htype, Hdistance, distanceStr_Num, travelTimeStr_Num.
  now rewrite (getPlaceType_label place type Htype).
Qed.

Lemma map_outcome_regular {A B : Type} (f : A -> Outcome B) (g : A -> B)
    (l : list A) :
  List.Forall (fun x => f x = Return (g x)) l ->
  map_outcome f l = Return (map g l).
Proof.
  induction 1 as [|x rest Hx _ IH]; [reflexivity|].
  cbn [map_outcome map]. now rewrite Hx, IH.
Qed.

(** Called as the route calls it, on places none of which takes its
    display type from an inherited property, the conversion returns what
    [GooglePlaces.convertToTravelSuggestions] describes. *)
Lemma convertToTravelSuggestions_regular (this : GooglePlaces.GooglePlacesService)
    (places : list GooglePlace.t) :
  List.Forall (fun place => exists type : string, getPlaceType place = Label type)
    (List.filter isValidTravelDestination places) ->
  Service.convertToTravelSuggestions haversine_error this places None None
  = Return (GooglePlaces.convertToTravelSuggestions this places None None).
Proof.
  intros Hlabels.
  unfold Service.convertToTravelSuggestions, GooglePlaces.convertToTravelSuggestions.
  rewrite (map_outcome_regular _
             (fun place => GooglePlaces.mapPlaceToSuggestion this place None None));
    [reflexivity|].
  revert Hlabels. apply List.Forall_impl. intros place [type Htype].
  now apply (mapPlaceToSuggestion_regular this place None None type).
Qed.

End Regular.

(** ** The route on every input *)

Section RouteEveryInput.

Import PlaceClassifier PlaceTypes.
Local Open Scope R_scope.

Variable parseFloat : string -> option R.
Variable parseInt : string -> option Z.

Lemma mapPlaceToSuggestion_without_coordinate
    (haversine_error : R -> R -> R -> R -> R)
    (this : GooglePlaces.GooglePlacesService) (place : GooglePlace.t)
    (suggestion : TravelSuggestion.t) :
  Service.mapPlaceToSuggestion haversine_error this place None None
  = Return suggestion ->
  TravelSuggestion.distance suggestion = "5.0km"
  /\ TravelSuggestion.travelTime suggestion = "8min".
Proof.
  pose proof (mapPlaceToSuggestion_outcome haversine_error this place None None)
    as Hmap.
  destruct (getPlaceType place) as [type|key]; [|rewrite Hmap; discriminate].
  destruct Hmap as (s & -> & _ & _ & Hdistance & Htime). intros [= <-].
  cbn [Service.distanceKm_of] in Hdistance, Htime.
  rewrite distanceStr_Num in Hdistance. rewrite travelTimeStr_Num in Htime.
  rewrite Hdistance, Htime. split; [apply distanceStr_5|apply travelTime_5km].
Qed.

(** With a conversion that can throw, the route still answers 200 with a
    list, or 400 with a message.  With the coordinate-aware service the list
    is the fallback list or has at most six suggestions, each 5.0 km and 8
    minutes away, and the world is as it was. *)
Lemma locationSuggestions_every_input
    (haversine_error : R -> R -> R -> R -> R)
    (this : GooglePlaces.GooglePlacesService) (query : Routes.SuggestionsQuery)
    (fetched : PlaceSearch.FetchResult) (w : World) :
  let '(response, after) :=
    SuggestionsRoute.locationSuggestions parseFloat parseInt
      (SuggestionsRoute.coordinateAwareService haversine_error this) query
      fetched w in
  after = w
  /\ match Routes.body response with
     | Routes.JsonSuggestions suggestions =>
         Routes.statusCode response = 200%Z
         /\ (suggestions = getFallbackSuggestions
             \/ (length suggestions <= 6)%nat
                /\ List.Forall
                     (fun suggestion =>
                        TravelSuggestion.distance suggestion = "5.0km"
                        /\ TravelSuggestion.travelTime suggestion = "8min")
                     suggestions)
     | Routes.JsonMessage _ => Routes.statusCode response = 400%Z
     | Routes.JsonItinerary _ => False
     end.
Proof.
  unfold SuggestionsRoute.locationSuggestions.
  destruct (negb _ || negb _); [now split|].
  destruct (parseFloat (default "" (Routes.lat query))) as [latitude|];
    [|now split].
  destruct (parseFloat (default "" (Routes.lng query))) as [longitude|];
    [|now split].
  destruct (PlaceSearch.searchNearbyPlaces _ _ _ _ _) as [places|e];
    [|split; [reflexivity|split; [reflexivity|now left]]].
  cbn [SuggestionsRoute.coordinateAwareService SuggestionsRoute.service_convert
       SuggestionsRoute.service_fallback].
  pose proof (map_outcome_cases
                (fun place => Service.mapPlaceToSuggestion haversine_error this
                                place None None)
                (List.filter isValidTravelDestination places)) as Hmap.
  unfold Service.convertToTravelSuggestions.
  destruct (map_outcome _ _) as [mapped|e];
    [|split; [reflexivity|split; [reflexivity|now left]]].
  split; [reflexivity|]. split; [reflexivity|]. right. unfold JS.slice0. split.
  - rewrite length_firstn. lia.
  - apply Forall_take.
    induction Hmap as [|place suggestion rest mapped Hplace _ IH];
      constructor; [|exact IH].
    exact (mapPlaceToSuggestion_without_coordinate haversine_error this place
             suggestion Hplace).
Qed.

(** With the service of [server/services/google-places.ts] the list has at
    most eight suggestions. *)
Lemma demo_locationSuggestions_every_input
    (number_toString : R -> string) (API_KEY : option string)
    (query : Routes.SuggestionsQuery) (fetched : PlaceSearch.FetchResult)
    (w : World) :
  let response :=
    fst (SuggestionsRoute.locationSuggestions parseFloat parseInt
           (SuggestionsRoute.demoService number_toString API_KEY) query
           fetched w) in
  match Routes.body response with
  | Routes.JsonSuggestions suggestions =>
      Routes.statusCode response = 200%Z /\ (length suggestions <= 8)%nat
  | Routes.JsonMessage _ => Routes.statusCode response = 400%Z
  | Routes.JsonItinerary _ => False
  end.
Proof.
  cbv zeta. unfold SuggestionsRoute.locationSuggestions.
  destruct (negb _ || negb _); [reflexivity|].
  destruct (parseFloat (default "" (Routes.lat query))) as [latitude|];
    [|reflexivity].
  destruct (parseFloat (default "" (Routes.lng query))) as [longitude|];
    [|reflexivity].
  destruct (PlaceSearch.searchNearbyPlaces _ _ _ _ _) as [places|e];
    [|split; [reflexivity|cbn; lia]].
  cbn [SuggestionsRoute.demoService SuggestionsRoute.service_convert
       SuggestionsRoute.service_fallback].
  pose proof (demo_map_cases number_toString
                (firstn 8 (List.filter isValidTravelDestination places)) w)
    as Hmap.
  unfold ServiceDemo.convertToTravelSuggestions, JS.slice0.
  destruct (map_outcome_in_world _ _ w) as [[suggestions|e] v];
    cbn [fst] in *; [|split; [reflexivity|cbn; lia]].
  split; [reflexivity|]. cbn [Routes.body].
  apply List.Forall2_length in Hmap. rewrite length_firstn in Hmap. lia.
Qed.

End RouteEveryInput.
